(** * NSE insider-trading scraper: the incremental update core

    A shallow embedding of [cron_script.py] (module [Cron]) and of the
    one-shot variant [main.py] (module [Main]): the identity key, the merge
    against the data file, the backup and write, the checkpoint and the
    fetch window, and the decoding of the API response.

    pandas, the file system, the clock and the network are library code:
    a [DataFrame] is modelled column by column as pandas stores it, the
    file system as a finite map from paths to files, Python objects that
    a caller shares with a callee as locations of a store, exceptions as
    an outcome of a small state-and-exception monad.  What a library
    computes and the program never inspects (CSV text, [str] of a number,
    JSON parsing, Brotli) is a field of the class [Runtime]. *)

From stdpp Require Import base option list strings pretty gmap.
From Stdlib Require Import ZArith Lia Ascii.

Local Open Scope string_scope.
Local Open Scope Z_scope.

(** ** Cell values and frames *)

(** A cell of a frame.  [NA] stands for every value [pd.isna] accepts
    (None, NaN, NaT, pd.NA).  Numbers are integer codes of the numeric
    value, times are microseconds since the epoch. *)
Inductive value : Type :=
  | NA
  | Str (s : string)
  | Num (n : Z)
  | Date (t : Z).

#[global] Instance value_eq_dec : EqDecision value.
Proof. solve_decision. Defined.

Definition notna (v : value) : bool :=
  match v with NA => false | _ => true end.

(** A row handed to a function by [DataFrame.apply(axis=1)]: the column
    labels with the row's cells. *)
Definition Series : Type := list (string * value).

Definition in_index (field : string) (row : Series) : bool :=
  bool_decide (field ∈ row.*1).

(** A frame: the length of its index and its columns in order. *)
Record DataFrame : Type := mkDF {
  nrows : nat;
  cols : list (string * list value)
}.

#[global] Instance DataFrame_eq_dec : EqDecision DataFrame.
Proof. solve_decision. Defined.

Definition columns (df : DataFrame) : list string := (cols df).*1.

Definition has_column (c : string) (df : DataFrame) : bool :=
  bool_decide (c ∈ columns df).

(** [df.empty]: some axis has length zero. *)
Definition empty (df : DataFrame) : bool :=
  (nrows df =? 0)%nat || bool_decide (cols df = []).

(** [pd.DataFrame()] *)
Definition empty_frame : DataFrame := mkDF 0 [].

Fixpoint assoc_get {A} (l : list (string * A)) (c : string) : option A :=
  match l with
  | [] => None
  | (k, a) :: rest => if String.eqb k c then Some a else assoc_get rest c
  end.

Fixpoint assoc_set {A} (l : list (string * A)) (c : string) (a : A)
  : list (string * A) :=
  match l with
  | [] => [(c, a)]
  | (k, b) :: rest =>
      if String.eqb k c then (k, a) :: rest else (k, b) :: assoc_set rest c a
  end.

(** [row[field]] *)
Definition series_get (row : Series) (field : string) : option value :=
  assoc_get row field.

Definition cell (vs : list value) (i : nat) : value := default NA (vs !! i).

Definition iloc (df : DataFrame) (i : nat) : Series :=
  (fun cv => (cv.1, cell cv.2 i)) <$> cols df.

(** [df.apply(f, axis=1)] for [f] returning a scalar. *)
Definition apply_rows {A} (f : Series -> A) (df : DataFrame) : list A :=
  (fun i => f (iloc df i)) <$> seq 0 (nrows df).

(** [df[c]]; [None] is the KeyError of a missing label. *)
Definition get_column (df : DataFrame) (c : string) : option (list value) :=
  assoc_get (cols df) c.

(** [df[c]] where the program has checked [c in df.columns] or has just
    assigned the column. *)
Definition column (df : DataFrame) (c : string) : list value :=
  default [] (get_column df c).

(** [df[c] = vs]: replaces the column when it exists, appends it otherwise. *)
Definition set_column (df : DataFrame) (c : string) (vs : list value) : DataFrame :=
  mkDF (nrows df) (assoc_set (cols df) c vs).

(** [df.drop(c, axis=1)]; [None] is the KeyError of a missing label. *)
Definition drop_column (df : DataFrame) (c : string) : option DataFrame :=
  if has_column c df
  then Some (mkDF (nrows df) (filter (fun cv => cv.1 ≠ c) (cols df)))
  else None.

Fixpoint select {A} (mask : list bool) (l : list A) : list A :=
  match mask, l with
  | b :: mask', x :: l' => if b then x :: select mask' l' else select mask' l'
  | _, _ => []
  end.

Definition count_true (mask : list bool) : nat :=
  length (filter (fun b => b = true) mask).

(** [df[mask]] for a boolean mask aligned with the index. *)
Definition take_mask (df : DataFrame) (mask : list bool) : DataFrame :=
  mkDF (count_true mask)
       ((fun cv => (cv.1, select mask cv.2)) <$> cols df).

(** [s.isin(other)] *)
Definition isin (s other : list value) : list bool :=
  (fun v => bool_decide (v ∈ other)) <$> s.

Definition pad (n : nat) (vs : list value) : list value :=
  take n (vs ++ replicate n NA)%list.

(** [pd.concat([a, b], ignore_index=True)]: the union of the columns in
    order of appearance, cells of a column a frame lacks filled with NA. *)
Definition concat (a b : DataFrame) : DataFrame :=
  let extra := filter (fun cv => cv.1 ∉ columns a) (cols b) in
  mkDF (nrows a + nrows b)
       (((fun cv => (cv.1, pad (nrows a) cv.2 ++
                           match assoc_get (cols b) cv.1 with
                           | Some ws => pad (nrows b) ws
                           | None => replicate (nrows b) NA
                           end)) <$> cols a) ++
        ((fun cv => (cv.1, replicate (nrows a) NA ++ pad (nrows b) cv.2)) <$> extra))%list.

(** ** Sorting a frame by a column *)

(** Python orders two cells of one type and raises a TypeError on two of
    different types; NA takes part in no comparison. *)
Definition kind (v : value) : option nat :=
  match v with
  | NA => None
  | Str _ => Some 0%nat
  | Num _ => Some 1%nat
  | Date _ => Some 2%nat
  end.

Definition comparable (vs : list value) : bool :=
  match omap kind vs with
  | [] => true
  | k :: ks => forallb (Nat.eqb k) ks
  end.

(** [before_desc a b]: [a] may stand before [b] in descending order with
    NA last ([na_position='last'], the default). *)
Definition before_desc (a b : value) : bool :=
  match a, b with
  | _, NA => true
  | NA, _ => false
  | Date x, Date y => y <=? x
  | Num x, Num y => y <=? x
  | Str x, Str y => String.leb y x
  | _, _ => true
  end.

Fixpoint insert_desc (x : value * nat) (l : list (value * nat))
  : list (value * nat) :=
  match l with
  | [] => [x]
  | y :: l' => if before_desc x.1 y.1 then x :: l else y :: insert_desc x l'
  end.

(** The positions of [vs] in descending order of the cells.  pandas sorts
    with an unstable algorithm by default; the order among equal cells is
    one of those it may produce. *)
Definition argsort_desc (vs : list value) : list nat :=
  (foldr insert_desc [] (zip vs (seq 0 (length vs)))).*2.

Definition reorder (perm : list nat) (vs : list value) : list value :=
  cell vs <$> perm.

Inductive exn : Type :=
  | OSError | FileNotFoundError | ParserError | KeyError | TypeError
  | ImportError | BrotliError | UnicodeDecodeError | JSONDecodeError
  | ValueError | NameError | Timeout | ConnectionError.

Inductive outcome (A : Type) : Type :=
  | Ok (a : A)
  | Raised (e : exn).
Arguments Ok {A} a.
Arguments Raised {A} e.

(** [df.sort_values(c, ascending=False)] *)
Definition sort_values_desc (df : DataFrame) (c : string) : outcome DataFrame :=
  match get_column df c with
  | None => Raised KeyError
  | Some vs =>
      let keys := pad (nrows df) vs in
      if comparable keys
      then let perm := argsort_desc keys in
           Ok (mkDF (nrows df) ((fun cv => (cv.1, reorder perm cv.2)) <$> cols df))
      else Raised TypeError
  end.

(** ** The libraries below the program *)

(** A decoded JSON document; an object keeps its members in document
    order, and [json.loads] lets a later member of a name win. *)
#[warnings="-register-all"] Inductive json : Type :=
  | JNull
  | JBool (b : bool)
  | JNum (n : Z)
  | JStr (s : string)
  | JArr (items : list json)
  | JObj (members : list (string * json)).

Fixpoint dict_get (members : list (string * json)) (k : string) : option json :=
  match members with
  | [] => None
  | (k', v) :: rest =>
      match dict_get rest k with
      | Some w => Some w
      | None => if String.eqb k' k then Some v else None
      end
  end.

(** Python truth of a decoded document ([not data['data']]). *)
Definition truthy (j : json) : bool :=
  match j with
  | JNull => false
  | JBool b => b
  | JNum n => negb (n =? 0)
  | JStr s => negb (String.eqb s "")
  | JArr items => negb (bool_decide (items = []))
  | JObj members => negb (bool_decide (members = []))
  end.

(** A [requests.Response]. *)
Record Response : Type := mkResponse {
  status_code : Z;
  headers : list (string * string);
  text : string;
  body : string
}.

Definition lower_ascii (a : ascii) : ascii :=
  let n := nat_of_ascii a in
  if ((65 <=? n) && (n <=? 90))%nat then ascii_of_nat (n + 32) else a.

(** [s.lower()] on ASCII text. *)
Fixpoint lower (s : string) : string :=
  match s with
  | EmptyString => EmptyString
  | String a rest => String (lower_ascii a) (lower rest)
  end.

(** [headers.get(name, default)]: header names compare without case. *)
Fixpoint headers_get (hs : list (string * string)) (name default : string) : string :=
  match hs with
  | [] => default
  | (k, v) :: rest =>
      if String.eqb (lower k) (lower name) then v else headers_get rest name default
  end.

(** [needle in hay] *)
Definition contains (needle hay : string) : bool :=
  match String.index 0 needle hay with Some _ => true | None => false end.

(** What the libraries compute and the program only passes on. *)
Class Runtime : Type := {
  (** bytes of a file *)
  content : Type;
  (** [pd.read_csv]; [None] when it raises *)
  read_csv : content -> option DataFrame;
  (** [df.to_csv(index=False)] *)
  to_csv : DataFrame -> content;
  (** text written through [open(..., 'w')] *)
  encode_text : string -> content;
  (** what a write that raises leaves at its target, given the text it
      was to write: [None] when the target was never opened, else the
      text of the created or truncated file, empty or cut short *)
  failed_write : content -> option content;
  (** [str] of a number and of a time *)
  str_num : Z -> string;
  str_date : Z -> string;
  (** [pd.to_datetime] of one text and of one number, [errors='coerce'] *)
  parse_datetime : string -> option Z;
  datetime_of_num : Z -> option Z;
  (** the integer [pd.to_numeric] makes of a time *)
  num_of_datetime : Z -> Z;
  (** [t.strftime(fmt)] *)
  strftime : string -> Z -> string;
  (** the n-th reading of the wall clock *)
  clock : nat -> Z;
  (** [session.get(url, params=..., timeout=30)] *)
  session_get : string -> list (string * string) -> outcome Response;
  (** whether [import brotli] succeeds, and [brotli.decompress] *)
  brotli_installed : bool;
  brotli_decompress : string -> option string;
  (** [bytes.decode('utf-8')] *)
  utf8_decode : string -> option string;
  (** [json.loads]; [None] is JSONDecodeError *)
  json_loads : string -> option json;
  (** [pd.DataFrame(rows)] of the decoded row objects *)
  frame_of_json : json -> outcome DataFrame
}.

(** [timedelta(days=d)] in microseconds. *)
Definition timedelta_days (d : Z) : Z := d * 86400000000.

(** ** State, exceptions and the file system *)

Inductive level : Type := INFO | WARNING | ERROR | STDOUT.

(** A log record: the level, the message template and its arguments. *)
Record log_record : Type := mkLog {
  log_level : level;
  log_text : string;
  log_args : list value
}.

Inductive fs_event : Type :=
  | Renamed (src dst : string)
  | Wrote (path : string).

Definition exn_name (e : exn) : string :=
  match e with
  | OSError => "OSError" | FileNotFoundError => "FileNotFoundError"
  | ParserError => "ParserError" | KeyError => "KeyError"
  | TypeError => "TypeError" | ImportError => "ImportError"
  | BrotliError => "BrotliError" | UnicodeDecodeError => "UnicodeDecodeError"
  | JSONDecodeError => "JSONDecodeError" | ValueError => "ValueError"
  | NameError => "NameError"
  | Timeout => "Timeout" | ConnectionError => "ConnectionError"
  end.

Section Machine.
Context `{RT : Runtime}.

Record file : Type := mkFile {
  f_data : content;
  f_mtime : Z
}.

(** The state a run threads: the files, the frames shared between caller
    and callee, the clock readings taken so far, the faults the next
    renames and writes will meet ([true]: the operation raises OSError),
    and what was renamed, written and logged, oldest first. *)
Record world : Type := mkWorld {
  w_fs : gmap string file;
  w_heap : gmap positive DataFrame;
  w_ticks : nat;
  w_faults : list bool;
  w_trace : list fs_event;
  w_log : list log_record
}.

Definition M (A : Type) : Type := world -> outcome A * world.

#[global] Instance M_ret : MRet M := fun A a w => (Ok a, w).

#[global] Instance M_bind : MBind M := fun A B k m w =>
  match m w with
  | (Ok a, w') => k a w'
  | (Raised e, w') => (Raised e, w')
  end.

Definition raise {A} (e : exn) : M A := fun w => (Raised e, w).

(** [try: m  except Exception as e: h e] *)
Definition try_except {A} (m : M A) (h : exn -> M A) : M A :=
  fun w => match m w with
           | (Ok a, w') => (Ok a, w')
           | (Raised e, w') => h e w'
           end.

Definition lift {A} (o : outcome A) : M A := fun w => (o, w).

Definition lift_opt {A} (e : exn) (o : option A) : M A :=
  match o with Some a => mret a | None => raise e end.

Definition set_fs (fs : gmap string file) (w : world) : world :=
  mkWorld fs (w_heap w) (w_ticks w) (w_faults w) (w_trace w) (w_log w).
Definition set_heap (h : gmap positive DataFrame) (w : world) : world :=
  mkWorld (w_fs w) h (w_ticks w) (w_faults w) (w_trace w) (w_log w).
Definition set_ticks (n : nat) (w : world) : world :=
  mkWorld (w_fs w) (w_heap w) n (w_faults w) (w_trace w) (w_log w).
Definition set_faults (fl : list bool) (w : world) : world :=
  mkWorld (w_fs w) (w_heap w) (w_ticks w) fl (w_trace w) (w_log w).
Definition set_trace (tr : list fs_event) (w : world) : world :=
  mkWorld (w_fs w) (w_heap w) (w_ticks w) (w_faults w) tr (w_log w).
Definition set_log (lg : list log_record) (w : world) : world :=
  mkWorld (w_fs w) (w_heap w) (w_ticks w) (w_faults w) (w_trace w) lg.

(** [self.logger.<level>(...)] *)
Definition log (lvl : level) (txt : string) (args : list value) : M unit :=
  fun w => (Ok (), set_log (w_log w ++ [mkLog lvl txt args]) w).

(** [datetime.now()] *)
Definition datetime_now : M Z :=
  fun w => (Ok (clock (w_ticks w)), set_ticks (S (w_ticks w)) w).

(** [os.path.exists(path)] *)
Definition path_exists (path : string) : M bool :=
  fun w => (Ok (bool_decide (is_Some (w_fs w !! path))), w).

(** The fault the next rename or write meets. *)
Definition next_fault (w : world) : bool * world :=
  match w_faults w with
  | [] => (false, w)
  | b :: rest => (b, set_faults rest w)
  end.

(** [os.rename(src, dst)]: the file moves, replacing what [dst] held. *)
Definition os_rename (src dst : string) : M unit :=
  fun w =>
    match w_fs w !! src with
    | None => (Raised FileNotFoundError, w)
    | Some f =>
        let '(fault, w1) := next_fault w in
        if fault then (Raised OSError, w1)
        else (Ok (), set_trace (w_trace w1 ++ [Renamed src dst])
                       (set_fs (<[dst := f]> (delete src (w_fs w1))) w1))
    end.

(** The files after a write of [c] to [path] that raised at time [now]:
    the target is created or truncated before its text is written. *)
Definition after_failed_write (path : string) (c : content) (now : Z)
    (fs : gmap string file) : gmap string file :=
  match failed_write c with
  | None => fs
  | Some rest => <[path := mkFile rest now]> fs
  end.

(** [df.to_csv(path, index=False)]; a write that raises may leave an
    empty or partial file at the path. *)
Definition df_to_csv (df : DataFrame) (path : string) : M unit :=
  fun w =>
    let '(fault, w1) := next_fault w in
    if fault
    then (Raised OSError,
          set_fs (after_failed_write path (to_csv df) (clock (w_ticks w1))
                    (w_fs w1)) w1)
    else (Ok (), set_trace (w_trace w1 ++ [Wrote path])
                   (set_fs (<[path := mkFile (to_csv df) (clock (w_ticks w1))]> (w_fs w1)) w1)).

(** [pd.read_csv(path)] *)
Definition pd_read_csv (path : string) : M DataFrame :=
  fun w =>
    match w_fs w !! path with
    | None => (Raised FileNotFoundError, w)
    | Some f =>
        match read_csv (f_data f) with
        | Some df => (Ok df, w)
        | None => (Raised ParserError, w)
        end
    end.

(** [os.stat(path).st_mtime] *)
Definition os_stat_mtime (path : string) : M Z :=
  fun w =>
    match w_fs w !! path with
    | None => (Raised FileNotFoundError, w)
    | Some f => (Ok (f_mtime f), w)
    end.

(** Reading and updating a frame that the caller also holds. *)
Definition deref (l : positive) : M DataFrame :=
  fun w =>
    match w_heap w !! l with
    | Some df => (Ok df, w)
    | None => (Raised NameError, w)
    end.

Definition store (l : positive) (df : DataFrame) : M unit :=
  fun w => (Ok (), set_heap (<[l := df]> (w_heap w)) w).

(** A name of the program is bound to a frame of its own or to one the
    caller holds too. *)
Inductive obj : Type :=
  | Local (df : DataFrame)
  | Shared (l : positive).

Definition read_obj (o : obj) : M DataFrame :=
  match o with
  | Local df => mret df
  | Shared l => deref l
  end.

(** [str(v)] *)
Definition py_str (v : value) : string :=
  match v with
  | NA => "nan"
  | Str s => s
  | Num n => str_num n
  | Date t => str_date t
  end.

(** [pd.to_datetime(col, errors='coerce')], cell by cell. *)
Definition to_datetime (v : value) : value :=
  match v with
  | NA => NA
  | Date t => Date t
  | Str s => from_option Date NA (parse_datetime s)
  | Num n => from_option Date NA (datetime_of_num n)
  end.

(** [col.max()] of a column of times: NA cells are skipped, the result is
    NA when there is no other cell. *)
Definition series_max (vs : list value) : value :=
  foldr (fun v acc =>
           match v, acc with
           | Date t, Date u => Date (Z.max t u)
           | Date t, _ => Date t
           | _, _ => acc
           end) NA vs.

End Machine.

(** ** cron_script.py *)

Module Cron.

(** The fields of [NSEInsiderTradingScraper] the methods below read. *)
Record Scraper : Type := mkScraper {
  base_url : string;
  data_file : string
}.

Section Methods.
Context `{RT : Runtime}.
Variable self : Scraper.

(** [get_last_update_time] *)
Definition get_last_update_time : M Z :=
  ex ← path_exists (data_file self);
  if negb ex then
    now ← datetime_now; mret (now - timedelta_days 7)
  else
    try_except
      (df ← pd_read_csv (data_file self);
       if empty df then
         now ← datetime_now; mret (now - timedelta_days 7)
       else
         let last_date :=
           if has_column "date" df then
             let df := set_column df "date" (to_datetime <$> column df "date") in
             series_max (column df "date")
           else NA in
         match last_date with
         | Date t => mret t
         | _ =>
             mtime ← os_stat_mtime (data_file self);
             mret mtime
         end)
      (fun e =>
         log ERROR "Error getting last update time: {}" [Str (exn_name e)];;
         now ← datetime_now; mret (now - timedelta_days 7)).

(** [fetch_insider_data], the date window (the first statements of the
    [try] block): the two ends of the range as times. *)
Definition fetch_window (from_date to_date : option Z) : M (Z * Z) :=
  to_date ← match to_date with
            | None => datetime_now
            | Some t => mret t
            end;
  from_date ← match from_date with
              | None => get_last_update_time
              | Some t => mret t
              end;
  now ← datetime_now;
  let max_back_date := now - timedelta_days 30 in
  let from_date := if from_date <? max_back_date then max_back_date else from_date in
  mret (from_date, to_date).

(** [fetch_insider_data]; [None] is the Python [None]. *)
Definition fetch_insider_data (from_date to_date : option Z)
  : M (option (DataFrame * string * string)) :=
  try_except
    ('(from_date, to_date) ← fetch_window from_date to_date;
     let to_date_str := strftime "%d-%m-%Y" to_date in
     let from_date_str := strftime "%d-%m-%Y" from_date in
     log INFO "Fetching data from {} to {}" [Str from_date_str; Str to_date_str];;
     let api_url := base_url self +:+ "/api/corporates-pit" in
     let params := [("index", "equities"); ("from_date", from_date_str);
                    ("to_date", to_date_str)] in
     response ← lift (session_get api_url params);
     log INFO "API response status: {}" [Num (status_code response)];;
     if negb (status_code response =? 200) then
       log ERROR "HTTP Error: {}" [Num (status_code response)];; mret None
     else
       let content_encoding :=
         lower (headers_get (headers response) "Content-Encoding" "") in
       response_content ←
         (if contains "br" content_encoding then
            log INFO "Brotli encoding detected. Attempting to decompress..." [];;
            if negb brotli_installed then
              log ERROR "Brotli library not installed. Please install with: pip install brotli" [];;
              mret None
            else
              match brotli_decompress (body response) with
              | None =>
                  log ERROR "Brotli decompression error: {}" [Str (exn_name BrotliError)];;
                  mret None
              | Some decompressed =>
                  match utf8_decode decompressed with
                  | None =>
                      log ERROR "Brotli decompression error: {}"
                          [Str (exn_name UnicodeDecodeError)];;
                      mret None
                  | Some s => mret (Some s)
                  end
              end
          else mret (Some (text response)));
       match response_content with
       | None => mret None
       | Some response_content =>
           let content_type := headers_get (headers response) "content-type" "" in
           if negb (contains "application/json" content_type) then
             log WARNING "Response is not JSON. Content-Type: {}" [Str content_type];;
             mret None
           else
             match json_loads response_content with
             | None =>
                 log ERROR "JSON decode error: {}" [Str (exn_name JSONDecodeError)];;
                 mret None
             | Some data =>
                 match data with
                 | JObj members =>
                     match dict_get members "data" with
                     | None =>
                         log ERROR "Invalid data structure received" [];; mret None
                     | Some rows =>
                         if negb (truthy rows) then
                           log INFO "No new insider trading data found" [];;
                           mret (Some (empty_frame, from_date_str, to_date_str))
                         else
                           df ← lift (frame_of_json rows);
                           log INFO "Successfully fetched {} records"
                               [Num (Z.of_nat (nrows df))];;
                           mret (Some (df, from_date_str, to_date_str))
                     end
                 | _ => log ERROR "Invalid data structure received" [];; mret None
                 end
             end
       end)
    (fun e => log ERROR "Error fetching data: {}" [Str (exn_name e)];; mret None).

Definition key_fields : list string :=
  ["symbol"; "company"; "name"; "date"; "secVal"; "tdpTransactionType"].

(** [create_unique_key] *)
Definition create_unique_key (row : Series) : string :=
  let key_parts :=
    foldl (fun key_parts field =>
             if in_index field row then
               let cellv := default NA (series_get row field) in
               let part := if notna cellv then py_str cellv else "NA" in
               (key_parts ++ [part])%list
             else key_parts)
          [] key_fields in
  String.concat "|" key_parts.

(** The keys of the rows of a frame, as the column
    [df.apply(self.create_unique_key, axis=1)]. *)
Definition unique_keys (df : DataFrame) : list value :=
  Str <$> apply_rows create_unique_key df.

(** [update_data_file], the [try] block over the existing file.  [inl n]
    is the [return n] inside the block, [inr (combined_df, new_records)]
    the two names it binds for the statements after it. *)
Definition merge_existing (new_df : positive) : M (Z + obj * obj) :=
  existing_df ← pd_read_csv (data_file self);
  log INFO "Loaded existing data: {} records" [Num (Z.of_nat (nrows existing_df))];;
  let existing_df :=
    if has_column "date" existing_df
    then set_column existing_df "date" (to_datetime <$> column existing_df "date")
    else existing_df in
  let existing_df := set_column existing_df "unique_key" (unique_keys existing_df) in
  df ← deref new_df;
  store new_df (set_column df "unique_key" (unique_keys df));;
  df ← deref new_df;
  let new_records :=
    take_mask df (negb <$> isin (column df "unique_key")
                                (column existing_df "unique_key")) in
  if empty new_records then
    log INFO "No new unique records found" [];; mret (inl 0)
  else
    new_records ← lift_opt KeyError (drop_column new_records "unique_key");
    existing_df ← lift_opt KeyError (drop_column existing_df "unique_key");
    let combined_df := concat existing_df new_records in
    combined_df ←
      (if has_column "date" combined_df
       then lift (sort_values_desc combined_df "date")
       else mret combined_df);
    mret (inr (Local combined_df, Local new_records)).

(** [update_data_file], the statements under "Save updated data". *)
Definition save_data (combined_df new_records : obj) : M Z :=
  try_except
    (ex ← path_exists (data_file self);
     (if (ex : bool) then
        now ← datetime_now;
        let backup_file :=
          data_file self +:+ ".backup_" +:+ strftime "%Y%m%d_%H%M%S" now in
        os_rename (data_file self) backup_file;;
        log INFO "Created backup: {}" [Str backup_file]
      else mret tt);;
     combined ← read_obj combined_df;
     df_to_csv combined (data_file self);;
     added ← read_obj new_records;
     log INFO "Updated {} with {} new records"
         [Str (data_file self); Num (Z.of_nat (nrows added))];;
     log INFO "Total records in file: {}" [Num (Z.of_nat (nrows combined))];;
     mret (Z.of_nat (nrows added)))
    (fun e => log ERROR "Error saving data: {}" [Str (exn_name e)];; mret 0).

(** [update_data_file]; the argument is the caller's frame, or [None]. *)
Definition update_data_file (new_df : option positive) : M Z :=
  match new_df with
  | None => log INFO "No new data to update" [];; mret 0
  | Some l =>
      df ← deref l;
      if empty df then
        log INFO "No new data to update" [];; mret 0
      else
        ex ← path_exists (data_file self);
        merged ←
          (if (ex : bool) then
             try_except (merge_existing l)
               (fun e =>
                  log ERROR "Error reading existing file: {}" [Str (exn_name e)];;
                  mret (inr (Shared l, Shared l)))
           else
             log INFO "Creating new data file" [];;
             mret (inr (Shared l, Shared l)));
        match merged with
        | inl n => mret n
        | inr (combined_df, new_records) => save_data combined_df new_records
        end
  end.

End Methods.
End Cron.

(** ** main.py *)

Module Main.

Record Scraper : Type := mkScraper {
  base_url : string
}.

Section Methods.
Context `{RT : Runtime}.
Variable self : Scraper.

(** [print(...)] *)
Definition print (txt : string) (args : list value) : M unit :=
  log STDOUT txt args.

(** [urlencode(params)] for parameters that need no escaping. *)
Definition urlencode (params : list (string * string)) : string :=
  String.concat "&" ((fun kv => kv.1 +:+ "=" +:+ kv.2) <$> params).

(** [with open(path, 'w', encoding='utf-8') as f: f.write(s)]; [open]
    creates or truncates the file before [write] can raise. *)
Definition write_text (path s : string) : M unit :=
  fun w =>
    let '(fault, w1) := next_fault w in
    if fault
    then (Raised OSError,
          set_fs (after_failed_write path (encode_text s) (clock (w_ticks w1))
                    (w_fs w1)) w1)
    else (Ok tt, set_trace (w_trace w1 ++ [Wrote path])
                   (set_fs (<[path := mkFile (encode_text s) (clock (w_ticks w1))]> (w_fs w1)) w1)).

(** [fetch_insider_data]; [None] is the Python [None]. *)
Definition fetch_insider_data (days_back : Z)
  : M (option (DataFrame * string * string)) :=
  try_except
    (todate ← datetime_now;
     let fromdate := todate - timedelta_days days_back in
     let to_date_str := strftime "%d-%m-%Y" todate in
     let from_date_str := strftime "%d-%m-%Y" fromdate in
     print "Fetching data from {} to {}" [Str from_date_str; Str to_date_str];;
     let api_url := base_url self +:+ "/api/corporates-pit" in
     let params := [("index", "equities"); ("from_date", from_date_str);
                    ("to_date", to_date_str)] in
     let full_url := api_url +:+ "?" +:+ urlencode params in
     print "API URL: {}" [Str full_url];;
     response ← lift (session_get api_url params);
     print "API response status: {}" [Num (status_code response)];;
     let content_type := headers_get (headers response) "content-type" "Unknown" in
     print "Response content type: {}" [Str content_type];;
     let content_encoding :=
       lower (headers_get (headers response) "Content-Encoding" "") in
     print "Content-Encoding: {}" [Str content_encoding];;
     if negb (status_code response =? 200) then
       print "HTTP Error: {}" [Num (status_code response)];;
       print "Response headers: {}"
             ((fun kv => Str (kv.1 +:+ ": " +:+ kv.2)) <$> headers response);;
       mret None
     else
       response_content ←
         (if contains "br" content_encoding then
            print "Brotli encoding detected. Attempting to decompress..." [];;
            if negb brotli_installed then
              print "Brotli library not installed. Please install with: pip install brotli" [];;
              mret None
            else
              match brotli_decompress (body response) with
              | None =>
                  print "Brotli decompression error: {}" [Str (exn_name BrotliError)];;
                  mret None
              | Some decompressed =>
                  match utf8_decode decompressed with
                  | None =>
                      print "Brotli decompression error: {}"
                            [Str (exn_name UnicodeDecodeError)];;
                      mret None
                  | Some s =>
                      print "Decompressed response preview: {}"
                            [Str (String.substring 0 200 s)];;
                      mret (Some s)
                  end
              end
          else
            print "Response preview: {}" [Str (String.substring 0 200 (text response))];;
            mret (Some (text response)));
       match response_content with
       | None => mret None
       | Some response_content =>
           if negb (contains "application/json" content_type) then
             print "Warning: Response is not JSON. Content-Type: {}" [Str content_type];;
             print "This might be an error page or CAPTCHA challenge" [];;
             write_text "nse_response_debug.html" response_content;;
             print "Response saved to 'nse_response_debug.html' for inspection" [];;
             mret None
           else
             match json_loads response_content with
             | None =>
                 print "JSON decode error: {}" [Str (exn_name JSONDecodeError)];;
                 print "Response might be empty or malformed" [];;
                 mret None
             | Some data =>
                 match data with
                 | JObj members =>
                     match dict_get members "data" with
                     | None =>
                         print "No 'data' key found. Available keys: {}"
                               ((fun kv => Str kv.1) <$> members);;
                         mret None
                     | Some rows =>
                         if negb (truthy rows) then
                           print "No insider trading data found for the specified date range" [];;
                           mret None
                         else
                           df ← lift (frame_of_json rows);
                           print "Successfully fetched {} records"
                                 [Num (Z.of_nat (nrows df))];;
                           mret (Some (df, from_date_str, to_date_str))
                     end
                 | _ => print "Unexpected data type: {}" [];; mret None
                 end
             end
       end)
    (fun e =>
       match e with
       | Timeout => print "Request timed out. NSE server might be slow." [];; mret None
       | ConnectionError =>
           print "Connection error. Check your internet connection." [];; mret None
       | _ => print "Unexpected error: {}" [Str (exn_name e)];; mret None
       end).

End Methods.
End Main.

(** ** cron_script.py, the cycle around the merge *)

(** [s.replace(chr(10), ' | ')] *)
Fixpoint replace_newlines (s : string) : string :=
  match s with
  | EmptyString => EmptyString
  | String a rest =>
      if Ascii.eqb a (ascii_of_nat 10)
      then " | " +:+ replace_newlines rest
      else String a (replace_newlines rest)
  end.

(** [col.nunique()]: the number of distinct cells that are not NA. *)
Definition nunique (vs : list value) : nat :=
  length (remove_dups (filter (fun v => v ≠ NA) vs)).

Module Cycle.
Section Methods.
Context `{RT : Runtime}.

(** [pd.to_datetime] of one text under an explicit [format=], and
    [pd.to_numeric] of one text, both with [errors='coerce']: [None] is
    the text that does not parse. *)
Variable parse_datetime_fmt : string -> string -> option Z.
Variable parse_numeric : string -> option Z.

Variable self : Cron.Scraper.

(** [time.sleep(random.uniform(a, b))]: the pause changes nothing the
    state records; the clock gives the readings whatever time passed. *)
Definition time_sleep : M unit := mret tt.

(** A frame the method hands to its caller becomes a frame of the store. *)
Definition alloc (df : DataFrame) : M positive :=
  fun w =>
    let l := fresh (dom (w_heap w)) in
    (Ok l, set_heap (<[l := df]> (w_heap w)) w).

(** [get_cookies] *)
Definition get_cookies : M bool :=
  try_except
    (log INFO "Getting session cookies..." [];;
     response ← lift (session_get (Cron.base_url self) []);
     log INFO "Homepage status: {}" [Num (status_code response)];;
     time_sleep;;
     let insider_url :=
       Cron.base_url self +:+ "/companies-listing/corporate-filings-insider-trading" in
     response ← lift (session_get insider_url []);
     log INFO "Insider trading page status: {}" [Num (status_code response)];;
     time_sleep;;
     mret (status_code response =? 200))
    (fun e => log ERROR "Error getting cookies: {}" [Str (exn_name e)];; mret false).

(** One cell under [pd.to_datetime(col, format=fmt, errors='coerce')]: a
    number is read through its text. *)
Definition to_datetime_fmt (fmt : string) (v : value) : value :=
  match v with
  | NA => NA
  | Date t => Date t
  | Str s => from_option Date NA (parse_datetime_fmt fmt s)
  | Num n => from_option Date NA (parse_datetime_fmt fmt (str_num n))
  end.

(** One cell under [pd.to_numeric(col, errors='coerce')]; a time becomes
    its integer. *)
Definition to_numeric (v : value) : value :=
  match v with
  | NA => NA
  | Num n => Num n
  | Str s => from_option Num NA (parse_numeric s)
  | Date t => Num (num_of_datetime t)
  end.

(** One cell under [df.replace([None, '-', ''], pd.NA)]. *)
Definition replace_sentinel (v : value) : value :=
  match v with
  | Str s => if String.eqb s "-" || String.eqb s "" then NA else v
  | _ => v
  end.

Definition date_columns : list string :=
  ["date"; "acqfromDt"; "acqtoDt"; "intimDt"].

Definition numeric_columns : list string :=
  ["buyValue"; "sellValue"; "buyQuantity"; "sellquantity"; "secAcq";
   "befAcqSharesNo"; "befAcqSharesPer"; "secVal"; "afterAcqSharesNo";
   "afterAcqSharesPer"].

(** [for col in names: if col in df.columns: df[col] = f(df[col])] *)
Definition convert_columns (f : value -> value) (names : list string)
    (df : DataFrame) : DataFrame :=
  foldl (fun df col =>
           if has_column col df
           then set_column df col (f <$> column df col)
           else df)
        df names.

(** [clean_data] on a frame with records: the frame it builds from a
    copy of its argument. *)
Definition clean_frame (df : DataFrame) : DataFrame :=
  let df_clean := df in
  let df_clean := convert_columns (to_datetime_fmt "%d-%b-%Y %H:%M")
                                  date_columns df_clean in
  let df_clean := convert_columns to_numeric numeric_columns df_clean in
  mkDF (nrows df_clean)
       ((fun cv : string * list value => (cv.1, replace_sentinel <$> cv.2))
          <$> cols df_clean).

(** [clean_data]: the argument itself comes back when it is [None] or
    empty, a new frame otherwise. *)
Definition clean_data (df : option positive) : M (option positive) :=
  match df with
  | None => mret None
  | Some l =>
      frame ← deref l;
      if empty frame then mret (Some l)
      else
        log INFO "Cleaning data..." [];;
        l' ← alloc (clean_frame frame);
        mret (Some l')
  end.

(** The text of the summary: the head and, for a frame with records,
    the lines of the columns it has. *)
Definition summary_text (with_company with_symbol : bool) : string :=
  let nl := String (ascii_of_nat 10) "" in
  let bar := "==================================================" in
  nl +:+ bar +:+ nl +:+
  "DATA UPDATE SUMMARY" +:+ nl +:+ bar +:+ nl +:+
  "Timestamp: {}" +:+ nl +:+
  "New records added: {}" +:+ nl +:+
  "Total records in file: {}" +:+ nl +:+
  (if with_company then "Unique companies: {}" +:+ nl else "") +:+
  (if with_symbol then "Unique symbols: {}" +:+ nl else "").

(** [display_summary] *)
Definition display_summary (df : option DataFrame) (new_records_count : Z)
  : M unit :=
  now ← datetime_now;
  let filled := match df with
                | Some frame => negb (empty frame)
                | None => false
                end in
  let total := match df with
               | Some frame => if empty frame then 0 else Z.of_nat (nrows frame)
               | None => 0
               end in
  let frame := default empty_frame df in
  let with_company := filled && has_column "company" frame in
  let with_symbol := filled && has_column "symbol" frame in
  let args :=
    ([Str (strftime "%Y-%m-%d %H:%M:%S" now); Num new_records_count; Num total]
     ++ (if with_company
         then [Num (Z.of_nat (nunique (column frame "company")))] else [])
     ++ (if with_symbol
         then [Num (Z.of_nat (nunique (column frame "symbol")))] else []))%list in
  let summary := summary_text with_company with_symbol in
  log STDOUT summary args;;
  log INFO (replace_newlines summary) args.

(** [run_update_cycle] *)
Definition run_update_cycle : M bool :=
  try_except
    (now ← datetime_now;
     log INFO "Starting update cycle at {}" [Date now];;
     ok ← get_cookies;
     (if (ok : bool) then mret tt
      else log WARNING "Failed to get session cookies. Continuing anyway..." []);;
     time_sleep;;
     result ← Cron.fetch_insider_data self None None;
     match result with
     | None => log ERROR "Failed to fetch data" [];; mret false
     | Some (df, from_date, to_date) =>
         df ← alloc df;
         df_clean ← clean_data (Some df);
         new_records_count ← Cron.update_data_file self df_clean;
         ex ← path_exists (Cron.data_file self);
         (if (ex : bool) then
            current_df ← pd_read_csv (Cron.data_file self);
            display_summary (Some current_df) new_records_count
          else mret tt);;
         log INFO "Update cycle completed successfully" [];;
         mret true
     end)
    (fun e => log ERROR "Error in update cycle: {}" [Str (exn_name e)];; mret false).

End Methods.
End Cycle.

(** ** A concrete runtime

    A small runtime on which the definitions run: a file holds a table
    or other text, a written table shows its times as text, the clock
    starts at 2024-03-01 00:00:00 and advances one second a reading. *)

Definition demo_str_date (t : Z) : string :=
  if t =? 1704067200000000 then "2024-01-01"
  else if t =? 1706745600000000 then "2024-02-01"
  else if t =? 1708387200000000 then "2024-02-20"
  else "t" +:+ pretty t.

Definition csv_cell (v : value) : value :=
  match v with
  | Date t => Str (demo_str_date t)
  | _ => v
  end.

Definition csv_view (df : DataFrame) : DataFrame :=
  mkDF (nrows df)
       ((fun cv : string * list value => (cv.1, csv_cell <$> cv.2)) <$> cols df).

Definition demo_parse_datetime (s : string) : option Z :=
  if String.eqb s "2024-01-01" then Some 1704067200000000
  else if String.eqb s "2024-02-01" then Some 1706745600000000
  else if String.eqb s "2024-02-20" then Some 1708387200000000
  else None.

Definition demo_response : Response :=
  mkResponse 200 [("Content-Type", "application/json; charset=utf-8")]
             "{data: []}" "".

Definition demo_json_loads (s : string) : option json :=
  if String.eqb s "{data: []}" then Some (JObj [("data", JArr [])]) else None.

Definition demo_read_csv (c : DataFrame + string) : option DataFrame :=
  match c with
  | inl df => Some df
  | inr _ => None
  end.

#[global] Instance demo_runtime : Runtime := {|
  content := DataFrame + string;
  read_csv := demo_read_csv;
  to_csv := fun df => inl (csv_view df);
  encode_text := inr;
  failed_write := fun _ => Some (inr "");
  str_num := pretty;
  str_date := demo_str_date;
  parse_datetime := demo_parse_datetime;
  datetime_of_num := Some;
  num_of_datetime := fun t => t * 1000;
  strftime := fun _ t => pretty t;
  clock := fun n => 1709251200000000 + Z.of_nat n * 1000000;
  session_get := fun _ _ => Ok demo_response;
  brotli_installed := false;
  brotli_decompress := fun _ => None;
  utf8_decode := Some;
  json_loads := demo_json_loads;
  frame_of_json := fun _ => Raised ValueError
|}.

Definition demo_self : Cron.Scraper :=
  Cron.mkScraper "https://www.nseindia.com" "nse_insider_trading_data.csv".

(** A world with the given files, frames and pending faults. *)
Definition demo_world (fs : gmap string file) (heap : gmap positive DataFrame)
    (faults : list bool) : world :=
  mkWorld fs heap 0 faults [] [].

(** The two records of the specification's example: they differ in
    buyQuantity only. *)
Definition demo_row_a : Series :=
  [("symbol", Str "ABC"); ("date", Date 1704067200000000); ("secVal", Num 100);
   ("tdpTransactionType", Str "Buy"); ("buyQuantity", Num 10)].

Definition demo_row_b : Series :=
  [("symbol", Str "ABC"); ("date", Date 1704067200000000); ("secVal", Num 100);
   ("tdpTransactionType", Str "Buy"); ("buyQuantity", Num 999)].

(** Two records with all six fields of the key that differ outside them,
    one with an absent name and one whose schema has no company. *)
Definition demo_record_a : Series :=
  [("symbol", Str "ABC"); ("company", Str "Acme Ltd"); ("name", Str "J Doe");
   ("date", Date 1704067200000000); ("secVal", Num 100);
   ("tdpTransactionType", Str "Buy"); ("buyQuantity", Num 10);
   ("remarks", Str "first filing")].

Definition demo_record_b : Series :=
  [("remarks", Str "revised"); ("buyQuantity", Num 999);
   ("tdpTransactionType", Str "Buy"); ("secVal", Num 100);
   ("date", Date 1704067200000000); ("name", Str "J Doe");
   ("company", Str "Acme Ltd"); ("symbol", Str "ABC")].

Definition demo_record_absent : Series :=
  [("symbol", Str "ABC"); ("company", Str "Acme Ltd"); ("name", NA);
   ("date", Date 1704067200000000); ("secVal", Num 100);
   ("tdpTransactionType", Str "Buy")].

Definition demo_record_short : Series :=
  [("symbol", Str "ABC"); ("name", Str "J Doe");
   ("date", Date 1704067200000000); ("secVal", Num 100);
   ("tdpTransactionType", Str "Buy")].

(** Stored data as [read_csv] returns it, and incoming frames. *)
Definition demo_stored : DataFrame :=
  mkDF 2 [("symbol", [Str "XYZ"; Str "ABC"]);
          ("date", [Str "2024-02-01"; Str "2024-01-01"]);
          ("secVal", [NA; Num 100])].

Definition demo_incoming_seen : DataFrame :=
  mkDF 1 [("symbol", [Str "ABC"]);
          ("date", [Date 1704067200000000]);
          ("secVal", [Num 100])].

Definition demo_incoming_new : DataFrame :=
  mkDF 1 [("symbol", [Str "NEW"]);
          ("date", [Date 1708387200000000]);
          ("secVal", [Num 7])].

(** Two records in ascending order of date. *)
Definition demo_incoming_ascending : DataFrame :=
  mkDF 2 [("symbol", [Str "ABC"; Str "XYZ"]);
          ("date", [Date 1704067200000000; Date 1706745600000000]);
          ("secVal", [Num 100; NA])].

Definition demo_incoming_empty : DataFrame :=
  mkDF 0 [("symbol", []); ("date", []); ("secVal", [])].

Definition demo_stored_file : file := mkFile (inl demo_stored) 5.

Definition demo_stored_fs : gmap string file :=
  {[ "nse_insider_trading_data.csv" := demo_stored_file ]}.

(** A data file that [read_csv] cannot parse. *)
Definition demo_corrupt_file : file := mkFile (inr "garbage") 5.

Definition demo_corrupt_fs : gmap string file :=
  {[ "nse_insider_trading_data.csv" := demo_corrupt_file ]}.

(** ** The identity key in the words of the specification *)

Section IdentityKey.
Context `{RT : Runtime}.

(** The part of the key a field contributes: nothing when the record's
    schema lacks the field, the token NA when the field is there with an
    absent value, the text of the value otherwise. *)
Definition key_part (row : Series) (field : string) : option string :=
  match series_get row field with
  | None => None
  | Some NA => Some "NA"
  | Some v => Some (py_str v)
  end.

(** The fixed ordered subset of fields the key is derived from: symbol,
    company, name, date, the value field and the transaction-type
    field. *)
Definition identity_fields : list string :=
  ["symbol"; "company"; "name"; "date"; "secVal"; "tdpTransactionType"].

(** The parts of the six fields in their fixed order, joined with the
    separator. *)
Definition identity_key (row : Series) : string :=
  String.concat "|" (omap (key_part row) identity_fields).

End IdentityKey.

(** ** The merge and the save, step by step

    The frames [update_data_file] computes between its reads of the store
    and of the files, and what its save step leaves behind, as functions
    of the values read. *)

Section MergeSteps.
Context `{RT : Runtime}.

(** The existing data with its date column parsed. *)
Definition parsed (df : DataFrame) : DataFrame :=
  if has_column "date" df
  then set_column df "date" (to_datetime <$> column df "date")
  else df.

(** A frame with the helper column of its keys. *)
Definition keyed (df : DataFrame) : DataFrame :=
  set_column df "unique_key" (Cron.unique_keys df).

(** The identity keys of the stored data, as the merge computes them. *)
Definition existing_keys (existing : DataFrame) : list value :=
  Cron.unique_keys (parsed existing).

(** The incoming rows whose key the stored data lacks. *)
Definition new_rows (existing df : DataFrame) : DataFrame :=
  take_mask (keyed df) (negb <$> isin (Cron.unique_keys df) (existing_keys existing)).

(** The incoming rows the merge takes for new: those whose key is not
    among the keys of the stored data. *)
Definition new_mask (existing df : DataFrame) : list bool :=
  negb <$> isin (Cron.unique_keys df) (existing_keys existing).

(** The cells a merged file has under the name [c], before its rows are
    ordered: those of the stored rows, the date column parsed, followed
    by those of the incoming rows [mask] selects; a record without the
    field has NA there. *)
Definition merged_column (existing df : DataFrame) (mask : list bool)
    (c : string) : list value :=
  (pad (nrows existing) (column (parsed existing) c)
   ++ pad (count_true mask) (select mask (column df c)))%list.

(** The outcome of the [try] block once the file is read: [inl 0] when no
    row is new, else the combined frame and the new rows. *)
Definition merge_frames (existing df : DataFrame)
  : outcome (Z + DataFrame * DataFrame) :=
  if empty (new_rows existing df) then Ok (inl 0)
  else
    match drop_column (new_rows existing df) "unique_key",
          drop_column (keyed (parsed existing)) "unique_key" with
    | Some new_records, Some existing_df =>
        let combined := concat existing_df new_records in
        match (if has_column "date" combined
               then sort_values_desc combined "date"
               else Ok combined) with
        | Ok sorted => Ok (inr (sorted, new_records))
        | Raised e => Raised e
        end
    | _, _ => Raised KeyError
    end.

(** What the [try] block hands to the statements after it: when it
    raises after the file is read, the handler binds both names to the
    caller's frame, which by then carries the helper column. *)
Definition merge_plan (existing df : DataFrame) : Z + DataFrame * DataFrame :=
  match merge_frames existing df with
  | Ok r => r
  | Raised _ => inr (keyed df, keyed df)
  end.

(** The name of the backup made at time [now]. *)
Definition backup_name (path : string) (now : Z) : string :=
  path +:+ ".backup_" +:+ strftime "%Y%m%d_%H%M%S" now.

(** What the save step returns, the files it leaves and the renames and
    writes it performs, from the files, the faults and the number of
    clock readings it starts with.  The backup is named after the next
    reading; a written file carries the time of its write, and a write
    that raises leaves at the path what [after_failed_write] says. *)
Definition save_outcome (path : string) (fs : gmap string file)
    (faults : list bool) (ticks : nat) (combined new_records : DataFrame)
  : Z * gmap string file * list fs_event :=
  match fs !! path with
  | Some old =>
      if hd false faults then (0, fs, [])
      else
        let backup := backup_name path (clock ticks) in
        let moved := <[backup := old]> (delete path fs) in
        if hd false (tl faults)
        then (0, after_failed_write path (to_csv combined) (clock (S ticks)) moved,
              [Renamed path backup])
        else (Z.of_nat (nrows new_records),
              <[path := mkFile (to_csv combined) (clock (S ticks))]> moved,
              [Renamed path backup; Wrote path])
  | None =>
      if hd false faults
      then (0, after_failed_write path (to_csv combined) (clock ticks) fs, [])
      else (Z.of_nat (nrows new_records),
            <[path := mkFile (to_csv combined) (clock ticks)]> fs,
            [Wrote path])
  end.

(** The frame a name stands for. *)
Definition resolve (w : world) (o : obj) : option DataFrame :=
  match o with
  | Local df => Some df
  | Shared l => w_heap w !! l
  end.

End MergeSteps.

(** ** The checkpoint in the words of the specification *)

Section Checkpoint.
Context `{RT : Runtime}.

(** The times the date column of the stored data parses to. *)
Definition parsed_dates (df : DataFrame) : list Z :=
  omap (fun v => match to_datetime v with Date t => Some t | _ => None end)
       (column df "date").

(** The greatest of a list of times, if it has one. *)
Fixpoint latest (ts : list Z) : option Z :=
  match ts with
  | [] => None
  | t :: rest =>
      Some (match latest rest with
            | Some u => Z.max t u
            | None => t
            end)
  end.

Definition max_date (df : DataFrame) : option Z := latest (parsed_dates df).

(** The checkpoint: seven days before [now] when there is no file, when
    the file cannot be read and when it holds no record; else the latest
    parseable date of the stored data; else the time the file was last
    modified. *)
Definition checkpoint (fs : gmap string file) (path : string) (now : Z) : Z :=
  match fs !! path with
  | None => now - timedelta_days 7
  | Some f =>
      match read_csv (f_data f) with
      | None => now - timedelta_days 7
      | Some df =>
          if empty df then now - timedelta_days 7
          else match max_date df with
               | Some t => t
               | None => f_mtime f
               end
      end
  end.

(** The text of the body the fetch parses: the response text, or the
    Brotli-decoded bytes when the encoding header names [br]. *)
Definition decoded_body (r : Response) : option string :=
  if contains "br" (lower (headers_get (headers r) "Content-Encoding" ""))
  then if brotli_installed
       then brotli_decompress (body r) ≫= utf8_decode
       else None
  else Some (text r).

End Checkpoint.

(** [date_sorted_desc vs]: the cells of a date column stand latest first,
    the absent ones last. *)
Fixpoint date_sorted_desc (vs : list value) : bool :=
  match vs with
  | [] => true
  | a :: rest =>
      forallb (before_desc a) rest && date_sorted_desc rest
  end.

(** [is_time v]: the cell is a time or absent, what a datetime column
    holds. *)
Definition is_time (v : value) : bool :=
  match v with
  | NA | Date _ => true
  | _ => false
  end.

(** ** The answer of the API in the words of the code *)

Section Answer.
Context `{RT : Runtime}.

(** The frame the fetch of cron_script.py makes of a response: none
    unless the status is 200, the body decodes, the content type is
    JSON and the document is an object with a data member; the empty
    frame when that member is empty, null or otherwise false. *)
Definition decode_answer (resp : Response) : option DataFrame :=
  if negb (status_code resp =? 200) then None
  else
    match decoded_body resp with
    | None => None
    | Some s =>
        if negb (contains "application/json"
                   (headers_get (headers resp) "content-type" ""))
        then None
        else
          match json_loads s with
          | Some (JObj members) =>
              match dict_get members "data" with
              | None => None
              | Some rows =>
                  if truthy rows
                  then match frame_of_json rows with
                       | Ok df => Some df
                       | Raised _ => None
                       end
                  else Some empty_frame
              end
          | _ => None
          end
    end.

(** The request the fetch sends for a window. *)
Definition api_url (base : string) : string := base +:+ "/api/corporates-pit".

Definition api_params (from_date to_date : Z) : list (string * string) :=
  [("index", "equities"); ("from_date", strftime "%d-%m-%Y" from_date);
   ("to_date", strftime "%d-%m-%Y" to_date)].

(** The frame the API gives for a window, if any: the answer to the one
    request, decoded. *)
Definition api_answer (base : string) (from_date to_date : Z) : option DataFrame :=
  match session_get (api_url base) (api_params from_date to_date) with
  | Ok resp => decode_answer resp
  | Raised _ => None
  end.

(** The frame the fetch of main.py makes of a response: as
    [decode_answer], but a data member that is empty, null or otherwise
    false gives no frame at all. *)
Definition main_answer (resp : Response) : option DataFrame :=
  if negb (status_code resp =? 200) then None
  else
    match decoded_body resp with
    | None => None
    | Some s =>
        if negb (contains "application/json"
                   (headers_get (headers resp) "content-type" "Unknown"))
        then None
        else
          match json_loads s with
          | Some (JObj members) =>
              match dict_get members "data" with
              | None => None
              | Some rows =>
                  if truthy rows
                  then match frame_of_json rows with
                       | Ok df => Some df
                       | Raised _ => None
                       end
                  else None
              end
          | _ => None
          end
    end.

End Answer.

(** ** Cleaning, cell by cell *)

Section CleanSpec.
Context `{RT : Runtime}.
Variable parse_datetime_fmt : string -> string -> option Z.
Variable parse_numeric : string -> option Z.

(** What [clean_data] makes of one cell of the column [c]: the date
    columns are parsed as times, the numeric columns as numbers, and the
    dash and the empty text become NA in every column. *)
Definition clean_cell (c : string) (v : value) : value :=
  let v := if bool_decide (c ∈ Cycle.date_columns)
           then Cycle.to_datetime_fmt parse_datetime_fmt "%d-%b-%Y %H:%M" v
           else v in
  let v := if bool_decide (c ∈ Cycle.numeric_columns)
           then Cycle.to_numeric parse_numeric v
           else v in
  Cycle.replace_sentinel v.

End CleanSpec.

(** [is_number v]: the cell is a number or absent. *)
Definition is_number (v : value) : bool :=
  match v with
  | NA | Num _ => true
  | _ => false
  end.

(** [is_sentinel v]: the dash or the empty text, the marks of a missing
    value in the feed. *)
Definition is_sentinel (v : value) : bool :=
  match v with
  | Str s => String.eqb s "-" || String.eqb s ""
  | _ => false
  end.


(** ** More concrete inputs

    A frame as the API delivers it, with every cell a text; parsers for
    the texts it holds; and runtimes whose network gives a fixed answer
    and whose JSON rows make a fixed frame. *)

Definition demo_raw : DataFrame :=
  mkDF 2 [("symbol", [Str "NEW"; Str "-"]);
          ("date", [Str "20-Feb-2024 00:00"; Str "soon"]);
          ("secVal", [Str "7"; Str ""])].


Definition demo_parse_datetime_fmt (fmt s : string) : option Z :=
  if String.eqb fmt "%d-%b-%Y %H:%M" && String.eqb s "20-Feb-2024 00:00"
  then Some 1708387200000000
  else None.

Definition demo_parse_numeric (s : string) : option Z :=
  if String.eqb s "7" then Some 7
  else if String.eqb s "100" then Some 100
  else None.

Definition demo_rows_response : Response :=
  mkResponse 200 [("Content-Type", "application/json; charset=utf-8")]
             "{data: [row]}" "".

Definition demo_html_response : Response :=
  mkResponse 200 [("Content-Type", "text/html")] "<html>blocked</html>" "".

Definition demo_json_rows (s : string) : option json :=
  if String.eqb s "{data: []}" then Some (JObj [("data", JArr [])])
  else if String.eqb s "{data: [row]}" then Some (JObj [("data", JArr [JStr "row"])])
  else None.

Definition demo_runtime_of (answer : outcome Response) (rows : outcome DataFrame)
  : Runtime := {|
  content := DataFrame + string;
  read_csv := demo_read_csv;
  to_csv := fun df => inl (csv_view df);
  encode_text := inr;
  failed_write := fun _ => Some (inr "");
  str_num := pretty;
  str_date := demo_str_date;
  parse_datetime := demo_parse_datetime;
  datetime_of_num := Some;
  num_of_datetime := fun t => t * 1000;
  strftime := fun _ t => pretty t;
  clock := fun n => 1709251200000000 + Z.of_nat n * 1000000;
  session_get := fun _ _ => answer;
  brotli_installed := false;
  brotli_decompress := fun _ => None;
  utf8_decode := Some;
  json_loads := demo_json_rows;
  frame_of_json := fun _ => rows
|}.

(** The network is down; the API answers with the rows of [demo_raw];
    the site answers with a page that is not JSON. *)
Definition offline_runtime : Runtime :=
  demo_runtime_of (Raised ConnectionError) (Raised ValueError).

Definition rows_runtime : Runtime :=
  demo_runtime_of (Ok demo_rows_response) (Ok demo_raw).

Definition html_runtime : Runtime :=
  demo_runtime_of (Ok demo_html_response) (Raised ValueError).

(** ** Facts about frames *)

Lemma assoc_get_keys {A} (l : list (string * A)) (c : string) :
  bool_decide (c ∈ l.*1) = bool_decide (is_Some (assoc_get l c)).
Proof.
  induction l as [|[k v] rest IH]; simpl.
  - reflexivity.
  - destruct (String.eqb k c) eqn:E.
    + apply String.eqb_eq in E. subst k.
      rewrite !bool_decide_eq_true_2; eauto. left.
    + apply String.eqb_neq in E.
      rewrite <- IH. apply bool_decide_ext.
      rewrite elem_of_cons. split; [intros [?|?]; [congruence | done] | by right].
Qed.

Lemma in_index_get (row : Series) (field : string) :
  in_index field row = bool_decide (is_Some (series_get row field)).
Proof. apply assoc_get_keys. Qed.

Lemma has_column_get (df : DataFrame) (c : string) :
  has_column c df = bool_decide (is_Some (get_column df c)).
Proof. apply assoc_get_keys. Qed.

Lemma assoc_get_set {A} (l : list (string * A)) (c : string) (a : A) :
  assoc_get (assoc_set l c a) c = Some a.
Proof.
  induction l as [|[k b] rest IH]; simpl.
  - by rewrite String.eqb_refl.
  - destruct (String.eqb k c) eqn:E; simpl; by rewrite E.
Qed.

Lemma assoc_set_keys {A} (l : list (string * A)) (c : string) (a : A) :
  c ∈ (assoc_set l c a).*1.
Proof.
  induction l as [|[k b] rest IH]; simpl.
  - left.
  - destruct (String.eqb k c) eqn:E; simpl.
    + apply String.eqb_eq in E. subst. left.
    + right. exact IH.
Qed.

Lemma get_set_column (df : DataFrame) (c : string) (vs : list value) :
  get_column (set_column df c vs) c = Some vs.
Proof. apply assoc_get_set. Qed.

Lemma has_column_set (df : DataFrame) (c : string) (vs : list value) :
  has_column c (set_column df c vs) = true.
Proof. apply bool_decide_eq_true_2, assoc_set_keys. Qed.

(** ** The identity key *)

Section KeyFacts.
Context `{RT : Runtime}.

Lemma key_parts_foldl (row : Series) (fields acc : list string) :
  foldl (fun key_parts field =>
           if in_index field row then
             let cellv := default NA (series_get row field) in
             let part := if notna cellv then py_str cellv else "NA" in
             (key_parts ++ [part])%list
           else key_parts) acc fields
  = (acc ++ omap (key_part row) fields)%list.
Proof.
  revert acc. induction fields as [|f fields IH]; intros acc; simpl.
  - by rewrite app_nil_r.
  - rewrite IH, in_index_get. unfold key_part.
    destruct (series_get row f) as [v|] eqn:E; simpl.
    + rewrite <- app_assoc. simpl. by destruct v.
    + done.
Qed.

Lemma create_unique_key_identity_key (row : Series) :
  Cron.create_unique_key row = identity_key row.
Proof. unfold Cron.create_unique_key, identity_key. by rewrite key_parts_foldl. Qed.

Lemma key_part_agree (r1 r2 : Series) (fields : list string) :
  (forall f, f ∈ fields -> series_get r1 f = series_get r2 f) ->
  omap (key_part r1) fields = omap (key_part r2) fields.
Proof.
  induction fields as [|f fields IH]; intros H; csimpl; [done|].
  assert (key_part r1 f = key_part r2 f) as ->.
  { unfold key_part. by rewrite (H f) by left. }
  rewrite IH; [done|]. intros g Hg. apply H. by right.
Qed.

(** C4. The key is a function of the six fields symbol, company, name,
    date, secVal and tdpTransactionType alone: it is the texts of those
    fields the record's schema has, in that order, joined with the bar,
    with the token NA for a field whose value is absent and nothing at
    all for a field the schema lacks; so two records that agree on the
    six fields have the same key, whatever their other fields hold. *)
Theorem create_unique_key_deterministic (r1 r2 : Series) :
  (forall f,
     f ∈ ["symbol"; "company"; "name"; "date"; "secVal"; "tdpTransactionType"] ->
     series_get r1 f = series_get r2 f) ->
  Cron.create_unique_key r1 = identity_key r1 /\
  identity_key r1
  = String.concat "|"
      (omap (key_part r1)
         ["symbol"; "company"; "name"; "date"; "secVal"; "tdpTransactionType"]) /\
  Cron.create_unique_key r1 = Cron.create_unique_key r2.
Proof.
  intros H. split; [apply create_unique_key_identity_key|].
  split; [reflexivity|].
  rewrite !create_unique_key_identity_key. unfold identity_key, identity_fields.
  by rewrite (key_part_agree r1 r2).
Qed.

End KeyFacts.
(** ** Running the methods *)

Ltac mrun :=
  repeat (progress (
    unfold mbind, M_bind, mret, M_ret, try_except, log, path_exists, deref,
      store, datetime_now, read_obj, lift, lift_opt, raise,
      pd_read_csv, os_stat_mtime;
    cbn [w_fs w_heap w_ticks w_faults w_trace w_log
         set_fs set_heap set_ticks set_faults set_trace set_log fst snd])).

Ltac mstep :=
  repeat (progress (
    unfold mbind, M_bind, mret, M_ret, try_except, lift, lift_opt, raise,
      log, path_exists, datetime_now;
    cbn [w_fs w_heap w_ticks w_faults w_trace w_log hd tl negb
         set_fs set_heap set_ticks set_faults set_trace set_log fst snd])).

Ltac close := mstep; rewrite ?app_nil_r, <- ?app_assoc; done.

Ltac finish := eexists; split; [reflexivity | done].

Section Runs.
Context `{RT : Runtime}.
Variable self : Cron.Scraper.

Lemma column_set (df : DataFrame) (c : string) (vs : list value) :
  column (set_column df c vs) c = vs.
Proof. unfold column. by rewrite get_set_column. Qed.

(** The [try] block of the merge, once the file is read. *)
Lemma merge_existing_run (w : world) (l : positive) (df existing : DataFrame) (f : file) :
  w_heap w !! l = Some df ->
  w_fs w !! Cron.data_file self = Some f ->
  read_csv (f_data f) = Some existing ->
  exists w',
    Cron.merge_existing self l w =
      (match merge_frames existing df with
       | Ok (inl n) => Ok (inl n)
       | Ok (inr (c, nr)) => Ok (inr (Local c, Local nr))
       | Raised e => Raised e
       end, w') /\
    w_fs w' = w_fs w /\ w_trace w' = w_trace w /\ w_faults w' = w_faults w /\
    w_ticks w' = w_ticks w /\ w_heap w' = <[l := keyed df]> (w_heap w).
Proof.
  intros Hl Hf Hr. unfold Cron.merge_existing, merge_frames, new_rows, existing_keys.
  mrun. rewrite Hf. mrun. rewrite Hr. mrun. rewrite Hl. mrun.
  rewrite lookup_insert_eq. mrun.
  unfold keyed, parsed. rewrite !column_set.
  destruct (empty _); mrun; [finish|].
  destruct (drop_column (take_mask _ _) _); mrun; [|finish].
  destruct (drop_column _ _); mrun; [|finish].
  destruct (has_column "date" _); mrun; [|finish].
  destruct (sort_values_desc _ _); mrun; finish.
Qed.

Lemma merge_existing_unreadable (w : world) (l : positive) (f : file) :
  w_fs w !! Cron.data_file self = Some f ->
  read_csv (f_data f) = None ->
  Cron.merge_existing self l w = (Raised ParserError, w).
Proof.
  intros Hf Hr. unfold Cron.merge_existing. mrun. rewrite Hf. mrun. by rewrite Hr.
Qed.

Lemma read_obj_run (w w' : world) (o : obj) (df : DataFrame) :
  w_heap w' = w_heap w ->
  resolve w o = Some df ->
  read_obj o w' = (Ok df, w').
Proof.
  intros Hh Hr. destruct o as [d|l]; simpl in *.
  - by inversion Hr.
  - unfold deref. by rewrite Hh, Hr.
Qed.

(** The save step. *)
Lemma save_data_run (w : world) (co no : obj) (c n : DataFrame) :
  resolve w co = Some c ->
  resolve w no = Some n ->
  exists w',
    Cron.save_data self co no w =
      (Ok (save_outcome (Cron.data_file self) (w_fs w) (w_faults w)
             (w_ticks w) c n).1.1, w') /\
    w_fs w' = (save_outcome (Cron.data_file self) (w_fs w) (w_faults w)
                 (w_ticks w) c n).1.2 /\
    w_trace w' = (w_trace w ++
                  (save_outcome (Cron.data_file self) (w_fs w) (w_faults w)
                     (w_ticks w) c n).2)%list /\
    w_heap w' = w_heap w.
Proof.
  intros Hc Hn. unfold Cron.save_data, save_outcome, backup_name. mstep.
  destruct (w_fs w !! Cron.data_file self) as [old|] eqn:Hf.
  - rewrite bool_decide_eq_true_2 by eauto. mstep.
    unfold os_rename, next_fault. mstep. rewrite Hf.
    destruct (w_faults w) as [|[] rest] eqn:Hfl; mstep.
    + erewrite read_obj_run by (done || apply Hc).
      unfold df_to_csv, next_fault. mstep.
      rewrite Hfl. erewrite read_obj_run by (done || apply Hn).
      mstep. eexists; split; [reflexivity|]. close.
    + eexists; split; [reflexivity|]. close.
    + erewrite read_obj_run by (done || apply Hc).
      unfold df_to_csv, next_fault. mstep.
      destruct rest as [|[] rest']; mstep.
      * erewrite read_obj_run by (done || apply Hn). mstep.
        eexists; split; [reflexivity|]. close.
      * eexists; split; [reflexivity|]. close.
      * erewrite read_obj_run by (done || apply Hn). mstep.
        eexists; split; [reflexivity|]. close.
  - rewrite bool_decide_eq_false_2 by (by intros [? ?]). mstep.
    erewrite read_obj_run by (done || apply Hc).
    unfold df_to_csv, next_fault. mstep.
    destruct (w_faults w) as [|[] rest] eqn:Hfl; mstep.
    + erewrite read_obj_run by (done || apply Hn). mstep.
      eexists; split; [reflexivity|]. close.
    + eexists; split; [reflexivity|]. close.
    + erewrite read_obj_run by (done || apply Hn). mstep.
      eexists; split; [reflexivity|]. close.
Qed.

(** [update_data_file] on a frame with records, by the state of the file. *)
Lemma update_absent_run (w : world) (l : positive) (df : DataFrame) :
  w_heap w !! l = Some df ->
  empty df = false ->
  w_fs w !! Cron.data_file self = None ->
  exists w',
    Cron.update_data_file self (Some l) w =
      (Ok (save_outcome (Cron.data_file self) (w_fs w) (w_faults w)
             (w_ticks w) df df).1.1, w') /\
    w_fs w' = (save_outcome (Cron.data_file self) (w_fs w) (w_faults w)
                 (w_ticks w) df df).1.2 /\
    w_trace w' = (w_trace w ++
                  (save_outcome (Cron.data_file self) (w_fs w) (w_faults w)
                     (w_ticks w) df df).2)%list /\
    w_heap w' = w_heap w.
Proof.
  intros Hl He Hf. unfold Cron.update_data_file. mstep.
  unfold deref. rewrite Hl, He. mstep. rewrite Hf.
  rewrite bool_decide_eq_false_2 by (by intros [? ?]). mstep.
  match goal with |- context [Cron.save_data _ _ _ ?w1] =>
    destruct (save_data_run w1 (Shared l) (Shared l) df df) as (w' & -> & ? & ? & ?);
      [exact Hl | exact Hl |]
  end.
  exists w'. done.
Qed.

Lemma update_unreadable_run (w : world) (l : positive) (df : DataFrame) (f : file) :
  w_heap w !! l = Some df ->
  empty df = false ->
  w_fs w !! Cron.data_file self = Some f ->
  read_csv (f_data f) = None ->
  exists w',
    Cron.update_data_file self (Some l) w =
      (Ok (save_outcome (Cron.data_file self) (w_fs w) (w_faults w)
             (w_ticks w) df df).1.1, w') /\
    w_fs w' = (save_outcome (Cron.data_file self) (w_fs w) (w_faults w)
                 (w_ticks w) df df).1.2 /\
    w_trace w' = (w_trace w ++
                  (save_outcome (Cron.data_file self) (w_fs w) (w_faults w)
                     (w_ticks w) df df).2)%list /\
    w_heap w' = w_heap w.
Proof.
  intros Hl He Hf Hr. unfold Cron.update_data_file. mstep.
  unfold deref. rewrite Hl, He. mstep. rewrite Hf.
  rewrite bool_decide_eq_true_2 by eauto. mstep.
  rewrite (merge_existing_unreadable w l f Hf Hr). mstep.
  match goal with |- context [Cron.save_data _ _ _ ?w1] =>
    destruct (save_data_run w1 (Shared l) (Shared l) df df) as (w' & -> & ? & ? & ?);
      [exact Hl | exact Hl |]
  end.
  exists w'. done.
Qed.

Lemma update_readable_run (w : world) (l : positive) (df existing : DataFrame) (f : file) :
  w_heap w !! l = Some df ->
  empty df = false ->
  w_fs w !! Cron.data_file self = Some f ->
  read_csv (f_data f) = Some existing ->
  exists r w',
    Cron.update_data_file self (Some l) w = (Ok r, w') /\
    w_heap w' = <[l := keyed df]> (w_heap w) /\
    match merge_plan existing df with
    | inl n => r = n /\ w_fs w' = w_fs w /\ w_trace w' = w_trace w
    | inr (c, nr) =>
        r = (save_outcome (Cron.data_file self) (w_fs w) (w_faults w)
               (w_ticks w) c nr).1.1 /\
        w_fs w' = (save_outcome (Cron.data_file self) (w_fs w) (w_faults w)
                     (w_ticks w) c nr).1.2 /\
        w_trace w' = (w_trace w ++
                      (save_outcome (Cron.data_file self) (w_fs w) (w_faults w)
                         (w_ticks w) c nr).2)%list
    end.
Proof.
  intros Hl He Hf Hr. unfold Cron.update_data_file. mstep.
  unfold deref at 1. rewrite Hl, He. mstep. rewrite Hf.
  rewrite bool_decide_eq_true_2 by eauto. mstep.
  destruct (merge_existing_run w l df existing f Hl Hf Hr)
    as (w1 & -> & Hfs & Htr & Hfl & Htk & Hhp).
  unfold merge_plan.
  destruct (merge_frames existing df) as [[n|[c nr]]|e]; mstep.
  - exists n. eexists. split; [reflexivity|]. by rewrite Hhp, Hfs, Htr.
  - destruct (save_data_run w1 (Local c) (Local nr) c nr) as (w' & -> & ? & ? & ?);
      [done | done |].
    eexists _, w'. split; [reflexivity|]. rewrite <- Hfs, <- Htr, <- Hfl, <- Htk.
    split; [congruence|done].
  - match goal with |- context [Cron.save_data _ _ _ ?w2] =>
      destruct (save_data_run w2 (Shared l) (Shared l) (keyed df) (keyed df))
        as (w' & -> & ? & ? & ?)
    end.
    1,2: simpl; rewrite Hhp; apply lookup_insert_eq.
    eexists _, w'. split; [reflexivity|]. cbn in *.
    rewrite <- Hfs, <- Htr, <- Hfl, <- Htk. split; [congruence|done].
Qed.

End Runs.
Section UpdateFacts.
Context `{RT : Runtime}.
Variable self : Cron.Scraper.

Lemma count_true_none (mask : list bool) :
  Forall (fun b => b = false) mask -> count_true mask = 0%nat.
Proof.
  unfold count_true. induction 1 as [|b mask Hb _ IH]; [done|].
  subst b. rewrite filter_cons_False by done. exact IH.
Qed.

Lemma isin_all (s other : list value) :
  (forall v, v ∈ s -> v ∈ other) ->
  Forall (fun b => b = false) (negb <$> isin s other).
Proof.
  intros H. unfold isin. rewrite <- list_fmap_compose.
  apply Forall_fmap, Forall_forall. intros v Hv. simpl.
  by rewrite bool_decide_eq_true_2 by auto.
Qed.

Lemma new_rows_none (existing df : DataFrame) :
  (forall k, k ∈ Cron.unique_keys df -> k ∈ existing_keys existing) ->
  empty (new_rows existing df) = true.
Proof.
  intros H. unfold empty, new_rows, take_mask. cbn [nrows].
  by rewrite count_true_none by by apply isin_all.
Qed.

Lemma update_empty_run (w : world) (new_df : option positive) :
  match new_df with
  | None => True
  | Some l => exists df, w_heap w !! l = Some df /\ empty df = true
  end ->
  exists w',
    Cron.update_data_file self new_df w = (Ok 0, w') /\
    w_fs w' = w_fs w /\ w_trace w' = w_trace w /\ w_heap w' = w_heap w.
Proof.
  intros H. unfold Cron.update_data_file. destruct new_df as [l|]; mstep.
  - destruct H as (df & Hl & He). unfold deref. rewrite Hl, He. mstep. finish.
  - finish.
Qed.

(** C8. An empty or absent incoming frame: the call returns zero, renames
    nothing and writes nothing, and every file is as it was. *)
Theorem update_empty_noop (w : world) (new_df : option positive) :
  match new_df with
  | None => True
  | Some l => exists df, w_heap w !! l = Some df /\ empty df = true
  end ->
  exists w',
    Cron.update_data_file self new_df w = (Ok 0, w') /\
    w_fs w' = w_fs w /\ w_trace w' = w_trace w /\ w_heap w' = w_heap w.
Proof. apply update_empty_run. Qed.

(** C1. Merging records whose identity keys all occur in the stored data
    adds nothing: the call returns zero new records, renames nothing and
    writes nothing, so the data file, and every other file, is as it
    was and the stored data is the data that was there. *)
Theorem merge_idempotent (w : world) (l : positive) (df existing : DataFrame) (f : file) :
  w_heap w !! l = Some df ->
  w_fs w !! Cron.data_file self = Some f ->
  read_csv (f_data f) = Some existing ->
  (forall k, k ∈ Cron.unique_keys df -> k ∈ existing_keys existing) ->
  exists w',
    Cron.update_data_file self (Some l) w = (Ok 0, w') /\
    w_fs w' = w_fs w /\ w_trace w' = w_trace w.
Proof.
  intros Hl Hf Hr Hk. destruct (empty df) eqn:He.
  - destruct (update_empty_run w (Some l)) as (w' & ? & ? & ? & ?); eauto.
  - destruct (update_readable_run self w l df existing f Hl He Hf Hr)
      as (r & w' & Hrun & _ & Hm).
    unfold merge_plan, merge_frames in Hm. rewrite new_rows_none in Hm by done.
    destruct Hm as (-> & ? & ?). eauto.
Qed.

Lemma append_ne_self (path s : string) : s <> "" -> path +:+ s <> path.
Proof.
  intros Hs H. apply Hs. induction path as [|a path IH]; [exact H|].
  apply IH. cbn in H. by injection H.
Qed.

Lemma backup_name_ne (path : string) (now : Z) : backup_name path now <> path.
Proof. unfold backup_name. by apply append_ne_self. Qed.

Lemma update_dangling_run (w : world) (l : positive) :
  w_heap w !! l = None ->
  Cron.update_data_file self (Some l) w = (Raised NameError, w).
Proof. intros Hl. unfold Cron.update_data_file, deref. mstep. by rewrite Hl. Qed.

Lemma assoc_set_fresh {A} (l : list (string * A)) (c : string) (a : A) :
  c ∉ l.*1 -> (assoc_set l c a).*1 = (l.*1 ++ [c])%list.
Proof.
  induction l as [|[k b] rest IH]; simpl; intros Hc; [done|].
  apply not_elem_of_cons in Hc as [Hk Hc].
  destruct (String.eqb k c) eqn:E.
  - apply String.eqb_eq in E. congruence.
  - csimpl. by rewrite IH.
Qed.

(** The save step on an existing file, by the faults it meets. *)
Lemma save_outcome_existing (path : string) (fs : gmap string file)
    (faults : list bool) (ticks : nat) (c n : DataFrame) (old : file) :
  fs !! path = Some old ->
  let out := save_outcome path fs faults ticks c n in
  let backup := backup_name path (clock ticks) in
  (out = (0, fs, [])) \/
  (out = (0, after_failed_write path (to_csv c) (clock (S ticks))
                (<[backup := old]> (delete path fs)),
          [Renamed path backup])) \/
  (hd false faults = false /\ hd false (tl faults) = false /\
   out = (Z.of_nat (nrows n),
          <[path := mkFile (to_csv c) (clock (S ticks))]>
            (<[backup := old]> (delete path fs)),
          [Renamed path backup; Wrote path])).
Proof.
  intros Hf. unfold save_outcome. rewrite Hf.
  destruct (hd false faults); [by left|].
  destruct (hd false (tl faults)); [by right; left|].
  by right; right.
Qed.


(** C9. When the data file is read, the caller's frame itself receives
    the helper column of keys and keeps it: whatever the call then does
    (no new record, a write, a failed write), the frame the caller holds
    afterwards is the incoming one with the column unique_key set to the
    keys of its rows, a column more than before when it had none of that
    name; no other frame of the caller changes. *)
Theorem update_mutates_incoming (w : world) (l : positive)
    (df existing : DataFrame) (f : file) :
  w_heap w !! l = Some df ->
  empty df = false ->
  w_fs w !! Cron.data_file self = Some f ->
  read_csv (f_data f) = Some existing ->
  exists r w',
    Cron.update_data_file self (Some l) w = (Ok r, w') /\
    w_heap w' = <[l := keyed df]> (w_heap w) /\
    w_heap w' !! l = Some (keyed df) /\
    has_column "unique_key" (keyed df) = true /\
    column (keyed df) "unique_key" = Cron.unique_keys df /\
    (has_column "unique_key" df = false ->
     columns (keyed df) = (columns df ++ ["unique_key"])%list).
Proof.
  intros Hl He Hf Hr.
  destruct (update_readable_run self w l df existing f Hl He Hf Hr)
    as (r & w' & Hrun & Hh & _).
  exists r, w'. split; [exact Hrun|]. split; [exact Hh|].
  split; [rewrite Hh; apply lookup_insert_eq|].
  split; [apply has_column_set|]. split; [apply column_set|].
  intros Hc. unfold keyed, columns, set_column. cbn [cols].
  apply assoc_set_fresh. unfold has_column, columns in Hc.
  by apply bool_decide_eq_false_1 in Hc.
Qed.

(** C3. With N records to merge and a data file that cannot be read, the
    call raises nothing and takes the incoming frame for the whole data,
    all N records counting as new: when the save goes through (neither
    the backup rename nor the write meets a fault) it returns N, the
    data file holds exactly the incoming frame, none of the unreadable
    content, and the unreadable file is kept under the backup name. *)
Theorem unreadable_file_recovery (w : world) (l : positive) (df : DataFrame) (f : file) :
  w_heap w !! l = Some df ->
  empty df = false ->
  w_fs w !! Cron.data_file self = Some f ->
  read_csv (f_data f) = None ->
  exists r w',
    Cron.update_data_file self (Some l) w = (Ok r, w') /\
    (hd false (w_faults w) = false ->
     hd false (tl (w_faults w)) = false ->
     r = Z.of_nat (nrows df) /\
     w_fs w' !! Cron.data_file self
       = Some (mkFile (to_csv df) (clock (S (w_ticks w)))) /\
     w_fs w' !! backup_name (Cron.data_file self) (clock (w_ticks w)) = Some f /\
     w_trace w' = (w_trace w ++
                   [Renamed (Cron.data_file self)
                      (backup_name (Cron.data_file self) (clock (w_ticks w)));
                    Wrote (Cron.data_file self)])%list).
Proof.
  intros Hl He Hf Hr.
  destruct (update_unreadable_run self w l df f Hl He Hf Hr)
    as (w' & Hrun & Hfs & Htr & _).
  eexists _, w'. split; [exact Hrun|]. intros H1 H2.
  unfold save_outcome in *. rewrite Hf, H1, H2 in *. cbn [fst snd] in *.
  split; [done|]. rewrite Hfs, Htr. split; [apply lookup_insert_eq|].
  split; [|done].
  rewrite lookup_insert_ne by (intros E; by apply (backup_name_ne _ _ (eq_sym E))).
  apply lookup_insert_eq.
Qed.

(** C5. Whenever a run writes the data file where one already stood, the
    run first renamed that file to the path followed by .backup_ and the
    time stamp of the moment: the rename and the write are the only two
    operations, in that order, and afterwards the backup name holds the
    very file that stood at the path (it was moved, not copied: the
    rename leaves nothing at the path for the write to overwrite). *)
Theorem backup_before_overwrite (w w' : world) (new_df : option positive)
    (r : outcome Z) (f : file) :
  Cron.update_data_file self new_df w = (r, w') ->
  w_fs w !! Cron.data_file self = Some f ->
  exists evs,
    w_trace w' = (w_trace w ++ evs)%list /\
    (Wrote (Cron.data_file self) ∈ evs ->
     let backup := backup_name (Cron.data_file self) (clock (w_ticks w)) in
     evs = [Renamed (Cron.data_file self) backup; Wrote (Cron.data_file self)] /\
     backup = Cron.data_file self +:+ ".backup_"
                +:+ strftime "%Y%m%d_%H%M%S" (clock (w_ticks w)) /\
     w_fs w' !! backup = Some f /\
     delete (Cron.data_file self) (delete backup (w_fs w'))
       = delete (Cron.data_file self) (delete backup (w_fs w))).
Proof.
  intros Hrun Hf.
  assert (Hcase : forall c n out,
    out = save_outcome (Cron.data_file self) (w_fs w) (w_faults w) (w_ticks w) c n ->
    w_fs w' = out.1.2 -> w_trace w' = (w_trace w ++ out.2)%list ->
    exists evs, w_trace w' = (w_trace w ++ evs)%list /\
    (Wrote (Cron.data_file self) ∈ evs ->
     let backup := backup_name (Cron.data_file self) (clock (w_ticks w)) in
     evs = [Renamed (Cron.data_file self) backup; Wrote (Cron.data_file self)] /\
     backup = Cron.data_file self +:+ ".backup_"
                +:+ strftime "%Y%m%d_%H%M%S" (clock (w_ticks w)) /\
     w_fs w' !! backup = Some f /\
     delete (Cron.data_file self) (delete backup (w_fs w'))
       = delete (Cron.data_file self) (delete backup (w_fs w)))).
  { intros c n out Hout Hfs Htr. exists out.2. split; [exact Htr|].
    destruct (save_outcome_existing (Cron.data_file self) (w_fs w) (w_faults w)
                (w_ticks w) c n f Hf) as [E|[E|(_ & _ & E)]];
      cbn zeta in E; rewrite <- Hout in E; rewrite E in *; cbn [fst snd] in *.
    - intros H. by apply elem_of_nil in H.
    - intros H. apply list_elem_of_singleton in H. discriminate.
    - intros _. split; [done|]. split; [done|]. rewrite Hfs. split.
      + rewrite lookup_insert_ne
          by (intros E'; by apply (backup_name_ne _ _ (eq_sym E'))).
        apply lookup_insert_eq.
      + apply map_eq. intros k.
        destruct (decide (k = Cron.data_file self)) as [->|Hk];
          [by rewrite !lookup_delete_eq|].
        rewrite !(lookup_delete_ne _ (Cron.data_file self)) by done.
        destruct (decide
          (k = backup_name (Cron.data_file self) (clock (w_ticks w)))) as [->|Hb];
          [by rewrite !lookup_delete_eq|].
        rewrite !lookup_delete_ne, !lookup_insert_ne by done.
        by rewrite lookup_delete_ne. }
  assert (Hnone : w_trace w' = w_trace w ->
    exists evs, w_trace w' = (w_trace w ++ evs)%list /\
    (Wrote (Cron.data_file self) ∈ evs ->
     let backup := backup_name (Cron.data_file self) (clock (w_ticks w)) in
     evs = [Renamed (Cron.data_file self) backup; Wrote (Cron.data_file self)] /\
     backup = Cron.data_file self +:+ ".backup_"
                +:+ strftime "%Y%m%d_%H%M%S" (clock (w_ticks w)) /\
     w_fs w' !! backup = Some f /\
     delete (Cron.data_file self) (delete backup (w_fs w'))
       = delete (Cron.data_file self) (delete backup (w_fs w)))).
  { intros Htr. exists []. rewrite app_nil_r. split; [exact Htr|].
    intros H. by apply elem_of_nil in H. }
  destruct new_df as [l|].
  - destruct (w_heap w !! l) as [df|] eqn:Hl.
    + destruct (empty df) eqn:He.
      * destruct (update_empty_run w (Some l)) as (w1 & Hr1 & _ & Htr & _); [eauto|].
        rewrite Hr1 in Hrun. inversion Hrun; subst. by apply Hnone.
      * destruct (read_csv (f_data f)) as [existing|] eqn:Hr.
        -- destruct (update_readable_run self w l df existing f Hl He Hf Hr)
             as (r1 & w1 & Hr1 & _ & Hm).
           rewrite Hr1 in Hrun. inversion Hrun; subst.
           destruct (merge_plan existing df) as [n|[c nr]].
           ++ apply Hnone. by destruct Hm as (_ & _ & ?).
           ++ destruct Hm as (_ & ? & ?). by eapply Hcase.
        -- destruct (update_unreadable_run self w l df f Hl He Hf Hr)
             as (w1 & Hr1 & ? & ? & _).
           rewrite Hr1 in Hrun. inversion Hrun; subst. by eapply Hcase.
    + rewrite update_dangling_run in Hrun by done. inversion Hrun; subst.
      by apply Hnone.
  - destruct (update_empty_run w None) as (w1 & Hr1 & _ & Htr & _); [done|].
    rewrite Hr1 in Hrun. inversion Hrun; subst. by apply Hnone.
Qed.

End UpdateFacts.

(** ** The checkpoint and the fetch window *)

Section WindowFacts.
Context `{RT : Runtime}.
Variable self : Cron.Scraper.

Lemma latest_spec (ts : list Z) (m : Z) :
  latest ts = Some m -> m ∈ ts /\ forall t, t ∈ ts -> t <= m.
Proof.
  revert m. induction ts as [|t rest IH]; intros m H; [done|].
  simpl in H. destruct (latest rest) as [u|] eqn:E.
  - destruct (IH u eq_refl) as [Hin Hle]. inversion H; subst. split.
    + destruct (Z.max_spec t u) as [[_ ->]|[_ ->]]; [by right|left].
    + intros x [->|Hx]%elem_of_cons; [lia|]. specialize (Hle x Hx). lia.
  - inversion H; subst. destruct rest as [|? ?]; [|done]. split; [left|].
    intros x [->|Hx]%elem_of_cons; [lia|]. by apply elem_of_nil in Hx.
Qed.

Lemma series_max_to_datetime (col : list value) :
  series_max (to_datetime <$> col)
  = from_option Date NA
      (latest (omap (fun v => match to_datetime v with
                              | Date t => Some t
                              | _ => None
                              end) col)).
Proof.
  induction col as [|v col IH]; [done|]. csimpl. rewrite IH.
  assert (Hv : to_datetime v = NA \/ exists t, to_datetime v = Date t).
  { destruct v as [|s|n|t]; simpl; eauto.
    - destruct (parse_datetime s); simpl; eauto.
    - destruct (datetime_of_num n); simpl; eauto. }
  destruct Hv as [->|[t ->]]; [done|]. simpl.
  by destruct (latest _).
Qed.

Lemma column_absent (df : DataFrame) (c : string) :
  has_column c df = false -> column df c = [].
Proof.
  rewrite has_column_get. intros H. apply bool_decide_eq_false_1 in H.
  unfold column. destruct (get_column df c); [|done]. destruct H; eauto.
Qed.

(** The checkpoint the code computes is the one the specification
    describes; the call reads the clock at most once and touches no file. *)
Lemma get_last_update_time_run (w : world) :
  exists w',
    Cron.get_last_update_time self w
      = (Ok (checkpoint (w_fs w) (Cron.data_file self) (clock (w_ticks w))), w') /\
    w_fs w' = w_fs w /\ w_trace w' = w_trace w /\ w_heap w' = w_heap w /\
    w_faults w' = w_faults w /\
    (w_ticks w' = w_ticks w \/ w_ticks w' = S (w_ticks w)).
Proof.
  unfold Cron.get_last_update_time, checkpoint. mstep.
  destruct (w_fs w !! Cron.data_file self) as [f|] eqn:Hf.
  - rewrite bool_decide_eq_true_2 by eauto. mstep.
    unfold pd_read_csv. cbn beta. rewrite Hf.
    destruct (read_csv (f_data f)) as [df|]; mstep.
    + destruct (empty df); mstep.
      { eexists; split; [reflexivity|]. cbn. auto 10. }
      assert (Hlast : (if has_column "date" df
                then series_max (column (set_column df "date"
                                   (to_datetime <$> column df "date")) "date")
                else NA) = from_option Date NA (max_date df)).
      { unfold max_date, parsed_dates. destruct (has_column "date" df) eqn:Hc.
        - by rewrite column_set, series_max_to_datetime.
        - by rewrite column_absent. }
      rewrite Hlast. destruct (max_date df) as [t|]; simpl.
      * eexists; split; [reflexivity|]. auto 10.
      * mstep. unfold os_stat_mtime. cbn beta. rewrite Hf.
        eexists; split; [reflexivity|]. auto 10.
    + eexists; split; [reflexivity|]. cbn. auto 10.
  - rewrite bool_decide_eq_false_2 by (by intros [? ?]). mstep.
    eexists; split; [reflexivity|]. cbn. auto 10.
Qed.

(** C10. [get_last_update_time] always returns a time and never raises.
    The time is seven days before now when the file does not exist, when
    reading it raises, and when it holds no record; the latest parseable
    date when the data has one; and the modification time of the file
    only in what is left: the file was read, has records, and no date in
    it parses. *)
Theorem get_last_update_time_total (w : world) :
  exists t w',
    Cron.get_last_update_time self w = (Ok t, w') /\
    t = checkpoint (w_fs w) (Cron.data_file self) (clock (w_ticks w)) /\
    let now := clock (w_ticks w) in
    match w_fs w !! Cron.data_file self with
    | None => t = now - timedelta_days 7
    | Some f =>
        match read_csv (f_data f) with
        | None => t = now - timedelta_days 7
        | Some df =>
            if empty df then t = now - timedelta_days 7
            else match max_date df with
                 | Some last => t = last
                 | None => t = f_mtime f
                 end
        end
    end.
Proof.
  destruct (get_last_update_time_run w) as (w' & Hrun & _).
  eexists _, w'. split; [exact Hrun|]. split; [done|].
  unfold checkpoint. cbn zeta.
  destruct (w_fs w !! Cron.data_file self) as [f|]; [|done].
  destruct (read_csv (f_data f)) as [df|]; [|done].
  destruct (empty df); [done|]. by destruct (max_date df).
Qed.

Lemma fetch_window_returns (w : world) (from_date to_date : option Z) :
  exists v w', Cron.fetch_window self from_date to_date w = (Ok v, w').
Proof.
  unfold Cron.fetch_window.
  destruct to_date as [t2|]; destruct from_date as [t1|]; mstep; eauto.
  - destruct (get_last_update_time_run w) as (w1 & -> & _). mstep. eauto.
  - match goal with |- context [Cron.get_last_update_time self ?w0] =>
      destruct (get_last_update_time_run w0) as (w1 & -> & _)
    end.
    mstep. eauto.
Qed.

(** C2. The start of the fetch window is the checkpoint raised to thirty
    days before now, now being the clock reading the clamp takes: it is
    never earlier than that bound, it is exactly the bound when the
    checkpoint is older, and it is the checkpoint otherwise.  The
    checkpoint is the caller's [from_date] or, without one, what
    [get_last_update_time] returns. *)
Theorem window_clamp (w : world) (from_date to_date : option Z) :
  exists from_used to_used w' n,
    Cron.fetch_window self from_date to_date w = (Ok (from_used, to_used), w') /\
    w_ticks w' = S n /\
    let now := clock n in
    let asked := match to_date with None => S (w_ticks w) | Some _ => w_ticks w end in
    let ckpt := match from_date with
                | Some t => t
                | None => checkpoint (w_fs w) (Cron.data_file self) (clock asked)
                end in
    now - timedelta_days 30 <= from_used /\
    (ckpt < now - timedelta_days 30 -> from_used = now - timedelta_days 30) /\
    (now - timedelta_days 30 <= ckpt -> from_used = ckpt).
Proof.
  unfold Cron.fetch_window.
  assert (Hclamp : forall c b : Z,
    b <= (if c <? b then b else c) /\
    (c < b -> (if c <? b then b else c) = b) /\
    (b <= c -> (if c <? b then b else c) = c)).
  { intros c b. destruct (Z.ltb_spec c b); lia. }
  destruct to_date as [t2|]; destruct from_date as [t1|]; mstep.
  - eexists _, _, _, _. split; [reflexivity|]. split; [reflexivity|]. apply Hclamp.
  - destruct (get_last_update_time_run w) as (w1 & -> & ? & ? & ? & ? & Ht).
    mstep. eexists _, _, _, _. split; [reflexivity|]. split; [reflexivity|].
    apply Hclamp.
  - eexists _, _, _, _. split; [reflexivity|]. split; [reflexivity|]. apply Hclamp.
  - match goal with |- context [Cron.get_last_update_time self ?w0] =>
      destruct (get_last_update_time_run w0) as (w1 & -> & Hfs & ? & ? & ? & Ht)
    end.
    mstep. eexists _, _, _, _. split; [reflexivity|]. split; [reflexivity|].
    cbn in Hfs. rewrite <- Hfs. apply Hclamp.
Qed.

End WindowFacts.

(** ** The answer of the API *)

Section FetchFacts.
Context `{RT : Runtime}.

Lemma headers_get_default (hs : list (string * string)) (name d1 d2 : string) :
  headers_get hs name d1 = headers_get hs name d2 \/
  (headers_get hs name d1 = d1 /\ headers_get hs name d2 = d2).
Proof.
  induction hs as [|[k v] hs IH]; simpl; [by right|].
  destruct (String.eqb (lower k) (lower name)); [by left|exact IH].
Qed.

(** C7, as the code has it.  A response with status 200 whose declared
    content type is JSON and whose decoded body parses to an object with
    an empty list under data: the fetch of cron_script.py returns the
    empty frame with the two date texts, a result that is not None; the
    fetch of main.py returns None, as it does for a failure. *)
Theorem fetch_empty_data (cron : Cron.Scraper) (main : Main.Scraper) (w : world)
    (from_date to_date : option Z) (days_back : Z)
    (resp : Response) (s : string) (members : list (string * json)) :
  (forall url params, session_get url params = Ok resp) ->
  status_code resp = 200 ->
  decoded_body resp = Some s ->
  contains "application/json" (headers_get (headers resp) "content-type" "") = true ->
  json_loads s = Some (JObj members) ->
  dict_get members "data" = Some (JArr []) ->
  (exists from_str to_str w',
     Cron.fetch_insider_data cron from_date to_date w
       = (Ok (Some (empty_frame, from_str, to_str)), w')) /\
  (exists w', Main.fetch_insider_data main days_back w = (Ok None, w')).
Proof.
  intros Hget Hst Hbody Hct Hjs Hdata. split.
  - unfold Cron.fetch_insider_data. mstep.
    destruct (fetch_window_returns cron w from_date to_date)
      as ([fu tu] & w1 & ->). mstep.
    rewrite Hget, Hst. mstep. cbn [Z.eqb Pos.eqb negb].
    unfold decoded_body in Hbody.
    destruct (contains "br" _); mstep.
    + destruct brotli_installed; [|done]. mstep.
      destruct (brotli_decompress (body resp)) as [d|]; [|done]. simpl in Hbody.
      rewrite Hbody. mstep. rewrite Hct. mstep. rewrite Hjs, Hdata. mstep.
      simpl. mstep. eauto.
    + inversion Hbody; subst. rewrite Hct. mstep. rewrite Hjs, Hdata. mstep.
      simpl. mstep. eauto.
  - unfold Main.fetch_insider_data, Main.print. mstep.
    rewrite Hget, Hst. mstep. cbn [Z.eqb Pos.eqb negb].
    assert (Hct' : contains "application/json"
              (headers_get (headers resp) "content-type" "Unknown") = true).
    { destruct (headers_get_default (headers resp) "content-type" "" "Unknown")
        as [<-|[E _]]; [done|]. rewrite E in Hct. discriminate. }
    unfold decoded_body in Hbody.
    destruct (contains "br" _); mstep.
    + destruct brotli_installed; [|done]. mstep.
      destruct (brotli_decompress (body resp)) as [d|]; [|done]. simpl in Hbody.
      rewrite Hbody. mstep. rewrite Hct'. mstep. rewrite Hjs, Hdata. mstep.
      simpl. mstep. eauto.
    + inversion Hbody; subst. rewrite Hct'. mstep. rewrite Hjs, Hdata. mstep.
      simpl. mstep. eauto.
Qed.

End FetchFacts.

(** ** The theorems at concrete inputs *)

Lemma create_unique_key_deterministic_witness :
  Cron.create_unique_key demo_record_a = identity_key demo_record_a /\
  identity_key demo_record_a = "ABC|Acme Ltd|J Doe|2024-01-01|100|Buy" /\
  Cron.create_unique_key demo_record_a = Cron.create_unique_key demo_record_b.
Proof.
  refine (create_unique_key_deterministic demo_record_a demo_record_b _).
  intros f Hf.
  repeat (apply elem_of_cons in Hf as [->|Hf]; [reflexivity|]).
  by apply elem_of_nil in Hf.
Defined.

Example create_unique_key_demo :
  Cron.create_unique_key demo_row_a = "ABC|2024-01-01|100|Buy" /\
  Cron.create_unique_key [("symbol", Str "ABC"); ("company", NA)] = "ABC|NA" /\
  Cron.create_unique_key [("symbol", Str "ABC")] = "ABC" /\
  Cron.create_unique_key demo_record_absent
    = "ABC|Acme Ltd|NA|2024-01-01|100|Buy" /\
  Cron.create_unique_key demo_record_short = "ABC|J Doe|2024-01-01|100|Buy".
Proof. repeat split; reflexivity. Qed.

Lemma merge_idempotent_witness :
  exists w',
    Cron.update_data_file demo_self (Some 1%positive)
      (demo_world demo_stored_fs {[ 1%positive := demo_incoming_seen ]} [])
    = (Ok 0, w') /\
    w_fs w' = demo_stored_fs /\ w_trace w' = [].
Proof.
  apply (merge_idempotent demo_self
           (demo_world demo_stored_fs {[ 1%positive := demo_incoming_seen ]} [])
           1%positive demo_incoming_seen demo_stored demo_stored_file).
  - reflexivity.
  - reflexivity.
  - reflexivity.
  - apply Forall_forall. vm_compute. repeat constructor.
Defined.

Lemma update_empty_noop_witness :
  exists w',
    Cron.update_data_file demo_self (Some 1%positive)
      (demo_world demo_stored_fs {[ 1%positive := demo_incoming_empty ]} [])
    = (Ok 0, w') /\
    w_fs w' = demo_stored_fs /\ w_trace w' = [] /\
    w_heap w' = {[ 1%positive := demo_incoming_empty ]}.
Proof.
  refine (update_empty_noop demo_self
            (demo_world demo_stored_fs {[ 1%positive := demo_incoming_empty ]} [])
            (Some 1%positive) _).
  exists demo_incoming_empty. split; reflexivity.
Defined.

Lemma update_mutates_incoming_witness :
  exists r w',
    Cron.update_data_file demo_self (Some 1%positive)
      (demo_world demo_stored_fs {[ 1%positive := demo_incoming_new ]} [])
    = (Ok r, w') /\
    w_heap w' !! 1%positive = Some (keyed demo_incoming_new) /\
    columns (keyed demo_incoming_new) = ["symbol"; "date"; "secVal"; "unique_key"].
Proof.
  destruct (update_mutates_incoming demo_self
              (demo_world demo_stored_fs {[ 1%positive := demo_incoming_new ]} [])
              1%positive demo_incoming_new demo_stored demo_stored_file)
    as (r & w' & Hrun & _ & Hl & _ & _ & Hcols);
    [reflexivity | reflexivity | reflexivity | reflexivity |].
  exists r, w'. split; [exact Hrun|]. split; [exact Hl|].
  apply Hcols. reflexivity.
Defined.

Lemma unreadable_file_recovery_witness :
  exists w',
    Cron.update_data_file demo_self (Some 1%positive)
      (demo_world demo_corrupt_fs {[ 1%positive := demo_incoming_ascending ]} [])
    = (Ok 2, w') /\
    w_fs w' !! "nse_insider_trading_data.csv"
      = Some (mkFile (to_csv demo_incoming_ascending) (clock 1)) /\
    w_fs w' !! backup_name "nse_insider_trading_data.csv" (clock 0)
      = Some demo_corrupt_file.
Proof.
  destruct (unreadable_file_recovery demo_self
              (demo_world demo_corrupt_fs {[ 1%positive := demo_incoming_ascending ]} [])
              1%positive demo_incoming_ascending demo_corrupt_file)
    as (r & w' & Hrun & H);
    [reflexivity | reflexivity | reflexivity | reflexivity |].
  destruct H as (-> & Hfile & Hbackup & _); [reflexivity | reflexivity |].
  exists w'. split; [exact Hrun|]. split; [exact Hfile | exact Hbackup].
Defined.

Lemma backup_before_overwrite_witness :
  exists w',
    Cron.update_data_file demo_self (Some 1%positive)
      (demo_world demo_stored_fs {[ 1%positive := demo_incoming_new ]} [])
    = (Ok 1, w') /\
    w_trace w' =
      [Renamed "nse_insider_trading_data.csv"
         (backup_name "nse_insider_trading_data.csv" (clock 0));
       Wrote "nse_insider_trading_data.csv"] /\
    w_fs w' !! backup_name "nse_insider_trading_data.csv" (clock 0)
      = Some demo_stored_file.
Proof.
  pose (w := demo_world demo_stored_fs {[ 1%positive := demo_incoming_new ]} []).
  destruct (Cron.update_data_file demo_self (Some 1%positive) w) as [r w'] eqn:Hrun.
  destruct (backup_before_overwrite demo_self w w' (Some 1%positive) r
              demo_stored_file Hrun eq_refl) as (evs & Htr & H).
  assert (Hv : r = Ok 1 /\ w_trace w' =
      [Renamed "nse_insider_trading_data.csv"
         (backup_name "nse_insider_trading_data.csv" (clock 0));
       Wrote "nse_insider_trading_data.csv"]).
  { split.
    - change r with (r, w').1. rewrite <- Hrun. reflexivity.
    - change w' with (r, w').2. rewrite <- Hrun. reflexivity. }
  destruct Hv as [-> Hv]. exists w'. split; [exact Hrun|]. split; [exact Hv|].
  apply H. rewrite Hv in Htr. apply (app_inv_head []) in Htr. subst evs. right. left.
Defined.

Lemma window_clamp_witness :
  exists w',
    Cron.fetch_window demo_self (Some 0) None (demo_world ∅ ∅ [])
    = (Ok (clock 1 - timedelta_days 30, clock 0), w').
Proof.
  destruct (window_clamp demo_self (demo_world ∅ ∅ []) (Some 0) None)
    as (fu & tu & w' & n & Hrun & Hn & _ & Hold & _).
  assert (Hv : tu = clock 0 /\ n = 1%nat).
  { split.
    - change tu with (match (Ok (fu, tu), w').1 with
                      | Ok v => v.2
                      | Raised _ => 0
                      end).
      rewrite <- Hrun. reflexivity.
    - change w' with (Ok (fu, tu), w').2 in Hn. rewrite <- Hrun in Hn.
      change (2%nat = S n) in Hn. by inversion Hn. }
  destruct Hv as [-> ->]. rewrite Hold in Hrun by reflexivity.
  exists w'. exact Hrun.
Defined.

Lemma fetch_empty_data_witness :
  (exists from_str to_str w',
     Cron.fetch_insider_data demo_self None None (demo_world ∅ ∅ [])
       = (Ok (Some (empty_frame, from_str, to_str)), w')) /\
  (exists w',
     Main.fetch_insider_data (Main.mkScraper "https://www.nseindia.com") 90
       (demo_world ∅ ∅ [])
     = (Ok None, w')).
Proof.
  apply (fetch_empty_data demo_self (Main.mkScraper "https://www.nseindia.com")
           (demo_world ∅ ∅ []) None None 90 demo_response
           "{data: []}" [("data", JArr [])]).
  - reflexivity.
  - reflexivity.
  - reflexivity.
  - reflexivity.
  - reflexivity.
  - reflexivity.
Defined.

(** C7, as first stated, fails on main.py: the answer with an empty list
    under data makes its fetch return None. *)
Lemma fetch_empty_data_counterexample :
  exists w',
    json_loads (text demo_response) = Some (JObj [("data", JArr [])]) /\
    Main.fetch_insider_data (Main.mkScraper "https://www.nseindia.com") 90
      (demo_world ∅ ∅ [])
    = (Ok None, w').
Proof. eexists. split; reflexivity. Qed.

(** C6 at a first run.  No data file yet and two incoming records in
    ascending order of date: the call reports two new records and the
    file it creates holds them in the order they came, the earlier date
    first, so the stored data is not sorted by date descending. *)
Theorem first_creation_keeps_incoming_order :
  exists w',
    Cron.update_data_file demo_self (Some 1%positive)
      (demo_world ∅ {[ 1%positive := demo_incoming_ascending ]} [])
    = (Ok 2, w') /\
    w_fs w' !! "nse_insider_trading_data.csv"
      = Some (mkFile (to_csv demo_incoming_ascending) (clock 0)) /\
    column demo_incoming_ascending "date"
      = [Date 1704067200000000; Date 1706745600000000] /\
    date_sorted_desc (column demo_incoming_ascending "date") = false.
Proof.
  eexists. split; [reflexivity|]. repeat split; reflexivity.
Qed.

(** ** Sorting *)

Lemma before_desc_total (a b : value) :
  is_time a = true -> is_time b = true ->
  before_desc a b = false -> before_desc b a = true.
Proof.
  destruct a, b; simpl; try done. intros _ _ H.
  apply Z.leb_gt in H. apply Z.leb_le. lia.
Qed.

Lemma before_desc_trans (a b c : value) :
  is_time a = true -> is_time b = true -> is_time c = true ->
  before_desc a b = true -> before_desc b c = true -> before_desc a c = true.
Proof.
  destruct a, b, c; simpl; try done. intros _ _ _ H1 H2.
  apply Z.leb_le in H1, H2. apply Z.leb_le. lia.
Qed.

Lemma insert_desc_perm (x : value * nat) (l : list (value * nat)) :
  insert_desc x l ≡ₚ x :: l.
Proof.
  induction l as [|y l IH]; simpl; [done|].
  destruct (before_desc x.1 y.1); [done|].
  rewrite IH. apply Permutation_swap.
Qed.

Lemma sort_pairs_perm (l : list (value * nat)) :
  foldr insert_desc [] l ≡ₚ l.
Proof.
  induction l as [|x l IH]; simpl; [done|].
  by rewrite insert_desc_perm, IH.
Qed.

Lemma insert_desc_sorted (x : value * nat) (l : list (value * nat)) :
  is_time x.1 = true ->
  Forall (fun p => is_time p.1 = true) l ->
  date_sorted_desc l.*1 = true ->
  date_sorted_desc (insert_desc x l).*1 = true.
Proof.
  intros Hx. induction l as [|y l IH]; intros Hl Hs; simpl; [done|].
  apply Forall_cons in Hl as [Hy Hl]. csimpl in Hs.
  apply andb_true_iff in Hs as [Hall Hs].
  destruct (before_desc x.1 y.1) eqn:E; csimpl.
  - rewrite E, Hall, Hs. simpl. rewrite andb_true_r.
    apply forallb_forall. intros z Hz.
    rewrite forallb_forall in Hall. specialize (Hall z Hz).
    apply (before_desc_trans _ y.1); try done.
    apply list_elem_of_In, list_elem_of_fmap in Hz as (p & -> & Hp).
    by apply (proj1 (Forall_forall _ _) Hl).
  - rewrite IH by done. rewrite andb_true_r.
    apply forallb_forall. intros z Hz.
    apply list_elem_of_In, list_elem_of_fmap in Hz as (p & -> & Hp).
    rewrite insert_desc_perm in Hp. apply elem_of_cons in Hp as [->|Hp].
    + by apply before_desc_total.
    + rewrite forallb_forall in Hall. apply Hall, list_elem_of_In, list_elem_of_fmap. eauto.
Qed.

Lemma sort_pairs_sorted (l : list (value * nat)) :
  Forall (fun p => is_time p.1 = true) l ->
  date_sorted_desc (foldr insert_desc [] l).*1 = true.
Proof.
  induction 1 as [|x l Hx Hl IH]; simpl; [done|].
  apply insert_desc_sorted; [done| |done].
  by rewrite sort_pairs_perm.
Qed.
Lemma length_pad (n : nat) (vs : list value) : length (pad n vs) = n.
Proof.
  unfold pad. rewrite length_take, length_app, length_replicate. lia.
Qed.

Lemma cell_pad (n i : nat) (vs : list value) :
  (i < n)%nat -> cell (pad n vs) i = cell vs i.
Proof.
  intros Hi. unfold cell, pad. rewrite lookup_take_lt by done.
  destruct (decide (i < length vs)%nat) as [Hlt|Hge].
  - by rewrite lookup_app_l.
  - rewrite lookup_app_r by lia. rewrite (lookup_ge_None_2 vs) by lia.
    destruct (replicate n NA !! (i - length vs)%nat) as [v|] eqn:E; [|done].
    by apply lookup_replicate in E as [-> _].
Qed.

Lemma zip_seq_cells (pre keys : list value) :
  Forall (fun p : value * nat =>
            cell (pre ++ keys)%list p.2 = p.1 /\ (p.2 < length (pre ++ keys)%list)%nat)
         (zip keys (seq (length pre) (length keys))).
Proof.
  revert pre. induction keys as [|v keys IH]; intros pre; simpl; [done|].
  constructor.
  - simpl. unfold cell. rewrite lookup_app_r by lia.
    rewrite Nat.sub_diag. simpl. split; [done|]. rewrite length_app. simpl. lia.
  - specialize (IH (pre ++ [v])%list).
    assert (E : length (pre ++ [v])%list = S (length pre))
      by (rewrite length_app; simpl; lia).
    rewrite <- app_assoc in IH. rewrite E in IH. exact IH.
Qed.

Lemma zip_seq_snd (keys : list value) (k : nat) :
  (zip keys (seq k (length keys))).*2 = seq k (length keys).
Proof.
  revert k. induction keys as [|v keys IH]; intros k; csimpl; [done|].
  by rewrite IH.
Qed.

Lemma argsort_desc_perm (keys : list value) :
  argsort_desc keys ≡ₚ seq 0 (length keys).
Proof.
  unfold argsort_desc. rewrite sort_pairs_perm. by rewrite zip_seq_snd.
Qed.

Lemma argsort_desc_bound (keys : list value) (i : nat) :
  i ∈ argsort_desc keys -> (i < length keys)%nat.
Proof.
  rewrite argsort_desc_perm. intros H%elem_of_seq. lia.
Qed.

Lemma argsort_desc_cells (keys : list value) :
  (foldr insert_desc [] (zip keys (seq 0 (length keys)))).*1
  = reorder (argsort_desc keys) keys.
Proof.
  unfold reorder, argsort_desc.
  pose proof (zip_seq_cells [] keys) as H. simpl in H.
  rewrite <- (sort_pairs_perm (zip keys (seq 0 (length keys)))) in H.
  induction H as [|p l [Hp _] _ IH]; csimpl; [done|].
  by rewrite IH, Hp.
Qed.

Lemma argsort_desc_sorted (keys : list value) :
  forallb is_time keys = true ->
  date_sorted_desc (reorder (argsort_desc keys) keys) = true.
Proof.
  intros Hk. rewrite <- argsort_desc_cells. apply sort_pairs_sorted.
  pose proof (zip_seq_cells [] keys) as H. simpl in H.
  eapply Forall_impl; [exact H|]. intros [v i] [Hc Hi]. simpl in *. subst v.
  unfold cell. destruct (keys !! i) as [v|] eqn:E; [|done].
  rewrite forallb_forall in Hk. apply Hk, list_elem_of_In.
  by eapply list_elem_of_lookup_2.
Qed.

Lemma reorder_pad (n : nat) (perm : list nat) (vs : list value) :
  (forall i, i ∈ perm -> (i < n)%nat) ->
  reorder perm (pad n vs) = reorder perm vs.
Proof.
  intros H. unfold reorder. apply Forall_fmap_ext, Forall_forall.
  intros i Hi. by apply cell_pad, H.
Qed.
(** ** Columns through the steps of the merge *)

Lemma assoc_get_set_ne {A} (l : list (string * A)) (k c : string) (a : A) :
  k <> c -> assoc_get (assoc_set l k a) c = assoc_get l c.
Proof.
  intros Hne. induction l as [|[k' b] rest IH]; simpl.
  - by rewrite (proj2 (String.eqb_neq k c) Hne).
  - destruct (String.eqb k' k) eqn:E; simpl.
    + apply String.eqb_eq in E. subst k'.
      by rewrite (proj2 (String.eqb_neq k c) Hne).
    + destruct (String.eqb k' c); [done|exact IH].
Qed.

Lemma assoc_get_app {A} (l1 l2 : list (string * A)) (c : string) :
  assoc_get (l1 ++ l2)%list c
  = match assoc_get l1 c with
    | Some a => Some a
    | None => assoc_get l2 c
    end.
Proof.
  induction l1 as [|[k a] rest IH]; simpl; [done|].
  by destruct (String.eqb k c).
Qed.

Lemma assoc_get_fmap {A B} (h : string -> A -> B) (l : list (string * A)) (c : string) :
  assoc_get ((fun cv => (cv.1, h cv.1 cv.2)) <$> l) c = h c <$> assoc_get l c.
Proof.
  induction l as [|[k a] rest IH]; csimpl; [done|].
  destruct (String.eqb k c) eqn:E; [|exact IH].
  apply String.eqb_eq in E. by subst k.
Qed.

Lemma assoc_get_filter {A} (P : string -> Prop) `{!forall k, Decision (P k)}
    (l : list (string * A)) (c : string) :
  assoc_get (filter (fun cv => P cv.1) l) c
  = if decide (P c) then assoc_get l c else None.
Proof.
  induction l as [|[k a] rest IH]; simpl; [by destruct (decide (P c))|].
  destruct (decide (P k)) as [Hk|Hk].
  - rewrite filter_cons_True by done. simpl.
    destruct (String.eqb k c) eqn:E; [|exact IH].
    apply String.eqb_eq in E. subst k. by destruct (decide (P c)).
  - rewrite filter_cons_False by done. rewrite IH.
    destruct (String.eqb k c) eqn:E; [|done].
    apply String.eqb_eq in E. subst k. by destruct (decide (P c)).
Qed.

Lemma assoc_get_filter_notin {A} (l : list (string * A)) (ks : list string)
    (c : string) :
  assoc_get (filter (fun cv => cv.1 ∉ ks) l) c
  = if decide (c ∉ ks) then assoc_get l c else None.
Proof. exact (assoc_get_filter (fun k => k ∉ ks) l c). Qed.

Lemma assoc_get_filter_ne {A} (l : list (string * A)) (k c : string) :
  assoc_get (filter (fun cv => cv.1 ≠ k) l) c
  = if decide (c ≠ k) then assoc_get l c else None.
Proof. exact (assoc_get_filter (fun k' => k' ≠ k) l c). Qed.

Lemma assoc_set_keys_in {A} (l : list (string * A)) (c : string) (a : A) :
  c ∈ l.*1 -> (assoc_set l c a).*1 = l.*1.
Proof.
  induction l as [|[k b] rest IH]; csimpl; intros Hc.
  - by apply elem_of_nil in Hc.
  - destruct (String.eqb k c) eqn:E; csimpl; [done|].
    apply String.eqb_neq in E. apply elem_of_cons in Hc as [->|Hc]; [done|].
    by rewrite IH.
Qed.

Lemma columns_set_column (df : DataFrame) (c : string) (vs : list value) :
  columns (set_column df c vs)
  = if has_column c df then columns df else (columns df ++ [c])%list.
Proof.
  unfold columns, has_column, set_column, columns. cbn [cols].
  case_bool_decide.
  - by apply assoc_set_keys_in.
  - by apply assoc_set_fresh.
Qed.

Lemma forallb_select (P : value -> bool) (mask : list bool) (vs : list value) :
  forallb P vs = true -> forallb P (select mask vs) = true.
Proof.
  revert vs. induction mask as [|b mask IH]; intros [|v vs]; simpl; try done.
  intros [Hv Hvs]%andb_true_iff. destruct b; simpl.
  - rewrite Hv. simpl. by apply IH.
  - by apply IH.
Qed.

Lemma forallb_pad (P : value -> bool) (n : nat) (vs : list value) :
  P NA = true -> forallb P vs = true -> forallb P (pad n vs) = true.
Proof.
  intros HNA Hvs. unfold pad. apply forallb_forall. intros v Hv.
  apply list_elem_of_In in Hv. apply subseteq_take in Hv.
  apply elem_of_app in Hv as [Hv|Hv].
  - rewrite forallb_forall in Hvs. by apply Hvs, list_elem_of_In.
  - by apply elem_of_replicate in Hv as [-> _].
Qed.

Lemma forallb_replicate_NA (P : value -> bool) (n : nat) :
  P NA = true -> forallb P (replicate n NA) = true.
Proof. intros H. induction n; simpl; [done|]. by rewrite H. Qed.

Lemma forallb_app_2 (P : value -> bool) (l1 l2 : list value) :
  forallb P l1 = true -> forallb P l2 = true -> forallb P (l1 ++ l2)%list = true.
Proof. intros H1 H2. by rewrite forallb_app, H1, H2. Qed.

(** A property of the cells that NA has holds of a column of [concat]
    when it holds of that column in both frames. *)
Lemma concat_column_forall (P : value -> bool) (a b : DataFrame) (c : string)
    (vs : list value) :
  P NA = true ->
  get_column (concat a b) c = Some vs ->
  forallb P (column a c) = true ->
  forallb P (column b c) = true ->
  forallb P vs = true.
Proof.
  intros HNA Hget Ha Hb. unfold get_column, concat in Hget. cbn [cols] in Hget.
  rewrite assoc_get_app in Hget.
  rewrite (assoc_get_fmap
             (fun k va => (pad (nrows a) va ++
                           match assoc_get (cols b) k with
                           | Some ws => pad (nrows b) ws
                           | None => replicate (nrows b) NA
                           end)%list)) in Hget.
  unfold column, get_column in Ha, Hb.
  destruct (assoc_get (cols a) c) as [va|] eqn:Ea; simpl in Hget.
  - inversion Hget; subst. apply forallb_app_2; [by apply forallb_pad|].
    destruct (assoc_get (cols b) c) as [vb|].
    + by apply forallb_pad.
    + by apply forallb_replicate_NA.
  - rewrite (assoc_get_fmap
               (fun k vb => (replicate (nrows a) NA ++ pad (nrows b) vb)%list)) in Hget.
    rewrite assoc_get_filter_notin in Hget.
    destruct (decide (c ∉ columns a)); [|done].
    destruct (assoc_get (cols b) c) as [vb|]; [|done]. simpl in Hget.
    inversion Hget; subst. apply forallb_app_2.
    + by apply forallb_replicate_NA.
    + by apply forallb_pad.
Qed.
(** ** The merge on an incoming frame whose dates are times *)

Section MergeTyped.
Context `{RT : Runtime}.

Lemma comparable_times (keys : list value) :
  forallb is_time keys = true -> comparable keys = true.
Proof.
  intros H. unfold comparable.
  assert (Hk : Forall (fun k => k = 2%nat) (omap kind keys)).
  { induction keys as [|v keys IH]; csimpl; [done|].
    simpl in H. apply andb_true_iff in H as [Hv H].
    destruct v; simpl in *; try done; auto. }
  destruct (omap kind keys) as [|k ks]; [done|].
  apply Forall_cons in Hk as [-> Hk]. apply forallb_forall.
  intros x Hx%list_elem_of_In. by rewrite (proj1 (Forall_forall _ _) Hk x Hx).
Qed.

Lemma forallb_to_datetime (col : list value) :
  forallb is_time (to_datetime <$> col) = true.
Proof.
  induction col as [|v col IH]; csimpl; [done|]. rewrite IH, andb_true_r.
  destruct v as [|s|n|t]; simpl; try done.
  - by destruct (parse_datetime s).
  - by destruct (datetime_of_num n).
Qed.

Lemma column_parsed_times (existing : DataFrame) :
  forallb is_time (column (parsed existing) "date") = true.
Proof.
  unfold parsed. destruct (has_column "date" existing) eqn:E.
  - rewrite column_set. apply forallb_to_datetime.
  - by rewrite column_absent.
Qed.

Lemma column_drop_ne (df df' : DataFrame) (k c : string) :
  c <> k -> drop_column df k = Some df' -> column df' c = column df c.
Proof.
  intros Hne. unfold drop_column. destruct (has_column k df); [|done].
  intros [= <-]. unfold column, get_column. cbn [cols].
  rewrite assoc_get_filter_ne. by rewrite decide_True.
Qed.

Lemma column_set_ne (df : DataFrame) (k c : string) (vs : list value) :
  k <> c -> column (set_column df k vs) c = column df c.
Proof.
  intros Hne. unfold column, get_column, set_column. cbn [cols].
  by rewrite assoc_get_set_ne.
Qed.

Lemma column_take_mask (df : DataFrame) (mask : list bool) (c : string) :
  has_column c df = true ->
  column (take_mask df mask) c = select mask (column df c).
Proof.
  rewrite has_column_get. intros H%bool_decide_eq_true_1.
  unfold column, get_column, take_mask in *. cbn [cols].
  rewrite (assoc_get_fmap (fun _ vs => select mask vs)).
  by destruct H as [vs ->].
Qed.

Lemma select_nil (mask : list bool) : select mask ([] : list value) = [].
Proof. by destruct mask. Qed.

Lemma column_take_mask_times (df : DataFrame) (mask : list bool) (c : string) :
  forallb is_time (column df c) = true ->
  forallb is_time (column (take_mask df mask) c) = true.
Proof.
  intros H. destruct (has_column c df) eqn:E.
  - rewrite column_take_mask by done. by apply forallb_select.
  - rewrite column_absent; [done|].
    rewrite has_column_get in *. apply bool_decide_eq_false_2.
    apply bool_decide_eq_false_1 in E. intros [vs Hvs]. apply E.
    unfold get_column, take_mask in *. cbn [cols] in Hvs.
    rewrite (assoc_get_fmap (fun _ vs => select mask vs)) in Hvs.
    destruct (assoc_get (cols df) c); [eauto|done].
Qed.

Lemma columns_take_mask (df : DataFrame) (mask : list bool) :
  columns (take_mask df mask) = columns df.
Proof.
  unfold columns, take_mask. cbn [cols]. rewrite <- list_fmap_compose.
  by apply list_fmap_ext.
Qed.

Lemma drop_column_some (df : DataFrame) (k : string) :
  has_column k df = true ->
  drop_column df k
  = Some (mkDF (nrows df) (filter (fun cv => cv.1 ≠ k) (cols df))).
Proof. intros H. unfold drop_column. by rewrite H. Qed.

Lemma columns_drop (df df' : DataFrame) (k : string) :
  drop_column df k = Some df' -> k ∉ columns df'.
Proof.
  unfold drop_column. destruct (has_column k df); [|done]. intros [= <-].
  unfold columns. cbn [cols]. intros (cv & -> & Hcv)%list_elem_of_fmap.
  by apply list_elem_of_filter in Hcv as [Hne _].
Qed.

Lemma columns_concat (a b : DataFrame) (c : string) :
  c ∈ columns (concat a b) -> c ∈ columns a \/ c ∈ columns b.
Proof.
  unfold columns, concat. cbn [cols]. rewrite fmap_app, elem_of_app.
  rewrite <- !list_fmap_compose.
  intros [(cv & -> & Hcv)%list_elem_of_fmap|(cv & -> & Hcv)%list_elem_of_fmap].
  - left. apply list_elem_of_fmap. eauto.
  - right. apply list_elem_of_filter in Hcv as [_ Hcv].
    apply list_elem_of_fmap. eauto.
Qed.

Lemma count_true_length (mask : list bool) : (count_true mask <= length mask)%nat.
Proof. unfold count_true. apply length_filter. Qed.

Lemma count_true_isin (keys other : list value) :
  count_true (negb <$> isin keys other)
  = length (filter (fun k => k ∉ other) keys).
Proof.
  unfold count_true, isin. rewrite <- list_fmap_compose.
  induction keys as [|k keys IH]; [done|]. csimpl.
  destruct (decide (k ∈ other)) as [Hk|Hk].
  - rewrite bool_decide_eq_true_2 by done. simpl.
    rewrite filter_cons_False by done. rewrite filter_cons_False by auto. exact IH.
  - rewrite bool_decide_eq_false_2 by done. simpl.
    rewrite !filter_cons_True by done. simpl. by rewrite IH.
Qed.

(** The sorted frame: its shape, and its sort column. *)
Lemma sort_values_desc_times (df : DataFrame) (c : string) :
  has_column c df = true ->
  forallb is_time (column df c) = true ->
  exists df',
    sort_values_desc df c = Ok df' /\
    nrows df' = nrows df /\ columns df' = columns df /\
    date_sorted_desc (column df' c) = true.
Proof.
  intros Hc Ht. unfold sort_values_desc.
  rewrite has_column_get in Hc. apply bool_decide_eq_true_1 in Hc as [vs Hvs].
  unfold column in Ht. rewrite Hvs in *. simpl in Ht.
  rewrite comparable_times by (by apply forallb_pad).
  eexists. split; [reflexivity|]. cbn [nrows]. split; [done|]. split.
  - unfold columns. cbn [cols]. rewrite <- list_fmap_compose. by apply list_fmap_ext.
  - unfold column, get_column. cbn [cols].
    rewrite (assoc_get_fmap
               (fun _ ws => reorder (argsort_desc (pad (nrows df) vs)) ws)).
    unfold get_column in Hvs. rewrite Hvs. simpl.
    rewrite <- (reorder_pad (nrows df)).
    + apply argsort_desc_sorted. by apply forallb_pad.
    + intros i Hi%argsort_desc_bound. by rewrite length_pad in Hi.
Qed.

(** With incoming dates that are times and some new row, the [try]
    block ends with a combined frame: it has the stored rows and the new
    rows, no helper column, and its dates stand latest first. *)
Lemma merge_frames_typed (existing df : DataFrame) :
  forallb is_time (column df "date") = true ->
  empty (new_rows existing df) = false ->
  exists combined new_records,
    merge_frames existing df = Ok (inr (combined, new_records)) /\
    nrows new_records
      = length (filter (fun k => k ∉ existing_keys existing) (Cron.unique_keys df)) /\
    nrows combined = (nrows existing + nrows new_records)%nat /\
    has_column "unique_key" combined = false /\
    date_sorted_desc (column combined "date") = true.
Proof.
  intros Ht Hne. unfold merge_frames. rewrite Hne.
  assert (Hk1 : has_column "unique_key" (new_rows existing df) = true).
  { unfold has_column, new_rows. rewrite columns_take_mask. apply has_column_set. }
  assert (Hk2 : has_column "unique_key" (keyed (parsed existing)) = true)
    by apply has_column_set.
  destruct (drop_column (new_rows existing df) "unique_key") as [nr|] eqn:Hnr;
    [|by rewrite drop_column_some in Hnr].
  destruct (drop_column (keyed (parsed existing)) "unique_key") as [ex|] eqn:Hex;
    [|by rewrite drop_column_some in Hex].
  assert (Hnrows : nrows nr
    = length (filter (fun k => k ∉ existing_keys existing) (Cron.unique_keys df))).
  { rewrite drop_column_some in Hnr by done. inversion Hnr; subst. cbn [nrows].
    unfold new_rows, take_mask. cbn [nrows]. apply count_true_isin. }
  assert (Hexrows : nrows ex = nrows existing).
  { rewrite drop_column_some in Hex by done. inversion Hex; subst. cbn [nrows].
    unfold keyed, parsed. by destruct (has_column "date" existing). }
  assert (Hnokey : has_column "unique_key" (concat ex nr) = false).
  { apply bool_decide_eq_false_2. intros [H|H]%columns_concat.
    - by apply (columns_drop _ _ _ Hex).
    - by apply (columns_drop _ _ _ Hnr). }
  assert (Htimes : forall vs, get_column (concat ex nr) "date" = Some vs ->
                              forallb is_time vs = true).
  { intros vs Hvs. apply (concat_column_forall is_time ex nr "date"); try done.
    - rewrite (column_drop_ne (keyed (parsed existing)) ex "unique_key" "date");
        [|done|exact Hex].
      unfold keyed. rewrite column_set_ne by done. apply column_parsed_times.
    - rewrite (column_drop_ne (new_rows existing df) nr "unique_key" "date");
        [|done|exact Hnr].
      unfold new_rows. apply column_take_mask_times.
      unfold keyed. by rewrite column_set_ne. }
  destruct (has_column "date" (concat ex nr)) eqn:Hd.
  - destruct (sort_values_desc_times (concat ex nr) "date" Hd)
      as (sorted & -> & Hn & Hcols & Hs).
    { rewrite has_column_get in Hd. apply bool_decide_eq_true_1 in Hd as [vs Hvs].
      unfold column. rewrite Hvs. by apply Htimes. }
    exists sorted, nr. split; [done|]. split; [done|]. split.
    { rewrite Hn. cbn [concat nrows]. by rewrite Hexrows. }
    split; [|done]. unfold has_column in *. by rewrite Hcols.
  - exists (concat ex nr), nr. split; [done|]. split; [done|]. split.
    { cbn [concat nrows]. by rewrite Hexrows. }
    split; [done|]. by rewrite column_absent.
Qed.

End MergeTyped.

(** ** The rows of a merged frame *)

Section MergeRows.
Context `{RT : Runtime}.

Lemma pad_nil (n : nat) : pad n [] = replicate n NA.
Proof. unfold pad. simpl. by rewrite take_replicate, Nat.min_id. Qed.

Lemma get_column_none (df : DataFrame) (c : string) :
  get_column df c = None <-> c ∉ columns df.
Proof.
  pose proof (has_column_get df c) as H. unfold has_column in H. split.
  - intros E Hin. rewrite E in H. rewrite bool_decide_eq_true_2 in H by done.
    symmetry in H. apply bool_decide_eq_true_1 in H. by destruct H.
  - intros Hn. rewrite bool_decide_eq_false_2 in H by done.
    symmetry in H. apply bool_decide_eq_false_1 in H.
    destruct (get_column df c); [|done]. destruct H. eauto.
Qed.

(** A column of [pd.concat([a, b])]: the cells of [a] then those of [b],
    with NA where a frame lacks the column. *)
Lemma concat_get_column (a b : DataFrame) (c : string) :
  get_column (concat a b) c
  = if has_column c a || has_column c b
    then Some (pad (nrows a) (column a c) ++ pad (nrows b) (column b c))%list
    else None.
Proof.
  unfold get_column at 1, concat. cbn [cols]. rewrite assoc_get_app.
  rewrite (assoc_get_fmap
             (fun k vs => (pad (nrows a) vs ++
                           match assoc_get (cols b) k with
                           | Some ws => pad (nrows b) ws
                           | None => replicate (nrows b) NA
                           end)%list)).
  rewrite (assoc_get_fmap
             (fun _ vs => (replicate (nrows a) NA ++ pad (nrows b) vs)%list)).
  rewrite assoc_get_filter_notin.
  rewrite !has_column_get. unfold column, get_column.
  destruct (assoc_get (cols a) c) as [va|] eqn:Ea; cbn [fmap option_fmap option_map].
  - rewrite bool_decide_eq_true_2 by eauto. cbn [orb default].
    destruct (assoc_get (cols b) c) as [vb|]; cbn [default]; [done|].
    by rewrite pad_nil.
  - assert (Hn : c ∉ columns a) by by apply get_column_none.
    rewrite decide_True by done.
    rewrite bool_decide_eq_false_2 by (intros [? ?]; done). cbn [orb].
    destruct (assoc_get (cols b) c) as [vb|]; cbn [fmap option_fmap option_map default].
    + rewrite bool_decide_eq_true_2 by eauto. by rewrite pad_nil.
    + by rewrite bool_decide_eq_false_2 by (intros [? ?]; done).
Qed.

Lemma reorder_seq (vs : list value) :
  reorder (seq 0 (length vs)) vs = vs.
Proof.
  unfold reorder. apply list_eq. intros i. rewrite list_lookup_fmap.
  destruct (decide (i < length vs)%nat) as [Hlt|Hge].
  - rewrite lookup_seq_lt by done. simpl. unfold cell.
    destruct (lookup_lt_is_Some_2 vs i Hlt) as [v Hv]. by rewrite Hv.
  - rewrite lookup_seq_ge by lia. simpl. symmetry. apply lookup_ge_None_2. lia.
Qed.

(** The sort of a frame by a column of times: every column is reordered
    by one and the same permutation of the rows. *)
Lemma sort_values_desc_rows (df : DataFrame) (c : string) :
  has_column c df = true ->
  forallb is_time (column df c) = true ->
  exists df' perm,
    sort_values_desc df c = Ok df' /\
    nrows df' = nrows df /\ columns df' = columns df /\
    perm ≡ₚ seq 0 (nrows df) /\
    (forall c', get_column df' c' = reorder perm <$> get_column df c') /\
    date_sorted_desc (column df' c) = true.
Proof.
  intros Hc Ht. unfold sort_values_desc.
  rewrite has_column_get in Hc. apply bool_decide_eq_true_1 in Hc as [vs Hvs].
  unfold column in Ht. rewrite Hvs in *. simpl in Ht.
  rewrite comparable_times by (by apply forallb_pad).
  eexists _, (argsort_desc (pad (nrows df) vs)). split; [reflexivity|].
  cbn [nrows]. split; [done|].
  assert (Hget : forall c',
    get_column
      (mkDF (nrows df)
         ((fun cv : string * list value =>
             (cv.1, reorder (argsort_desc (pad (nrows df) vs)) cv.2)) <$> cols df)) c'
    = reorder (argsort_desc (pad (nrows df) vs)) <$> get_column df c').
  { intros c'. unfold get_column. cbn [cols].
    by rewrite (assoc_get_fmap
                  (fun _ ws => reorder (argsort_desc (pad (nrows df) vs)) ws)). }
  split; [|split; [|split; [exact Hget|]]].
  - unfold columns. cbn [cols]. rewrite <- list_fmap_compose. by apply list_fmap_ext.
  - rewrite argsort_desc_perm. by rewrite length_pad.
  - unfold column. rewrite Hget, Hvs. simpl.
    rewrite <- (reorder_pad (nrows df)).
    + apply argsort_desc_sorted. by apply forallb_pad.
    + intros i Hi%argsort_desc_bound. by rewrite length_pad in Hi.
Qed.

Lemma get_column_drop (df df' : DataFrame) (k c : string) :
  drop_column df k = Some df' ->
  get_column df' c = if decide (c ≠ k) then get_column df c else None.
Proof.
  unfold drop_column. destruct (has_column k df); [|done]. intros [= <-].
  unfold get_column. cbn [cols]. apply assoc_get_filter_ne.
Qed.

Lemma get_column_set_ne (df : DataFrame) (k c : string) (vs : list value) :
  k <> c -> get_column (set_column df k vs) c = get_column df c.
Proof. intros Hne. unfold get_column, set_column. cbn [cols]. by apply assoc_get_set_ne. Qed.

Lemma get_column_take_mask (df : DataFrame) (mask : list bool) (c : string) :
  get_column (take_mask df mask) c = select mask <$> get_column df c.
Proof.
  unfold get_column, take_mask. cbn [cols].
  by rewrite (assoc_get_fmap (fun _ vs => select mask vs)).
Qed.

Lemma has_column_parsed (existing : DataFrame) (c : string) :
  has_column c (parsed existing) = has_column c existing.
Proof.
  unfold parsed. destruct (has_column "date" existing) eqn:E; [|done].
  unfold has_column at 1. by rewrite columns_set_column, E.
Qed.

Lemma get_column_parsed_other (existing : DataFrame) (c : string) :
  c <> "date" -> get_column (parsed existing) c = get_column existing c.
Proof.
  intros Hne. unfold parsed. destruct (has_column "date" existing); [|done].
  by apply get_column_set_ne.
Qed.

(** With incoming dates that are times and some new row, the [try]
    block ends with a combined frame whose columns are those of the
    stored data and of the incoming frame, and whose rows are the stored
    rows and the new rows in one order, the dates latest first. *)
Lemma merge_frames_rows (existing df : DataFrame) :
  forallb is_time (column df "date") = true ->
  empty (new_rows existing df) = false ->
  exists combined new_records perm,
    merge_frames existing df = Ok (inr (combined, new_records)) /\
    nrows new_records = count_true (new_mask existing df) /\
    nrows combined = (nrows existing + count_true (new_mask existing df))%nat /\
    (forall c, has_column c combined = true <->
               c <> "unique_key" /\
               (has_column c existing = true \/ has_column c df = true)) /\
    perm ≡ₚ seq 0 (nrows existing + count_true (new_mask existing df)) /\
    (forall c, has_column c combined = true ->
               column combined c
               = reorder perm
                   (merged_column existing df (new_mask existing df) c)) /\
    date_sorted_desc (column combined "date") = true.
Proof.
  intros Ht Hne. unfold merge_frames. rewrite Hne.
  assert (Hk1 : has_column "unique_key" (new_rows existing df) = true).
  { unfold has_column, new_rows. rewrite columns_take_mask. apply has_column_set. }
  assert (Hk2 : has_column "unique_key" (keyed (parsed existing)) = true)
    by apply has_column_set.
  destruct (drop_column (new_rows existing df) "unique_key") as [nr|] eqn:Hnr;
    [|by rewrite drop_column_some in Hnr].
  destruct (drop_column (keyed (parsed existing)) "unique_key") as [ex|] eqn:Hex;
    [|by rewrite drop_column_some in Hex].
  assert (Hnrows : nrows nr = count_true (new_mask existing df)).
  { rewrite drop_column_some in Hnr by done. by inversion Hnr. }
  assert (Hexrows : nrows ex = nrows existing).
  { rewrite drop_column_some in Hex by done. inversion Hex; subst. cbn [nrows].
    unfold keyed, parsed. by destruct (has_column "date" existing). }
  assert (Hgex : forall c, get_column ex c
                 = if decide (c ≠ "unique_key") then get_column (parsed existing) c
                   else None).
  { intros c. rewrite (get_column_drop _ _ _ _ Hex).
    destruct (decide (c ≠ "unique_key")); [|done].
    unfold keyed. by apply get_column_set_ne. }
  assert (Hgnr : forall c, get_column nr c
                 = if decide (c ≠ "unique_key")
                   then select (new_mask existing df) <$> get_column df c
                   else None).
  { intros c. rewrite (get_column_drop _ _ _ _ Hnr).
    destruct (decide (c ≠ "unique_key")); [|done].
    unfold new_rows. rewrite get_column_take_mask. unfold keyed.
    by rewrite get_column_set_ne. }
  assert (Hhas : forall c,
    has_column c ex || has_column c nr = true <->
    c <> "unique_key" /\ (has_column c existing = true \/ has_column c df = true)).
  { intros c. rewrite orb_true_iff. rewrite <- (has_column_parsed existing c).
    rewrite !has_column_get, Hgex, Hgnr.
    destruct (decide (c ≠ "unique_key")) as [Hc|Hc].
    - destruct (get_column (parsed existing) c), (get_column df c); simpl;
        rewrite ?bool_decide_eq_true; split; intros H; try tauto;
        try (split; [done|]); try tauto.
      all: try (destruct H as [H|H]; destruct H; done).
      all: try (destruct H as [_ [H|H]]; destruct H; done).
      all: try (left; eauto); try (right; eauto).
    - rewrite !bool_decide_eq_true. split.
      + intros [[? ?]|[? ?]]; done.
      + intros [? _]. done. }
  assert (Hcol : forall c, c <> "unique_key" ->
    (pad (nrows ex) (column ex c) ++ pad (nrows nr) (column nr c))%list
    = merged_column existing df (new_mask existing df) c).
  { intros c Hc. unfold merged_column, column. rewrite Hgex, Hgnr, Hexrows, Hnrows.
    rewrite !decide_True by done. f_equal. f_equal.
    destruct (get_column df c); [done|]. simpl. by rewrite select_nil. }
  assert (Hlen : forall c,
    length (pad (nrows ex) (column ex c) ++ pad (nrows nr) (column nr c))%list
    = (nrows existing + count_true (new_mask existing df))%nat).
  { intros c. by rewrite length_app, !length_pad, Hexrows, Hnrows. }
  assert (Htimes : forall vs, get_column (concat ex nr) "date" = Some vs ->
                              forallb is_time vs = true).
  { intros vs Hvs. apply (concat_column_forall is_time ex nr "date"); try done.
    - rewrite (column_drop_ne (keyed (parsed existing)) ex "unique_key" "date");
        [|done|exact Hex].
      unfold keyed. rewrite column_set_ne by done. apply column_parsed_times.
    - rewrite (column_drop_ne (new_rows existing df) nr "unique_key" "date");
        [|done|exact Hnr].
      unfold new_rows. apply column_take_mask_times.
      unfold keyed. by rewrite column_set_ne. }
  destruct (has_column "date" (concat ex nr)) eqn:Hd.
  - destruct (sort_values_desc_rows (concat ex nr) "date" Hd)
      as (sorted & perm & -> & Hn & Hcols & Hperm & Hget & Hs).
    { rewrite has_column_get in Hd. apply bool_decide_eq_true_1 in Hd as [vs Hvs].
      unfold column. rewrite Hvs. by apply Htimes. }
    exists sorted, nr, perm. split; [done|]. split; [done|].
    split; [rewrite Hn; cbn [concat nrows]; by rewrite Hexrows, Hnrows|].
    assert (Hsame : forall c, has_column c sorted = has_column c ex || has_column c nr).
    { intros c. unfold has_column at 1. rewrite Hcols.
      change (bool_decide (c ∈ columns (concat ex nr)))
        with (has_column c (concat ex nr)).
      rewrite has_column_get, concat_get_column.
      by destruct (has_column c ex || has_column c nr). }
    split; [intros c; rewrite Hsame; apply Hhas|].
    split; [cbn [concat nrows] in Hperm; by rewrite Hexrows, Hnrows in Hperm|].
    split; [|done].
    intros c Hc. rewrite Hsame in Hc. unfold column at 1.
    rewrite Hget, concat_get_column, Hc. simpl.
    rewrite Hcol; [done|]. by apply Hhas in Hc as [? _].
  - exists (concat ex nr), nr,
      (seq 0 (nrows existing + count_true (new_mask existing df))).
    split; [done|]. split; [done|].
    split; [cbn [concat nrows]; by rewrite Hexrows, Hnrows|].
    assert (Hsame : forall c,
      has_column c (concat ex nr) = has_column c ex || has_column c nr).
    { intros c. rewrite has_column_get, concat_get_column.
      by destruct (has_column c ex || has_column c nr). }
    split; [intros c; rewrite Hsame; apply Hhas|].
    split; [done|]. split; [|by rewrite column_absent].
    intros c Hc. rewrite Hsame in Hc. unfold column at 1.
    rewrite concat_get_column, Hc. simpl.
    rewrite <- (Hcol c) by (by apply Hhas in Hc as [? _]).
    rewrite <- (Hlen c). symmetry. apply reorder_seq.
Qed.

End MergeRows.

(** ** More on [update_data_file] *)

Section UpdateMore.
Context `{RT : Runtime}.
Variable self : Cron.Scraper.

Lemma save_outcome_value (path : string) (fs : gmap string file)
    (faults : list bool) (ticks : nat) (c n : DataFrame) :
  (save_outcome path fs faults ticks c n).1.1 = 0 \/
  (save_outcome path fs faults ticks c n).1.1 = Z.of_nat (nrows n).
Proof.
  unfold save_outcome. destruct (fs !! path);
    destruct (hd false faults); try (by left);
    try destruct (hd false (tl faults)); auto.
Qed.

Lemma nrows_new_rows (existing df : DataFrame) :
  (nrows (new_rows existing df) <= nrows df)%nat.
Proof.
  unfold new_rows, take_mask. cbn [nrows].
  etrans; [apply count_true_length|].
  unfold isin, Cron.unique_keys, apply_rows.
  by rewrite !length_fmap, length_seq.
Qed.

Lemma merge_plan_bound (existing df : DataFrame) :
  match merge_plan existing df with
  | inl n => n = 0
  | inr (c, nr) => (nrows nr <= nrows df)%nat
  end.
Proof.
  unfold merge_plan, merge_frames.
  destruct (empty (new_rows existing df)); [done|].
  destruct (drop_column (new_rows existing df) "unique_key") as [nr|] eqn:Hnr;
    [|done].
  assert (Hn : (nrows nr <= nrows df)%nat).
  { unfold drop_column in Hnr. destruct (has_column _ _); [|done].
    inversion Hnr; subst. cbn [nrows]. apply nrows_new_rows. }
  destruct (drop_column (keyed (parsed existing)) "unique_key"); [|done].
  destruct (has_column "date" _); [|done].
  by destruct (sort_values_desc _ _).
Qed.

(** X1. [update_data_file] lets no exception out: whatever the file
    holds and whatever faults the rename and the write meet, a call on a
    frame of the store returns a count, and the count lies between zero
    and the number of incoming records. *)
Theorem update_data_file_total (w : world) (l : positive) (df : DataFrame) :
  w_heap w !! l = Some df ->
  exists r w',
    Cron.update_data_file self (Some l) w = (Ok r, w') /\
    0 <= r <= Z.of_nat (nrows df).
Proof.
  intros Hl. destruct (empty df) eqn:He.
  - destruct (update_empty_run self w (Some l)) as (w' & Hrun & _); [eauto|].
    exists 0, w'. split; [done|]. lia.
  - destruct (w_fs w !! Cron.data_file self) as [f|] eqn:Hf.
    + destruct (read_csv (f_data f)) as [existing|] eqn:Hr.
      * destruct (update_readable_run self w l df existing f Hl He Hf Hr)
          as (r & w' & Hrun & _ & Hm).
        exists r, w'. split; [done|].
        pose proof (merge_plan_bound existing df) as Hb.
        destruct (merge_plan existing df) as [n|[c nr]].
        -- destruct Hm as (-> & _). lia.
        -- destruct Hm as (-> & _).
           destruct (save_outcome_value (Cron.data_file self) (w_fs w)
                       (w_faults w) (w_ticks w) c nr) as [->| ->]; lia.
      * destruct (update_unreadable_run self w l df f Hl He Hf Hr)
          as (w' & Hrun & _).
        eexists _, w'. split; [exact Hrun|].
        destruct (save_outcome_value (Cron.data_file self) (w_fs w)
                    (w_faults w) (w_ticks w) df df) as [->| ->]; lia.
    + destruct (update_absent_run self w l df Hl He Hf) as (w' & Hrun & _).
      eexists _, w'. split; [exact Hrun|].
      destruct (save_outcome_value (Cron.data_file self) (w_fs w)
                  (w_faults w) (w_ticks w) df df) as [->| ->]; lia.
Qed.


(** X2. A merge that finds new records.  The data file is readable, the
    incoming dates are times, some incoming key is not stored, and the
    rename and the write meet no fault: the call returns the number of
    incoming rows whose key the stored data lacks (rows that share a new
    key all count).  The frame the data file then holds has the columns
    of the stored data and of the incoming frame, the helper column of
    keys apart; its rows are the stored rows, their dates parsed,
    and those incoming rows, cell for cell, in one order of the rows
    that puts the dates latest first and the absent ones last.  The
    file that stood at the path is kept under the backup name. *)
Theorem merge_appends_new_records (w : world) (l : positive)
    (df existing : DataFrame) (f : file) :
  w_heap w !! l = Some df ->
  empty df = false ->
  w_fs w !! Cron.data_file self = Some f ->
  read_csv (f_data f) = Some existing ->
  forallb is_time (column df "date") = true ->
  filter (fun k => k ∉ existing_keys existing) (Cron.unique_keys df) <> [] ->
  hd false (w_faults w) = false ->
  hd false (tl (w_faults w)) = false ->
  exists w' combined perm,
    Cron.update_data_file self (Some l) w
      = (Ok (Z.of_nat (length (filter (fun k => k ∉ existing_keys existing)
                                      (Cron.unique_keys df)))), w') /\
    w_fs w' !! Cron.data_file self
      = Some (mkFile (to_csv combined) (clock (S (w_ticks w)))) /\
    nrows combined
      = (nrows existing
         + length (filter (fun k => k ∉ existing_keys existing)
                          (Cron.unique_keys df)))%nat /\
    has_column "unique_key" combined = false /\
    (forall c, has_column c combined = true <->
               c <> "unique_key" /\
               (has_column c existing = true \/ has_column c df = true)) /\
    perm ≡ₚ seq 0 (nrows combined) /\
    (forall c, has_column c combined = true ->
               column combined c
               = reorder perm
                   (merged_column existing df (new_mask existing df) c)) /\
    date_sorted_desc (column combined "date") = true /\
    w_fs w' !! backup_name (Cron.data_file self) (clock (w_ticks w)) = Some f.
Proof.
  intros Hl He Hf Hr Ht Hnew H1 H2.
  assert (Hne : empty (new_rows existing df) = false).
  { unfold empty. apply orb_false_iff. split.
    - apply Nat.eqb_neq. unfold new_rows, take_mask. cbn [nrows].
      rewrite count_true_isin. by destruct (filter _ _).
    - apply bool_decide_eq_false_2. intros Hc.
      assert (Hk : has_column "unique_key" (new_rows existing df) = true).
      { unfold has_column, new_rows. rewrite columns_take_mask.
        apply has_column_set. }
      unfold has_column, columns in Hk. rewrite Hc in Hk. done. }
  destruct (merge_frames_rows existing df Ht Hne)
    as (combined & nr & perm & Hm & Hn & Hc & Hcols & Hperm & Hcells & Hs).
  assert (Hcount : count_true (new_mask existing df)
                   = length (filter (fun k => k ∉ existing_keys existing)
                                    (Cron.unique_keys df)))
    by apply count_true_isin.
  destruct (update_readable_run self w l df existing f Hl He Hf Hr)
    as (r & w' & Hrun & _ & Hp).
  unfold merge_plan in Hp. rewrite Hm in Hp.
  unfold save_outcome in Hp. rewrite Hf, H1, H2 in Hp. cbn [fst snd] in Hp.
  destruct Hp as (-> & Hfs & _).
  exists w', combined, perm. rewrite <- Hcount, <- Hn. split; [exact Hrun|].
  rewrite Hfs. split; [apply lookup_insert_eq|].
  split; [by rewrite Hn|].
  split.
  { destruct (has_column "unique_key" combined) eqn:E; [|done].
    apply Hcols in E as [E _]. done. }
  split; [exact Hcols|]. split; [by rewrite Hc|]. split; [exact Hcells|].
  split; [exact Hs|].
  rewrite lookup_insert_ne by (intros E; by apply (backup_name_ne _ _ (eq_sym E))).
  apply lookup_insert_eq.
Qed.

(** X3. A failure after the file was read is handled like an unreadable
    file.  When the sort of the combined frame raises (its date column
    mixes times with other cells), the handler binds the whole data to
    the caller's frame, which by then carries the helper column: with no
    fault in rename and write, every incoming row is counted as new
    and the data file is replaced by the incoming frame with its column
    of keys; the stored rows survive only in the backup. *)
Theorem merge_failure_overwrites_with_incoming (w : world) (l : positive)
    (df existing : DataFrame) (f : file) (e : exn) :
  w_heap w !! l = Some df ->
  empty df = false ->
  w_fs w !! Cron.data_file self = Some f ->
  read_csv (f_data f) = Some existing ->
  merge_frames existing df = Raised e ->
  hd false (w_faults w) = false ->
  hd false (tl (w_faults w)) = false ->
  exists w',
    Cron.update_data_file self (Some l) w = (Ok (Z.of_nat (nrows df)), w') /\
    w_fs w' !! Cron.data_file self
      = Some (mkFile (to_csv (keyed df)) (clock (S (w_ticks w)))) /\
    has_column "unique_key" (keyed df) = true /\
    nrows (keyed df) = nrows df /\
    w_fs w' !! backup_name (Cron.data_file self) (clock (w_ticks w)) = Some f.
Proof.
  intros Hl He Hf Hr Hm H1 H2.
  destruct (update_readable_run self w l df existing f Hl He Hf Hr)
    as (r & w' & Hrun & _ & Hp).
  unfold merge_plan in Hp. rewrite Hm in Hp.
  unfold save_outcome in Hp. rewrite Hf, H1, H2 in Hp. cbn [fst snd] in Hp.
  destruct Hp as (-> & Hfs & _).
  exists w'. split; [exact Hrun|].
  rewrite Hfs. split; [apply lookup_insert_eq|].
  split; [apply has_column_set|]. split; [done|].
  rewrite lookup_insert_ne by (intros E; by apply (backup_name_ne _ _ (eq_sym E))).
  apply lookup_insert_eq.
Qed.

(** X4. A write that fails after the backup rename is not rolled back.
    On every path that reaches the save (the file could not be read, or
    the merge has something to write), when the rename succeeds and the
    write raises, the call returns zero and the previous file is under
    the backup name only: at the path of the data file stands nothing,
    or the empty or partial file the failed write left, and no other
    file has changed.  The handler does not rename the backup back. *)
Theorem write_failure_keeps_backup_only (w : world) (l : positive)
    (df written : DataFrame) (f : file) :
  w_heap w !! l = Some df ->
  empty df = false ->
  w_fs w !! Cron.data_file self = Some f ->
  (read_csv (f_data f) = None /\ written = df \/
   exists existing nr,
     read_csv (f_data f) = Some existing /\
     merge_plan existing df = inr (written, nr)) ->
  hd false (w_faults w) = false ->
  hd false (tl (w_faults w)) = true ->
  exists w',
    Cron.update_data_file self (Some l) w = (Ok 0, w') /\
    w_fs w' !! Cron.data_file self
      = (fun c => mkFile c (clock (S (w_ticks w))))
          <$> failed_write (to_csv written) /\
    w_fs w' !! backup_name (Cron.data_file self) (clock (w_ticks w)) = Some f /\
    (forall p, p <> Cron.data_file self ->
               p <> backup_name (Cron.data_file self) (clock (w_ticks w)) ->
               w_fs w' !! p = w_fs w !! p) /\
    w_trace w' = (w_trace w ++
                  [Renamed (Cron.data_file self)
                     (backup_name (Cron.data_file self) (clock (w_ticks w)))])%list.
Proof.
  intros Hl He Hf Hcase H1 H2.
  assert (Hout : forall c n,
    save_outcome (Cron.data_file self) (w_fs w) (w_faults w) (w_ticks w) c n
    = (0, after_failed_write (Cron.data_file self) (to_csv c)
            (clock (S (w_ticks w)))
            (<[backup_name (Cron.data_file self) (clock (w_ticks w)) := f]>
               (delete (Cron.data_file self) (w_fs w))),
       [Renamed (Cron.data_file self)
          (backup_name (Cron.data_file self) (clock (w_ticks w)))])).
  { intros c n. unfold save_outcome. by rewrite Hf, H1, H2. }
  assert (Hfinal : forall w' : world,
    w_fs w' = after_failed_write (Cron.data_file self) (to_csv written)
                (clock (S (w_ticks w)))
                (<[backup_name (Cron.data_file self) (clock (w_ticks w)) := f]>
                   (delete (Cron.data_file self) (w_fs w))) ->
    w_fs w' !! Cron.data_file self
      = (fun c => mkFile c (clock (S (w_ticks w))))
          <$> failed_write (to_csv written) /\
    w_fs w' !! backup_name (Cron.data_file self) (clock (w_ticks w)) = Some f /\
    (forall p, p <> Cron.data_file self ->
               p <> backup_name (Cron.data_file self) (clock (w_ticks w)) ->
               w_fs w' !! p = w_fs w !! p)).
  { intros w' ->. unfold after_failed_write.
    destruct (failed_write (to_csv written)) as [rest|]; cbn [fmap option_fmap option_map].
    - split; [apply lookup_insert_eq|]. split.
      + rewrite lookup_insert_ne
          by (intros E; by apply (backup_name_ne _ _ (eq_sym E))).
        apply lookup_insert_eq.
      + intros p Hp Hb. rewrite !lookup_insert_ne by done.
        by rewrite lookup_delete_ne.
    - split; [|split].
      + rewrite lookup_insert_ne by apply backup_name_ne. apply lookup_delete_eq.
      + apply lookup_insert_eq.
      + intros p Hp Hb. rewrite lookup_insert_ne by done.
        by rewrite lookup_delete_ne. }
  destruct Hcase as [[Hr ->]|(existing & nr & Hr & Hp)].
  - destruct (update_unreadable_run self w l df f Hl He Hf Hr)
      as (w' & Hrun & Hfs & Htr & _).
    rewrite Hout in *. cbn [fst snd] in *.
    exists w'. split; [exact Hrun|]. destruct (Hfinal w' Hfs) as (? & ? & ?). done.
  - destruct (update_readable_run self w l df existing f Hl He Hf Hr)
      as (r & w' & Hrun & _ & Hm).
    rewrite Hp, Hout in Hm. cbn [fst snd] in Hm. destruct Hm as (-> & Hfs & Htr).
    exists w'. split; [exact Hrun|]. destruct (Hfinal w' Hfs) as (? & ? & ?). done.
Qed.

(** X5. The first run.  With records to store and no data file, and a
    write that meets no fault, the call creates the file with exactly
    the incoming frame, makes no backup, returns the number of incoming
    records, leaves every other file alone and does not touch the
    caller's frame (no helper column is added on this path). *)
Theorem first_creation_writes_incoming (w : world) (l : positive) (df : DataFrame) :
  w_heap w !! l = Some df ->
  empty df = false ->
  w_fs w !! Cron.data_file self = None ->
  hd false (w_faults w) = false ->
  exists w',
    Cron.update_data_file self (Some l) w = (Ok (Z.of_nat (nrows df)), w') /\
    w_fs w' = <[Cron.data_file self := mkFile (to_csv df) (clock (w_ticks w))]>
                (w_fs w) /\
    w_trace w' = (w_trace w ++ [Wrote (Cron.data_file self)])%list /\
    w_heap w' = w_heap w.
Proof.
  intros Hl He Hf H1.
  destruct (update_absent_run self w l df Hl He Hf) as (w' & Hrun & Hfs & Htr & Hh).
  unfold save_outcome in *. rewrite Hf, H1 in *. cbn [fst snd] in *.
  exists w'. done.
Qed.

End UpdateMore.
(** ** The fetch *)

Section FetchMore.
Context `{RT : Runtime}.
Variable self : Cron.Scraper.

Lemma fetch_window_run (w : world) (from_date to_date : option Z) :
  exists v w',
    Cron.fetch_window self from_date to_date w = (Ok v, w') /\
    w_fs w' = w_fs w /\ w_trace w' = w_trace w /\ w_heap w' = w_heap w /\
    w_faults w' = w_faults w.
Proof.
  unfold Cron.fetch_window.
  destruct to_date as [t2|]; destruct from_date as [t1|]; mstep.
  - eexists _, _. split; [reflexivity|]. done.
  - destruct (get_last_update_time_run self w) as (w1 & -> & ? & ? & ? & ? & _).
    mstep. eexists _, _. split; [reflexivity|]. done.
  - eexists _, _. split; [reflexivity|]. done.
  - match goal with |- context [Cron.get_last_update_time self ?w0] =>
      destruct (get_last_update_time_run self w0) as (w1 & -> & ? & ? & ? & ? & _)
    end.
    mstep. eexists _, _. split; [reflexivity|]. done.
Qed.

Ltac leaf := eexists; split; [reflexivity|]; mstep; done.

(** The whole of [fetch_insider_data]: the window, one request, and the
    answer decoded; nothing but the clock and the log changes. *)
Lemma cron_fetch_run (w : world) (from_date to_date : option Z) :
  exists fu tu w1 w',
    Cron.fetch_window self from_date to_date w = (Ok (fu, tu), w1) /\
    Cron.fetch_insider_data self from_date to_date w
      = (Ok (match session_get (api_url (Cron.base_url self)) (api_params fu tu) with
             | Ok resp =>
                 (fun df => (df, strftime "%d-%m-%Y" fu, strftime "%d-%m-%Y" tu))
                   <$> decode_answer resp
             | Raised _ => None
             end), w') /\
    w_fs w' = w_fs w /\ w_trace w' = w_trace w /\ w_heap w' = w_heap w /\
    w_faults w' = w_faults w.
Proof.
  destruct (fetch_window_run w from_date to_date)
    as ([fu tu] & w1 & Hwin & Hfs & Htr & Hh & Hfl).
  exists fu, tu, w1. unfold Cron.fetch_insider_data. mstep. rewrite Hwin. mstep.
  unfold api_url, api_params, decode_answer, decoded_body.
  rewrite <- Hfs, <- Htr, <- Hh, <- Hfl.
  destruct (session_get _ _) as [resp|e]; mstep; [|leaf].
  destruct (status_code resp =? 200); mstep; [|leaf].
  destruct (contains "br" _); mstep.
  - destruct brotli_installed; mstep; [|leaf].
    destruct (brotli_decompress (body resp)) as [d|]; mstep; [|leaf].
    cbn [option_bind].
    destruct (utf8_decode d) as [s|]; mstep; [|leaf].
    destruct (contains "application/json" _); mstep; [|leaf].
    destruct (json_loads s) as [[| | | | |members]|]; mstep; try leaf.
    destruct (dict_get members "data") as [rows|]; mstep; [|leaf].
    destruct (truthy rows); mstep; [|leaf].
    destruct (frame_of_json rows); mstep; leaf.
  - destruct (contains "application/json" _); mstep; [|leaf].
    destruct (json_loads (text resp)) as [[| | | | |members]|]; mstep; try leaf.
    destruct (dict_get members "data") as [rows|]; mstep; [|leaf].
    destruct (truthy rows); mstep; [|leaf].
    destruct (frame_of_json rows); mstep; leaf.
Qed.


(** X6. The fetch of cron_script.py lets no exception out (a request
    that raises, a Brotli or JSON failure, a frame that cannot be built
    all end in a returned None) and has no effect on the files or on the
    frames of the caller: it renames nothing and writes nothing. *)
Theorem cron_fetch_total_and_pure (w : world) (from_date to_date : option Z) :
  exists r w',
    Cron.fetch_insider_data self from_date to_date w = (Ok r, w') /\
    w_fs w' = w_fs w /\ w_trace w' = w_trace w /\ w_heap w' = w_heap w.
Proof.
  destruct (cron_fetch_run w from_date to_date)
    as (fu & tu & w1 & w' & _ & Hrun & Hfs & Htr & Hh & _).
  eexists _, w'. split; [exact Hrun|]. done.
Qed.

(** X7. What the fetch of cron_script.py returns.  It sends one request
    for the window (from_date and to_date as day-month-year texts) and
    returns a frame with the two texts exactly when the answer has
    status 200, decodes, declares JSON and is an object with a data
    member; it returns None when the request raises and in every other
    case (wrong status, Brotli without the library, other content type,
    malformed JSON, no data member, rows that make no frame). *)
Theorem cron_fetch_decodes_answer (w : world) (from_date to_date : option Z) :
  exists fu tu w1 w',
    Cron.fetch_window self from_date to_date w = (Ok (fu, tu), w1) /\
    Cron.fetch_insider_data self from_date to_date w
      = (Ok (match session_get (api_url (Cron.base_url self)) (api_params fu tu) with
             | Ok resp =>
                 (fun df => (df, strftime "%d-%m-%Y" fu, strftime "%d-%m-%Y" tu))
                   <$> decode_answer resp
             | Raised _ => None
             end), w').
Proof.
  destruct (cron_fetch_run w from_date to_date)
    as (fu & tu & w1 & w' & Hwin & Hrun & _).
  by exists fu, tu, w1, w'.
Qed.

End FetchMore.

Section MainFetch.
Context `{RT : Runtime}.
Variable self : Main.Scraper.

Ltac leaf := eexists _, _; split; [reflexivity|]; mstep; auto.

(** X8. The fetch of main.py on an answer that is not JSON.  With status
    200, a body that decodes and a content type without
    application/json, it returns None and changes no file but
    nse_response_debug.html: a write that succeeds leaves the body text
    there (replacing what was there); when the write raises, the
    exception is caught, and the file is as before or holds the empty
    or partial text the failed write left. *)
Theorem main_fetch_saves_non_json (w : world) (days_back : Z)
    (resp : Response) (s : string) :
  (forall url params, session_get url params = Ok resp) ->
  status_code resp = 200 ->
  decoded_body resp = Some s ->
  contains "application/json"
    (headers_get (headers resp) "content-type" "Unknown") = false ->
  exists w',
    Main.fetch_insider_data self days_back w = (Ok None, w') /\
    w_heap w' = w_heap w /\
    (forall p, p <> "nse_response_debug.html" -> w_fs w' !! p = w_fs w !! p) /\
    (if hd false (w_faults w)
     then w_trace w' = w_trace w /\
          w_fs w' !! "nse_response_debug.html"
          = match failed_write (encode_text s) with
            | Some rest => Some (mkFile rest (clock (S (w_ticks w))))
            | None => w_fs w !! "nse_response_debug.html"
            end
     else w_trace w' = (w_trace w ++ [Wrote "nse_response_debug.html"])%list /\
          w_fs w' !! "nse_response_debug.html"
          = Some (mkFile (encode_text s) (clock (S (w_ticks w))))).
Proof.
  intros Hget Hst Hbody Hct.
  unfold Main.fetch_insider_data, Main.print. mstep.
  rewrite Hget, Hst. mstep. cbn [Z.eqb Pos.eqb negb].
  unfold decoded_body in Hbody.
  assert (Hwrite : forall w0 : world,
    w_fs w0 = w_fs w -> w_trace w0 = w_trace w -> w_heap w0 = w_heap w ->
    w_faults w0 = w_faults w -> w_ticks w0 = S (w_ticks w) ->
    exists o w1, Main.write_text "nse_response_debug.html" s w0 = (o, w1) /\
      w_heap w1 = w_heap w /\
      (forall p, p <> "nse_response_debug.html" -> w_fs w1 !! p = w_fs w !! p) /\
      if hd false (w_faults w)
      then (exists e, o = Raised e) /\ w_trace w1 = w_trace w /\
           w_fs w1 !! "nse_response_debug.html"
           = match failed_write (encode_text s) with
             | Some rest => Some (mkFile rest (clock (S (w_ticks w))))
             | None => w_fs w !! "nse_response_debug.html"
             end
      else o = Ok tt /\
           w_trace w1 = (w_trace w ++ [Wrote "nse_response_debug.html"])%list /\
           w_fs w1 !! "nse_response_debug.html"
           = Some (mkFile (encode_text s) (clock (S (w_ticks w))))).
  { intros w0 Hfs Htr Hh Hfl Htk.
    unfold Main.write_text, next_fault, after_failed_write.
    rewrite Hfl. destruct (w_faults w) as [|[] rest]; mstep.
    - eexists _, _. split; [reflexivity|]. mstep. rewrite Hfs, Htr, Hh, Htk.
      split; [done|]. split; [intros p Hp; by rewrite lookup_insert_ne|].
      split; [done|]. split; [done|apply lookup_insert_eq].
    - eexists _, _. split; [reflexivity|]. mstep. rewrite Hfs, Htr, Hh, Htk.
      split; [done|].
      destruct (failed_write (encode_text s)) as [left_|].
      + split; [intros p Hp; by rewrite lookup_insert_ne|].
        split; [eauto|]. split; [done|apply lookup_insert_eq].
      + split; [done|]. split; [eauto|]. done.
    - eexists _, _. split; [reflexivity|]. mstep. rewrite Hfs, Htr, Hh, Htk.
      split; [done|]. split; [intros p Hp; by rewrite lookup_insert_ne|].
      split; [done|]. split; [done|apply lookup_insert_eq]. }
  destruct (contains "br" _); mstep.
  - destruct brotli_installed; [|done]. mstep.
    destruct (brotli_decompress (body resp)) as [d|]; [|done]. simpl in Hbody.
    rewrite Hbody. mstep. rewrite Hct. mstep.
    match goal with |- context [Main.write_text _ _ ?w0] =>
      destruct (Hwrite w0) as (o & w1 & -> & Hh & Hoth & Hcase); try done
    end.
    destruct (hd false (w_faults w)).
    + destruct Hcase as ([e ->] & ? & ?). mstep.
      destruct e; mstep; eexists; (split; [reflexivity|]); mstep; done.
    + destruct Hcase as (-> & ? & ?). mstep.
      eexists; (split; [reflexivity|]); mstep; done.
  - inversion Hbody; subst. rewrite Hct. mstep.
    match goal with |- context [Main.write_text _ _ ?w0] =>
      destruct (Hwrite w0) as (o & w1 & -> & Hh & Hoth & Hcase); try done
    end.
    destruct (hd false (w_faults w)).
    + destruct Hcase as ([e ->] & ? & ?). mstep.
      destruct e; mstep; eexists; (split; [reflexivity|]); mstep; done.
    + destruct Hcase as (-> & ? & ?). mstep.
      eexists; (split; [reflexivity|]); mstep; done.
Qed.

End MainFetch.

(** ** The cookies *)

Section CookieFacts.
Context `{RT : Runtime}.
Variable self : Cron.Scraper.

Lemma get_cookies_run (w : world) :
  exists w',
    Cycle.get_cookies self w
      = (Ok (match session_get (Cron.base_url self) [] with
             | Ok _ =>
                 match session_get
                         (Cron.base_url self +:+
                          "/companies-listing/corporate-filings-insider-trading") []
                 with
                 | Ok r2 => status_code r2 =? 200
                 | Raised _ => false
                 end
             | Raised _ => false
             end), w') /\
    w_fs w' = w_fs w /\ w_trace w' = w_trace w /\ w_heap w' = w_heap w /\
    w_faults w' = w_faults w /\ w_ticks w' = w_ticks w.
Proof.
  unfold Cycle.get_cookies, Cycle.time_sleep. mstep.
  destruct (session_get (Cron.base_url self) []) as [r1|e1]; mstep.
  - destruct (session_get _ []) as [r2|e2]; mstep;
      eexists; (split; [reflexivity|]); mstep; done.
  - eexists; (split; [reflexivity|]); mstep; done.
Qed.

(** X9. [get_cookies] never raises and touches neither files nor frames;
    it answers True exactly when both requests return and the second
    page, the insider-trading listing, has status 200: the status of the
    home page is logged and otherwise ignored. *)
Theorem get_cookies_result (w : world) :
  exists b w',
    Cycle.get_cookies self w = (Ok b, w') /\
    w_fs w' = w_fs w /\ w_trace w' = w_trace w /\ w_heap w' = w_heap w /\
    (b = true <->
     exists r1 r2,
       session_get (Cron.base_url self) [] = Ok r1 /\
       session_get (Cron.base_url self +:+
                    "/companies-listing/corporate-filings-insider-trading") []
         = Ok r2 /\
       status_code r2 = 200).
Proof.
  destruct (get_cookies_run w) as (w' & Hrun & Hfs & Htr & Hh & _).
  eexists _, w'. split; [exact Hrun|]. split; [done|]. split; [done|].
  split; [done|].
  destruct (session_get (Cron.base_url self) []) as [r1|e1].
  - destruct (session_get _ []) as [r2|e2].
    + split.
      * intros H%Z.eqb_eq. eauto.
      * intros (? & ? & _ & [= <-] & H). by apply Z.eqb_eq.
    + split; [done|]. by intros (? & ? & _ & ? & _).
  - split; [done|]. by intros (? & ? & ? & _).
Qed.

End CookieFacts.

(** ** Cleaning *)

Section CleanFacts.
Context `{RT : Runtime}.
Variable parse_datetime_fmt : string -> string -> option Z.
Variable parse_numeric : string -> option Z.

Local Abbreviation clean_frame := (Cycle.clean_frame parse_datetime_fmt parse_numeric).
Local Abbreviation clean_data := (Cycle.clean_data parse_datetime_fmt parse_numeric).

Lemma get_column_set (df : DataFrame) (k c : string) (vs : list value) :
  get_column (set_column df k vs) c
  = if String.eqb k c then Some vs else get_column df c.
Proof.
  destruct (String.eqb k c) eqn:E.
  - apply String.eqb_eq in E. subst. apply get_set_column.
  - apply String.eqb_neq in E. unfold get_column, set_column. cbn [cols].
    by apply assoc_get_set_ne.
Qed.

Lemma convert_step_column (f : value -> value) (df : DataFrame) (col c : string) :
  get_column (if has_column col df
              then set_column df col (f <$> column df col)
              else df) c
  = if String.eqb col c then (fun vs : list value => f <$> vs) <$> get_column df c else get_column df c.
Proof.
  destruct (has_column col df) eqn:Hc.
  - rewrite get_column_set. destruct (String.eqb col c) eqn:E; [|done].
    apply String.eqb_eq in E. subst c. unfold column.
    rewrite has_column_get in Hc. apply bool_decide_eq_true_1 in Hc as [vs ->].
    done.
  - destruct (String.eqb col c) eqn:E; [|done].
    apply String.eqb_eq in E. subst c.
    rewrite has_column_get in Hc. apply bool_decide_eq_false_1 in Hc.
    destruct (get_column df col); [|done]. destruct Hc; eauto.
Qed.

Lemma convert_step_shape (f : value -> value) (df : DataFrame) (col : string) :
  let df' := if has_column col df
             then set_column df col (f <$> column df col)
             else df in
  nrows df' = nrows df /\ columns df' = columns df.
Proof.
  simpl. destruct (has_column col df) eqn:Hc; [|done].
  split; [done|]. by rewrite columns_set_column, Hc.
Qed.

Lemma convert_columns_shape (f : value -> value) (names : list string)
    (df : DataFrame) :
  nrows (Cycle.convert_columns f names df) = nrows df /\
  columns (Cycle.convert_columns f names df) = columns df.
Proof.
  unfold Cycle.convert_columns. revert df.
  induction names as [|col names IH]; intros df; simpl; [done|].
  destruct (IH (if has_column col df
                then set_column df col (f <$> column df col) else df))
    as [-> ->].
  apply convert_step_shape.
Qed.

Lemma convert_columns_column (f : value -> value) (names : list string)
    (df : DataFrame) (c : string) :
  NoDup names ->
  get_column (Cycle.convert_columns f names df) c
  = if bool_decide (c ∈ names) then (fun vs : list value => f <$> vs) <$> get_column df c
    else get_column df c.
Proof.
  unfold Cycle.convert_columns. intros Hnd. revert df.
  induction Hnd as [|col names Hcol Hnd IH]; intros df; simpl; [done|].
  rewrite IH, convert_step_column.
  destruct (String.eqb col c) eqn:E.
  - apply String.eqb_eq in E. subst c.
    rewrite bool_decide_eq_false_2 by done.
    rewrite bool_decide_eq_true_2 by left. done.
  - apply String.eqb_neq in E.
    rewrite (bool_decide_ext (c ∈ col :: names) (c ∈ names)); [done|].
    rewrite elem_of_cons. split; [intros [?|?]; [congruence|done]|by right].
Qed.

Ltac solve_NoDup :=
  repeat (apply NoDup_cons_2;
          [ let H := fresh in
            intros H;
            repeat (apply elem_of_cons in H as [H|H]; [discriminate H|]);
            by apply elem_of_nil in H |]);
  apply NoDup_nil_2.

Lemma date_columns_NoDup : NoDup Cycle.date_columns.
Proof. unfold Cycle.date_columns. solve_NoDup. Qed.

Lemma numeric_columns_NoDup : NoDup Cycle.numeric_columns.
Proof. unfold Cycle.numeric_columns. solve_NoDup. Qed.

Lemma get_column_cols (df : DataFrame) (c : string) :
  assoc_get (cols df) c = get_column df c.
Proof. reflexivity. Qed.

(** The frame [clean_data] builds, column by column. *)
Lemma clean_frame_column (df : DataFrame) (c : string) :
  get_column (clean_frame df) c
  = (fun vs : list value => clean_cell parse_datetime_fmt parse_numeric c <$> vs)
      <$> get_column df c.
Proof.
  unfold Cycle.clean_frame. cbv zeta.
  unfold get_column at 1. cbn [cols].
  rewrite (assoc_get_fmap (fun _ vs => Cycle.replace_sentinel <$> vs)).
  rewrite get_column_cols.
  rewrite convert_columns_column by apply numeric_columns_NoDup.
  rewrite convert_columns_column by apply date_columns_NoDup.
  unfold clean_cell.
  destruct (get_column df c) as [vs|]; [|by repeat case_bool_decide].
  repeat case_bool_decide; cbn [fmap option_fmap option_map];
    rewrite <- ?list_fmap_compose; done.
Qed.

Lemma map_cells_shape (df : DataFrame) (g : list value -> list value) :
  let df' := mkDF (nrows df)
               ((fun cv : string * list value => (cv.1, g cv.2)) <$> cols df) in
  nrows df' = nrows df /\ columns df' = columns df.
Proof.
  cbv zeta. split; [done|]. unfold columns. cbn [cols].
  rewrite <- list_fmap_compose. by apply list_fmap_ext.
Qed.

Lemma clean_frame_eq (df : DataFrame) :
  clean_frame df
  = let df2 := Cycle.convert_columns (Cycle.to_numeric parse_numeric)
                 Cycle.numeric_columns
                 (Cycle.convert_columns
                    (Cycle.to_datetime_fmt parse_datetime_fmt "%d-%b-%Y %H:%M")
                    Cycle.date_columns df) in
    mkDF (nrows df2)
         ((fun cv : string * list value => (cv.1, Cycle.replace_sentinel <$> cv.2))
            <$> cols df2).
Proof. reflexivity. Qed.
Lemma clean_frame_shape (df : DataFrame) :
  nrows (clean_frame df) = nrows df /\ columns (clean_frame df) = columns df.
Proof.
  rewrite clean_frame_eq. cbv zeta.
  destruct (map_cells_shape
              (Cycle.convert_columns (Cycle.to_numeric parse_numeric)
                 Cycle.numeric_columns
                 (Cycle.convert_columns
                    (Cycle.to_datetime_fmt parse_datetime_fmt "%d-%b-%Y %H:%M")
                    Cycle.date_columns df))
              (fun vs => Cycle.replace_sentinel <$> vs)) as [-> ->].
  destruct (convert_columns_shape (Cycle.to_numeric parse_numeric)
              Cycle.numeric_columns
              (Cycle.convert_columns
                 (Cycle.to_datetime_fmt parse_datetime_fmt "%d-%b-%Y %H:%M")
                 Cycle.date_columns df)) as [-> ->].
  apply convert_columns_shape.
Qed.

Lemma empty_shape (a b : DataFrame) :
  nrows a = nrows b -> columns a = columns b -> empty a = empty b.
Proof.
  intros Hn Hc. unfold empty. rewrite Hn. f_equal.
  unfold columns in Hc. apply bool_decide_ext. split; intros E.
  - rewrite E in Hc. symmetry in Hc. by apply fmap_nil_inv in Hc.
  - rewrite E in Hc. by apply fmap_nil_inv in Hc.
Qed.

Lemma clean_frame_empty (df : DataFrame) :
  empty (clean_frame df) = empty df.
Proof. apply empty_shape; apply clean_frame_shape. Qed.

Lemma replace_sentinel_clean (v : value) :
  is_sentinel (Cycle.replace_sentinel v) = false.
Proof.
  destruct v as [|s| |]; try done. cbn.
  destruct (String.eqb s "-" || String.eqb s "") eqn:E; [done|]. cbn. exact E.
Qed.

Lemma replace_sentinel_time (v : value) :
  is_time v = true -> is_time (Cycle.replace_sentinel v) = true.
Proof. by destruct v. Qed.

Lemma replace_sentinel_number (v : value) :
  is_number v = true -> is_number (Cycle.replace_sentinel v) = true.
Proof. by destruct v. Qed.

Lemma to_datetime_fmt_time (fmt : string) (v : value) :
  is_time (Cycle.to_datetime_fmt parse_datetime_fmt fmt v) = true.
Proof.
  destruct v as [|s|n|t]; cbn; try done.
  - by destruct (parse_datetime_fmt fmt s).
  - by destruct (parse_datetime_fmt fmt (str_num n)).
Qed.

Lemma to_numeric_number (v : value) :
  is_number (Cycle.to_numeric parse_numeric v) = true.
Proof. destruct v as [|s|n|t]; cbn; try done. by destruct (parse_numeric s). Qed.

Lemma date_numeric_disjoint (c : string) :
  c ∈ Cycle.date_columns -> c ∈ Cycle.numeric_columns -> False.
Proof.
  unfold Cycle.date_columns, Cycle.numeric_columns. intros H H0.
  repeat (apply elem_of_cons in H as [->|H];
          [repeat (apply elem_of_cons in H0 as [H0|H0]; [discriminate H0|]);
           by apply elem_of_nil in H0|]).
  by apply elem_of_nil in H.
Qed.

Lemma clean_cell_facts (c : string) (v : value) :
  let v' := clean_cell parse_datetime_fmt parse_numeric c v in
  is_sentinel v' = false /\
  (c ∈ Cycle.date_columns -> is_time v' = true) /\
  (c ∈ Cycle.numeric_columns -> is_number v' = true).
Proof.
  cbv zeta. unfold clean_cell. split; [apply replace_sentinel_clean|]. split.
  - intros Hc. rewrite (bool_decide_eq_true_2 _ Hc).
    apply replace_sentinel_time. case_bool_decide.
    + by destruct (date_numeric_disjoint c).
    + apply to_datetime_fmt_time.
  - intros Hc. rewrite (bool_decide_eq_true_2 (c ∈ Cycle.numeric_columns) Hc).
    apply replace_sentinel_number, to_numeric_number.
Qed.

Lemma clean_cell_idem (c : string) (v : value) :
  clean_cell parse_datetime_fmt parse_numeric c
    (clean_cell parse_datetime_fmt parse_numeric c v)
  = clean_cell parse_datetime_fmt parse_numeric c v.
Proof.
  unfold clean_cell. repeat case_bool_decide;
    try (by destruct (date_numeric_disjoint c));
    destruct v as [|s|n|t]; cbn; try done;
    repeat match goal with
           | |- context [from_option _ _ ?o] => destruct o; cbn; try done
           end.
  destruct (String.eqb s "-" || String.eqb s "") eqn:E; [done|].
  cbn. by rewrite E.
Qed.

(** X10. What [clean_data] leaves in a frame.  The cleaned frame has the
    rows and the column names of its argument; no cell of it is the dash
    or the empty text; a date column holds times and absent cells only,
    a numeric column numbers and absent cells only (text that does not
    parse is coerced to an absent cell, not kept and not raised on). *)
Theorem clean_frame_normalises (df : DataFrame) (c : string) (vs : list value) :
  get_column (clean_frame df) c = Some vs ->
  nrows (clean_frame df) = nrows df /\
  columns (clean_frame df) = columns df /\
  (exists raw, get_column df c = Some raw /\ length vs = length raw) /\
  forallb (fun v => negb (is_sentinel v)) vs = true /\
  (c ∈ Cycle.date_columns -> forallb is_time vs = true) /\
  (c ∈ Cycle.numeric_columns -> forallb is_number vs = true).
Proof.
  intros Hvs. destruct (clean_frame_shape df) as [Hn Hc].
  split; [done|]. split; [done|].
  rewrite clean_frame_column in Hvs.
  destruct (get_column df c) as [raw|]; [|done]. injection Hvs as <-.
  split; [exists raw; by rewrite length_fmap|].
  split; [|split; [intros Hd|intros Hd]]; apply forallb_forall;
    intros v' Hin; apply in_map_iff in Hin as (v & <- & _);
    destruct (clean_cell_facts c v) as (H1 & H2 & H3); auto.
  by rewrite H1.
Qed.

(** X11. Cleaning is idempotent on what a frame shows: a cleaned frame
    cleaned again has the same rows, the same column names and, under
    every name, the same cells. *)
Theorem clean_frame_idempotent (df : DataFrame) (c : string) :
  nrows (clean_frame (clean_frame df)) = nrows (clean_frame df) /\
  columns (clean_frame (clean_frame df)) = columns (clean_frame df) /\
  get_column (clean_frame (clean_frame df)) c = get_column (clean_frame df) c.
Proof.
  destruct (clean_frame_shape (clean_frame df)) as [Hn Hc].
  split; [done|]. split; [done|].
  rewrite !clean_frame_column. destruct (get_column df c) as [raw|]; [|done].
  cbn [fmap option_fmap option_map]. f_equal.
  rewrite <- list_fmap_compose. apply list_fmap_ext. intros i v _.
  apply clean_cell_idem.
Qed.
End CleanFacts.


(** ** Cleaning in the store, and the merge of a cleaned frame *)

Section CleanRuns.
Context `{RT : Runtime}.
Variable parse_datetime_fmt : string -> string -> option Z.
Variable parse_numeric : string -> option Z.
Variable self : Cron.Scraper.

Local Abbreviation clean_frame := (Cycle.clean_frame parse_datetime_fmt parse_numeric).
Local Abbreviation clean_data := (Cycle.clean_data parse_datetime_fmt parse_numeric).

Lemma clean_data_run (w : world) (l : positive) (df : DataFrame) :
  w_heap w !! l = Some df ->
  exists l' w',
    clean_data (Some l) w = (Ok (Some l'), w') /\
    w_fs w' = w_fs w /\ w_trace w' = w_trace w /\ w_faults w' = w_faults w /\
    w_ticks w' = w_ticks w /\
    (if empty df then l' = l /\ w' = w
     else (l' ∉ dom (w_heap w)) /\
          w_heap w' = <[l' := clean_frame df]> (w_heap w)).
Proof.
  intros Hl. unfold Cycle.clean_data. mstep. unfold deref at 1. rewrite Hl.
  destruct (empty df) eqn:He; mstep.
  - by exists l, w.
  - unfold Cycle.alloc. mstep. eexists _, _. split; [reflexivity|].
    cbn [w_fs w_heap w_ticks w_faults w_trace]. do 4 (split; [done|]).
    split; [apply is_fresh|done].
Qed.



(** X12. [clean_data] and the store.  Given a frame with records it
    returns a new frame (a location the store did not have) holding the
    cleaned copy and leaves the frame of its caller as it was; given an
    empty frame it returns that very frame.  It touches no file. *)
Theorem clean_data_copies (w : world) (l : positive) (df : DataFrame) :
  w_heap w !! l = Some df ->
  exists l' w',
    clean_data (Some l) w = (Ok (Some l'), w') /\
    (l' = l <-> empty df = true) /\
    w_heap w' !! l = Some df /\
    w_heap w' !! l' = Some (if empty df then df else clean_frame df) /\
    (forall k, k <> l' -> w_heap w' !! k = w_heap w !! k) /\
    w_fs w' = w_fs w /\ w_trace w' = w_trace w.
Proof.
  intros Hl. destruct (clean_data_run w l df Hl)
    as (l' & w' & Hrun & Hfs & Htr & _ & _ & Hh).
  exists l', w'. split; [exact Hrun|]. destruct (empty df) eqn:He.
  - destruct Hh as [-> ->]. done.
  - destruct Hh as [Hfresh Hheap].
    assert (Hne : l' <> l).
    { intros ->. apply Hfresh, elem_of_dom. eauto. }
    rewrite Hheap. split; [split; [done|discriminate]|].
    split; [by rewrite lookup_insert_ne|]. split; [apply lookup_insert_eq|].
    split; [|done]. intros k Hk. by rewrite lookup_insert_ne.
Qed.





End CleanRuns.

Lemma try_bind_run `{RT : Runtime} {A B} (m : M A) (k : A -> M B)
    (h : exn -> M B) (w w' : world) (a : A) :
  m w = (Ok a, w') ->
  try_except (m ≫= k) h w = try_except (k a) h w'.
Proof. intros H. unfold try_except, mbind, M_bind. by rewrite H. Qed.

Lemma bind_run `{RT : Runtime} {A B} (m : M A) (k : A -> M B)
    (w w' : world) (a : A) :
  m w = (Ok a, w') -> (m ≫= k) w = k a w'.
Proof. intros H. unfold mbind, M_bind. by rewrite H. Qed.

Lemma try_raise_run `{RT : Runtime} {A B} (m : M A) (k : A -> M B)
    (h : exn -> M B) (w w' : world) (e : exn) :
  m w = (Raised e, w') ->
  try_except (m ≫= k) h w = h e w'.
Proof. intros H. unfold try_except, mbind, M_bind. by rewrite H. Qed.

(** ** The update cycle *)

Section CycleFacts.
Context `{RT : Runtime}.
Variable parse_datetime_fmt : string -> string -> option Z.
Variable parse_numeric : string -> option Z.
Variable self : Cron.Scraper.

Local Abbreviation clean_frame := (Cycle.clean_frame parse_datetime_fmt parse_numeric).
Local Abbreviation clean_data := (Cycle.clean_data parse_datetime_fmt parse_numeric).
Local Abbreviation run_update_cycle :=
  (Cycle.run_update_cycle parse_datetime_fmt parse_numeric self).

(** The cycle up to the answer of the fetch. *)
Lemma cycle_prefix (w : world) :
  exists fu tu wf,
    w_fs wf = w_fs w /\ w_trace wf = w_trace w /\ w_heap wf = w_heap w /\
    w_faults wf = w_faults w /\
    run_update_cycle w
    = match api_answer (Cron.base_url self) fu tu with
      | None => (Ok false,
                 set_log (w_log wf ++ [mkLog ERROR "Failed to fetch data" []]) wf)
      | Some df =>
          try_except
            (df ← Cycle.alloc df;
             df_clean ← clean_data (Some df);
             new_records_count ← Cron.update_data_file self df_clean;
             ex ← path_exists (Cron.data_file self);
             (if (ex : bool) then
                current_df ← pd_read_csv (Cron.data_file self);
                Cycle.display_summary (Some current_df) new_records_count
              else mret tt);;
             log INFO "Update cycle completed successfully" [];;
             mret true)
            (fun e => log ERROR "Error in update cycle: {}" [Str (exn_name e)];;
                      mret false) wf
      end.
Proof.
  unfold Cycle.run_update_cycle, Cycle.time_sleep.
  erewrite try_bind_run by reflexivity.
  erewrite try_bind_run by reflexivity.
  match goal with
  | |- context [try_except (Cycle.get_cookies self ≫= _) _ ?w0] =>
      destruct (get_cookies_run self w0) as (w1 & Hck & Hfs1 & Htr1 & Hh1 & Hfl1 & _)
  end.
  erewrite try_bind_run by exact Hck. clear Hck.
  match goal with
  | |- context [try_except ((if ?b then _ else _) ≫= _) _ _] =>
      assert (exists w2,
                (if b then mret tt
                 else log WARNING
                        "Failed to get session cookies. Continuing anyway..." []) w1
                = (Ok tt, w2) /\
                w_fs w2 = w_fs w1 /\ w_trace w2 = w_trace w1 /\
                w_heap w2 = w_heap w1 /\ w_faults w2 = w_faults w1)
        as (w2 & Hif & Hfs2 & Htr2 & Hh2 & Hfl2)
        by (destruct b; eexists; (split; [reflexivity|done]))
  end.
  erewrite try_bind_run by exact Hif. clear Hif.
  erewrite try_bind_run by reflexivity.
  destruct (cron_fetch_run self w2 None None)
    as (fu & tu & w3 & wf & _ & Hrun & Hfs3 & Htr3 & Hh3 & Hfl3).
  erewrite try_bind_run by exact Hrun. clear Hrun.
  exists fu, tu, wf.
  split; [by rewrite Hfs3, Hfs2, Hfs1|]. split; [by rewrite Htr3, Htr2, Htr1|].
  split; [by rewrite Hh3, Hh2, Hh1|]. split; [by rewrite Hfl3, Hfl2, Hfl1|].
  unfold api_answer.
  destruct (session_get _ _) as [resp|e]; [|reflexivity].
  destruct (decode_answer resp) as [df|]; reflexivity.
Qed.

(** What a call of [update_data_file] on a frame of the store does to
    the other frames and to the record of renames and writes. *)
Lemma update_effect (w : world) (l : positive) (df : DataFrame) :
  w_heap w !! l = Some df ->
  exists r w',
    Cron.update_data_file self (Some l) w = (Ok r, w') /\
    (forall k, k <> l -> w_heap w' !! k = w_heap w !! k) /\
    (exists evs, w_trace w' = (w_trace w ++ evs)%list) /\
    (empty df = true -> w_fs w' = w_fs w).
Proof.
  intros Hl. destruct (empty df) eqn:He.
  - destruct (update_empty_run self w (Some l)) as (w' & Hrun & Hfs & Htr & Hh);
      [eauto|].
    exists 0, w'. split; [exact Hrun|]. split; [intros k _; by rewrite Hh|].
    split; [|done]. exists []. by rewrite app_nil_r.
  - destruct (w_fs w !! Cron.data_file self) as [f|] eqn:Hf.
    + destruct (read_csv (f_data f)) as [existing|] eqn:Hr.
      * destruct (update_readable_run self w l df existing f Hl He Hf Hr)
          as (r & w' & Hrun & Hh & Hm).
        exists r, w'. split; [exact Hrun|].
        split; [intros k Hk; rewrite Hh; by apply lookup_insert_ne|].
        split; [|done].
        destruct (merge_plan existing df) as [n|[c nr]].
        -- destruct Hm as (_ & _ & ->). exists []. by rewrite app_nil_r.
        -- destruct Hm as (_ & _ & ->). eauto.
      * destruct (update_unreadable_run self w l df f Hl He Hf Hr)
          as (w' & Hrun & _ & Htr & Hh).
        eexists _, w'. split; [exact Hrun|].
        split; [intros k _; by rewrite Hh|]. split; [eauto|done].
    + destruct (update_absent_run self w l df Hl He Hf)
        as (w' & Hrun & _ & Htr & Hh).
      eexists _, w'. split; [exact Hrun|].
      split; [intros k _; by rewrite Hh|]. split; [eauto|done].
Qed.

Lemma display_summary_run (w : world) (df : option DataFrame) (n : Z) :
  exists w',
    Cycle.display_summary df n w = (Ok tt, w') /\
    w_fs w' = w_fs w /\ w_trace w' = w_trace w /\ w_heap w' = w_heap w.
Proof. unfold Cycle.display_summary. mstep. eexists. split; [reflexivity|done]. Qed.

(** The end of the cycle, from the check of the data file on. *)
Lemma cycle_summary_run (w : world) (n : Z) :
  exists w',
    try_except
      (ex ← path_exists (Cron.data_file self);
       (if (ex : bool) then
          current_df ← pd_read_csv (Cron.data_file self);
          Cycle.display_summary (Some current_df) n
        else mret tt);;
       log INFO "Update cycle completed successfully" [];;
       mret true)
      (fun e => log ERROR "Error in update cycle: {}" [Str (exn_name e)];;
                mret false) w
    = (Ok (match w_fs w !! Cron.data_file self with
           | Some f => bool_decide (is_Some (read_csv (f_data f)))
           | None => true
           end), w') /\
    w_fs w' = w_fs w /\ w_trace w' = w_trace w /\ w_heap w' = w_heap w.
Proof.
  erewrite try_bind_run by reflexivity.
  destruct (w_fs w !! Cron.data_file self) as [f|] eqn:Hf.
  - rewrite bool_decide_eq_true_2 by eauto.
    destruct (read_csv (f_data f)) as [cur|] eqn:Hr.
    + destruct (display_summary_run w (Some cur) n) as (w1 & Hd & Hfs & Htr & Hh).
      erewrite try_bind_run.
      2: { erewrite bind_run; [exact Hd|]. unfold pd_read_csv. by rewrite Hf, Hr. }
      eexists. split; [reflexivity|]. mstep. done.
    + erewrite try_raise_run.
      2: { unfold mbind at 1, M_bind at 1, pd_read_csv. rewrite Hf, Hr. reflexivity. }
      eexists. split; [reflexivity|]. mstep. done.
  - rewrite bool_decide_eq_false_2 by (intros [? ?]; congruence).
    eexists. split; [reflexivity|]. mstep. done.
Qed.

(** X14. A cycle whose fetch fails.  When the API gives no usable
    answer (the request raises, or the answer does not decode to a
    frame), the cycle returns False without raising, and it has touched
    no file and no frame: nothing is renamed, written or cleaned. *)
Theorem cycle_fetch_failure (w : world) :
  (forall fu tu, api_answer (Cron.base_url self) fu tu = None) ->
  exists w',
    run_update_cycle w = (Ok false, w') /\
    w_fs w' = w_fs w /\ w_trace w' = w_trace w /\ w_heap w' = w_heap w.
Proof.
  intros Hnone.
  destruct (cycle_prefix w) as (fu & tu & wf & Hfs & Htr & Hh & _ & Hrun).
  rewrite Hnone in Hrun. eexists. split; [exact Hrun|]. done.
Qed.

(** X15. A cycle whose answer has no records.  The cycle neither renames
    nor writes: every file is as it was.  It still reads the data file
    for the summary when there is one, so it returns True when the file
    is absent or readable and False when that read raises. *)
Theorem cycle_empty_answer (w : world) :
  (forall fu tu, exists df,
      api_answer (Cron.base_url self) fu tu = Some df /\ empty df = true) ->
  exists w',
    run_update_cycle w
    = (Ok (match w_fs w !! Cron.data_file self with
           | Some f => bool_decide (is_Some (read_csv (f_data f)))
           | None => true
           end), w') /\
    w_fs w' = w_fs w /\ w_trace w' = w_trace w.
Proof.
  intros Hans.
  destruct (cycle_prefix w) as (fu & tu & wf & Hfs & Htr & Hh & _ & Hrun).
  destruct (Hans fu tu) as (df & Hdf & He). rewrite Hdf in Hrun.
  erewrite try_bind_run in Hrun by reflexivity.
  match type of Hrun with
  | context [try_except (clean_data (Some ?l0) ≫= _) _ ?wa] =>
      destruct (clean_data_run parse_datetime_fmt parse_numeric wa l0 df)
        as (l' & w1 & Hcl & _ & _ & _ & _ & Hc);
        [apply lookup_insert_eq|]
  end.
  rewrite He in Hc. destruct Hc as [-> ->].
  erewrite try_bind_run in Hrun by exact Hcl. clear Hcl.
  match type of Hrun with
  | context [try_except (Cron.update_data_file self (Some ?l0) ≫= _) _ ?wa] =>
      destruct (update_empty_run self wa (Some l0))
        as (w2 & Hup & Hfs2 & Htr2 & _);
        [exists df; split; [apply lookup_insert_eq|exact He]|]
  end.
  erewrite try_bind_run in Hrun by exact Hup. clear Hup.
  destruct (cycle_summary_run w2 0) as (w3 & Hsum & Hfs3 & Htr3 & _).
  rewrite Hsum in Hrun. cbn [w_fs w_trace set_heap] in Hfs2, Htr2.
  exists w3. rewrite Hrun, Hfs2, Hfs. split; [done|].
  split; congruence.
Qed.

(** The cycle from the merge on, for a frame with records and no data
    file. *)
Lemma cycle_store_absent (w : world) (l : positive) (d : DataFrame) :
  w_heap w !! l = Some d ->
  empty d = false ->
  w_fs w !! Cron.data_file self = None ->
  hd false (w_faults w) = false ->
  exists w',
    try_except
      (new_records_count ← Cron.update_data_file self (Some l);
       ex ← path_exists (Cron.data_file self);
       (if (ex : bool) then
          current_df ← pd_read_csv (Cron.data_file self);
          Cycle.display_summary (Some current_df) new_records_count
        else mret tt);;
       log INFO "Update cycle completed successfully" [];;
       mret true)
      (fun e => log ERROR "Error in update cycle: {}" [Str (exn_name e)];;
                mret false) w
    = (Ok (bool_decide (is_Some (read_csv (to_csv d)))), w') /\
    w_fs w' = <[Cron.data_file self := mkFile (to_csv d) (clock (w_ticks w))]>
                (w_fs w) /\
    w_trace w' = (w_trace w ++ [Wrote (Cron.data_file self)])%list.
Proof.
  intros Hl He Hf H1.
  destruct (update_absent_run self w l d Hl He Hf)
    as (w2 & Hup & Hfs2 & Htr2 & _).
  erewrite try_bind_run by exact Hup. clear Hup.
  unfold save_outcome in *. rewrite Hf, H1 in *. cbn [fst snd] in *.
  destruct (cycle_summary_run w2 (Z.of_nat (nrows d)))
    as (w3 & Hsum & Hfs3 & Htr3 & _).
  rewrite Hsum. rewrite Hfs2, lookup_insert_eq. cbn [f_data].
  exists w3. split; [reflexivity|]. split; congruence.
Qed.

(** X16. The first cycle with records.  With no data file on disk and a
    write that meets no fault, the cycle stores the cleaned answer as
    the data file, with one write and no rename.  It then reads the file
    back for the summary: it returns True when that read succeeds and
    False when it raises, the file being written in both cases. *)
Theorem cycle_first_run (w : world) (df : DataFrame) :
  (forall fu tu, api_answer (Cron.base_url self) fu tu = Some df) ->
  empty df = false ->
  w_fs w !! Cron.data_file self = None ->
  hd false (w_faults w) = false ->
  exists w' t,
    run_update_cycle w
    = (Ok (bool_decide (is_Some (read_csv (to_csv (clean_frame df))))), w') /\
    w_fs w' = <[Cron.data_file self := mkFile (to_csv (clean_frame df)) t]> (w_fs w) /\
    w_trace w' = (w_trace w ++ [Wrote (Cron.data_file self)])%list.
Proof.
  intros Hans He Hf H1.
  destruct (cycle_prefix w) as (fu & tu & wf & Hfs & Htr & Hh & Hfl & Hrun).
  rewrite Hans in Hrun.
  erewrite try_bind_run in Hrun by reflexivity.
  match type of Hrun with
  | context [try_except (clean_data (Some ?l0) ≫= _) _ ?wa] =>
      destruct (clean_data_run parse_datetime_fmt parse_numeric wa l0 df)
        as (l' & w1 & Hcl & Hfs1 & Htr1 & Hfl1 & _ & Hc);
        [apply lookup_insert_eq|]
  end.
  rewrite He in Hc. destruct Hc as [_ Hheap].
  erewrite try_bind_run in Hrun by exact Hcl. clear Hcl.
  cbn [w_fs w_trace w_faults set_heap] in Hfs1, Htr1, Hfl1.
  assert (Hl' : w_heap w1 !! l' = Some (clean_frame df)).
  { rewrite Hheap. apply lookup_insert_eq. }
  assert (He' : empty (clean_frame df) = false).
  { rewrite clean_frame_empty. exact He. }
  assert (Hf' : w_fs w1 !! Cron.data_file self = None) by congruence.
  assert (H1' : hd false (w_faults w1) = false) by congruence.
  destruct (cycle_store_absent w1 l' (clean_frame df) Hl' He' Hf' H1')
    as (w3 & Hrest & Hfs3 & Htr3).
  rewrite Hrest in Hrun.
  exists w3, (clock (w_ticks w1)). split; [exact Hrun|].
  split; congruence.
Qed.

(** X17. No exception leaves the cycle.  Whatever the network answers,
    whatever the data file holds and whatever faults the rename and the
    write meet, [run_update_cycle] returns a boolean; the frames the
    store held before are as they were, and the record of renames and
    writes is only extended. *)
Theorem cycle_never_raises (w : world) :
  exists b w',
    run_update_cycle w = (Ok b, w') /\
    (forall k, k ∈ dom (w_heap w) -> w_heap w' !! k = w_heap w !! k) /\
    (exists evs, w_trace w' = (w_trace w ++ evs)%list).
Proof.
  destruct (cycle_prefix w) as (fu & tu & wf & Hfs & Htr & Hh & _ & Hrun).
  destruct (api_answer (Cron.base_url self) fu tu) as [df|].
  2: { eexists _, _. split; [exact Hrun|]. cbn [w_heap w_trace set_log].
       split; [intros k _; by rewrite Hh|]. exists []. by rewrite app_nil_r. }
  erewrite try_bind_run in Hrun by reflexivity.
  match type of Hrun with
  | context [try_except (clean_data (Some ?l0) ≫= _) _ ?wa] =>
      pose proof (is_fresh (dom (w_heap wf))) as Hfresh;
      destruct (clean_data_run parse_datetime_fmt parse_numeric wa l0 df)
        as (l' & w1 & Hcl & _ & Htr1 & _ & _ & Hc);
        [apply lookup_insert_eq|]
  end.
  erewrite try_bind_run in Hrun by exact Hcl. clear Hcl.
  cbn [w_trace w_heap set_heap] in Htr1, Hc.
  set (l0 := fresh (dom (w_heap wf))) in *.
  assert (exists d, w_heap w1 !! l' = Some d /\
                    (forall k, k ∈ dom (w_heap w) -> k <> l' /\
                       w_heap w1 !! k = w_heap w !! k))
    as (d & Hl' & Hold).
  { destruct (empty df).
    - destruct Hc as [-> ->]. cbn [w_heap set_heap]. exists df.
      split; [apply lookup_insert_eq|]. intros k Hk. rewrite <- Hh in Hk.
      assert (k <> l0) by (intros ->; done).
      split; [done|]. rewrite lookup_insert_ne by done. by rewrite Hh.
    - destruct Hc as [Hnew ->]. eexists. split; [apply lookup_insert_eq|].
      intros k Hk. rewrite <- Hh in Hk.
      assert (k <> l0) by (intros ->; done).
      assert (k <> l').
      { intros ->. apply Hnew. rewrite dom_insert. set_solver. }
      split; [done|]. rewrite !lookup_insert_ne by done. by rewrite Hh. }
  destruct (update_effect w1 l' d Hl') as (r & w2 & Hup & Hk2 & [evs Hev] & _).
  erewrite try_bind_run in Hrun by exact Hup. clear Hup.
  destruct (cycle_summary_run w2 r) as (w3 & Hsum & _ & Htr3 & Hh3).
  rewrite Hsum in Hrun. eexists _, w3. split; [exact Hrun|]. split.
  - intros k Hk. destruct (Hold k Hk) as [Hne Hsame].
    rewrite Hh3, Hk2 by done. exact Hsame.
  - exists evs. rewrite Htr3, Hev, Htr1. cbn [w_trace set_heap]. by rewrite Htr.
Qed.

End CycleFacts.

(** ** What the key does not tell apart *)

Section KeyMore.
Context `{RT : Runtime}.

Lemma omap_ext_all {A B} (f g : A -> option B) (l : list A) :
  (forall a, f a = g a) -> omap f l = omap g l.
Proof. intros H. induction l as [|a l IH]; csimpl; [done|]. by rewrite H, IH. Qed.

(** X18. The key does not tell an absent value from the text NA.  A
    record with no value in a field and the same record with the text
    NA there get the same key, so the merge takes one for a duplicate of
    the other. *)
Theorem key_conflates_absent_with_text (row : Series) (field : string) :
  series_get row field = Some NA ->
  Cron.create_unique_key (assoc_set row field (Str "NA"))
  = Cron.create_unique_key row.
Proof.
  intros Hna. rewrite !create_unique_key_identity_key. unfold identity_key.
  f_equal. apply omap_ext_all. intros g. unfold key_part, series_get in *.
  destruct (decide (field = g)) as [<-|Hne].
  - by rewrite assoc_get_set, Hna.
  - by rewrite assoc_get_set_ne.
Qed.

End KeyMore.

(** ** The fetch of main.py, whole *)

Section MainFetchMore.
Context `{RT : Runtime}.
Variable self : Main.Scraper.

Ltac leaf :=
  eexists; split; [reflexivity|]; mstep; split; [done|];
  let p := fresh "p" in let Hp := fresh "Hp" in
  intros p Hp; first [done | by rewrite lookup_insert_ne].

(** X19. The fetch of main.py lets no exception out and returns a frame
    with the two date texts exactly when the answer to its one request
    has status 200, decodes, declares JSON and is an object whose data
    member holds rows that make a frame; it returns None otherwise,
    also for an empty data member.  It changes no frame, and the only
    file it can write is nse_response_debug.html. *)
Theorem main_fetch_result (w : world) (days_back : Z) :
  exists w',
    Main.fetch_insider_data self days_back w
    = (Ok (match session_get (api_url (Main.base_url self))
                   (api_params (clock (w_ticks w) - timedelta_days days_back)
                               (clock (w_ticks w))) with
           | Ok resp =>
               (fun df => (df,
                           strftime "%d-%m-%Y"
                             (clock (w_ticks w) - timedelta_days days_back),
                           strftime "%d-%m-%Y" (clock (w_ticks w))))
                 <$> main_answer resp
           | Raised _ => None
           end), w') /\
    w_heap w' = w_heap w /\
    (forall p, p <> "nse_response_debug.html" -> w_fs w' !! p = w_fs w !! p).
Proof.
  unfold Main.fetch_insider_data, Main.print, main_answer, decoded_body,
    api_url, api_params. mstep.
  destruct (session_get _ _) as [resp|e]; mstep; [|destruct e; mstep; leaf].
  destruct (status_code resp =? 200); mstep; [|leaf].
  destruct (contains "br" _); mstep.
  - destruct brotli_installed; mstep; [|leaf].
    destruct (brotli_decompress (body resp)) as [d|]; mstep; [|leaf].
    cbn [option_bind].
    destruct (utf8_decode d) as [s|]; mstep; [|leaf].
    destruct (contains "application/json" _); mstep.
    + destruct (json_loads s) as [[| | | | |members]|]; mstep; try leaf.
      destruct (dict_get members "data") as [rows|]; mstep; [|leaf].
      destruct (truthy rows); mstep; [|leaf].
      destruct (frame_of_json rows) as [df|e]; mstep; [leaf|].
      destruct e; mstep; leaf.
    + unfold Main.write_text, next_fault, after_failed_write. mstep.
      destruct (w_faults w) as [|[] rest]; mstep;
        try destruct (failed_write _); mstep; leaf.
  - destruct (contains "application/json" _); mstep.
    + destruct (json_loads (text resp)) as [[| | | | |members]|]; mstep; try leaf.
      destruct (dict_get members "data") as [rows|]; mstep; [|leaf].
      destruct (truthy rows); mstep; [|leaf].
      destruct (frame_of_json rows) as [df|e]; mstep; [leaf|].
      destruct e; mstep; leaf.
    + unfold Main.write_text, next_fault, after_failed_write. mstep.
      destruct (w_faults w) as [|[] rest]; mstep;
        try destruct (failed_write _); mstep; leaf.
Qed.

End MainFetchMore.

(** ** The further theorems at concrete inputs *)

Lemma update_data_file_total_witness :
  exists r w',
    Cron.update_data_file demo_self (Some 1%positive)
      (demo_world demo_corrupt_fs {[ 1%positive := demo_incoming_new ]} [true])
    = (Ok r, w') /\
    0 <= r <= Z.of_nat (nrows demo_incoming_new).
Proof.
  apply (update_data_file_total demo_self
           (demo_world demo_corrupt_fs {[ 1%positive := demo_incoming_new ]} [true])
           1%positive demo_incoming_new).
  reflexivity.
Defined.

Lemma merge_appends_new_records_witness :
  exists w' combined perm,
    Cron.update_data_file demo_self (Some 1%positive)
      (demo_world demo_stored_fs {[ 1%positive := demo_incoming_new ]} [])
    = (Ok 1, w') /\
    w_fs w' !! "nse_insider_trading_data.csv"
      = Some (mkFile (to_csv combined) (clock 1)) /\
    nrows combined = 3%nat /\
    has_column "unique_key" combined = false /\
    perm ≡ₚ seq 0 (nrows combined) /\
    column combined "symbol"
      = reorder perm [Str "XYZ"; Str "ABC"; Str "NEW"] /\
    column combined "date"
      = reorder perm [Date 1706745600000000; Date 1704067200000000;
                      Date 1708387200000000] /\
    column combined "secVal" = reorder perm [NA; Num 100; Num 7] /\
    date_sorted_desc (column combined "date") = true /\
    w_fs w' !! backup_name "nse_insider_trading_data.csv" (clock 0)
      = Some demo_stored_file.
Proof.
  destruct (merge_appends_new_records demo_self
              (demo_world demo_stored_fs {[ 1%positive := demo_incoming_new ]} [])
              1%positive demo_incoming_new demo_stored demo_stored_file)
    as (w' & combined & perm & Hrun & Hfile & Hn & Huk & Hcols & Hperm
        & Hcells & Hs & Hb);
    [reflexivity | reflexivity | reflexivity | reflexivity | reflexivity
    | vm_compute; discriminate | reflexivity | reflexivity |].
  assert (Hhas : forall c, c <> "unique_key" ->
                           has_column c demo_stored = true ->
                           has_column c combined = true).
  { intros c Hc Hin. apply Hcols. split; [exact Hc|]. left. exact Hin. }
  exists w', combined, perm.
  split; [exact Hrun|]. split; [exact Hfile|]. split; [exact Hn|].
  split; [exact Huk|]. split; [exact Hperm|].
  split; [exact (Hcells "symbol" (Hhas "symbol" ltac:(discriminate) eq_refl))|].
  split; [exact (Hcells "date" (Hhas "date" ltac:(discriminate) eq_refl))|].
  split; [exact (Hcells "secVal" (Hhas "secVal" ltac:(discriminate) eq_refl))|].
  split; [exact Hs | exact Hb].
Defined.

Lemma merge_failure_overwrites_with_incoming_witness :
  exists w',
    Cron.update_data_file demo_self (Some 1%positive)
      (demo_world demo_stored_fs {[ 1%positive := demo_raw ]} [])
    = (Ok 2, w') /\
    w_fs w' !! "nse_insider_trading_data.csv"
      = Some (mkFile (to_csv (keyed demo_raw)) (clock 1)) /\
    has_column "unique_key" (keyed demo_raw) = true /\
    nrows (keyed demo_raw) = 2%nat /\
    w_fs w' !! backup_name "nse_insider_trading_data.csv" (clock 0)
      = Some demo_stored_file.
Proof.
  apply (merge_failure_overwrites_with_incoming demo_self
           (demo_world demo_stored_fs {[ 1%positive := demo_raw ]} [])
           1%positive demo_raw demo_stored demo_stored_file TypeError);
    reflexivity.
Defined.

Lemma write_failure_keeps_backup_only_witness :
  exists w',
    Cron.update_data_file demo_self (Some 1%positive)
      (demo_world demo_corrupt_fs {[ 1%positive := demo_incoming_new ]}
         [false; true])
    = (Ok 0, w') /\
    w_fs w' !! "nse_insider_trading_data.csv"
      = Some (mkFile (inr "") (clock 1)) /\
    w_fs w' !! backup_name "nse_insider_trading_data.csv" (clock 0)
      = Some demo_corrupt_file /\
    (forall p, p <> "nse_insider_trading_data.csv" ->
               p <> backup_name "nse_insider_trading_data.csv" (clock 0) ->
               w_fs w' !! p = demo_corrupt_fs !! p) /\
    w_trace w' = [Renamed "nse_insider_trading_data.csv"
                    (backup_name "nse_insider_trading_data.csv" (clock 0))].
Proof.
  refine (write_failure_keeps_backup_only demo_self
            (demo_world demo_corrupt_fs {[ 1%positive := demo_incoming_new ]}
               [false; true])
            1%positive demo_incoming_new demo_incoming_new demo_corrupt_file
            _ _ _ _ _ _);
    try reflexivity.
  left. split; reflexivity.
Defined.

Lemma first_creation_writes_incoming_witness :
  exists w',
    Cron.update_data_file demo_self (Some 1%positive)
      (demo_world ∅ {[ 1%positive := demo_incoming_ascending ]} [])
    = (Ok 2, w') /\
    w_fs w' = <["nse_insider_trading_data.csv" :=
                  mkFile (to_csv demo_incoming_ascending) (clock 0)]> ∅ /\
    w_trace w' = [Wrote "nse_insider_trading_data.csv"] /\
    w_heap w' = {[ 1%positive := demo_incoming_ascending ]}.
Proof.
  refine (first_creation_writes_incoming demo_self
           (demo_world ∅ {[ 1%positive := demo_incoming_ascending ]} [])
           1%positive demo_incoming_ascending _ _ _ _);
    reflexivity.
Defined.

Lemma main_fetch_saves_non_json_witness :
  exists w',
    Main.fetch_insider_data (RT := html_runtime)
      (Main.mkScraper "https://www.nseindia.com") 30
      (mkWorld ∅ ∅ 0 [true] [] [])
    = (Ok None, w') /\
    w_heap w' = ∅ /\
    (forall p, p <> "nse_response_debug.html" ->
               w_fs w' !! p = (∅ : gmap string (@file html_runtime)) !! p) /\
    w_trace w' = [] /\
    w_fs w' !! "nse_response_debug.html"
    = Some (@mkFile html_runtime (@encode_text html_runtime "")
              (@clock html_runtime 1)).
Proof.
  refine (main_fetch_saves_non_json (RT := html_runtime)
            (Main.mkScraper "https://www.nseindia.com")
            (mkWorld ∅ ∅ 0 [true] [] []) 30 demo_html_response
            "<html>blocked</html>" _ _ _ _);
    reflexivity.
Defined.

Lemma clean_frame_normalises_witness :
  nrows (Cycle.clean_frame demo_parse_datetime_fmt demo_parse_numeric demo_raw)
    = nrows demo_raw /\
  columns (Cycle.clean_frame demo_parse_datetime_fmt demo_parse_numeric demo_raw)
    = columns demo_raw /\
  (exists raw, get_column demo_raw "date" = Some raw /\ length [Date 1708387200000000; NA] = length raw) /\
  forallb (fun v => negb (is_sentinel v)) [Date 1708387200000000; NA] = true /\
  ("date" ∈ Cycle.date_columns ->
   forallb is_time [Date 1708387200000000; NA] = true) /\
  ("date" ∈ Cycle.numeric_columns ->
   forallb is_number [Date 1708387200000000; NA] = true).
Proof.
  refine (clean_frame_normalises demo_parse_datetime_fmt demo_parse_numeric
           demo_raw "date" [Date 1708387200000000; NA] _).
  reflexivity.
Defined.

Example clean_frame_demo :
  Cycle.clean_frame demo_parse_datetime_fmt demo_parse_numeric demo_raw
  = mkDF 2 [("symbol", [Str "NEW"; NA]);
            ("date", [Date 1708387200000000; NA]);
            ("secVal", [Num 7; NA])].
Proof. reflexivity. Qed.

Lemma clean_data_copies_witness :
  exists l' w',
    Cycle.clean_data demo_parse_datetime_fmt demo_parse_numeric (Some 1%positive)
      (demo_world ∅ {[ 1%positive := demo_raw ]} [])
    = (Ok (Some l'), w') /\
    (l' = 1%positive <-> empty demo_raw = true) /\
    w_heap w' !! 1%positive = Some demo_raw /\
    w_heap w' !! l'
      = Some (if empty demo_raw then demo_raw
              else Cycle.clean_frame demo_parse_datetime_fmt demo_parse_numeric
                     demo_raw) /\
    (forall k, k <> l' ->
       w_heap w' !! k
       = w_heap (demo_world ∅ {[ 1%positive := demo_raw ]} []) !! k) /\
    w_fs w' = ∅ /\ w_trace w' = [].
Proof.
  refine (clean_data_copies demo_parse_datetime_fmt demo_parse_numeric
           (demo_world ∅ {[ 1%positive := demo_raw ]} []) 1%positive demo_raw _).
  reflexivity.
Defined.


Lemma cycle_fetch_failure_witness :
  exists w',
    Cycle.run_update_cycle (RT := offline_runtime)
      demo_parse_datetime_fmt demo_parse_numeric demo_self
      (mkWorld ∅ ∅ 0 [] [] [])
    = (Ok false, w') /\
    w_fs w' = ∅ /\ w_trace w' = [] /\ w_heap w' = ∅.
Proof.
  refine (cycle_fetch_failure (RT := offline_runtime)
           demo_parse_datetime_fmt demo_parse_numeric demo_self
           (mkWorld ∅ ∅ 0 [] [] []) _).
  intros fu tu. reflexivity.
Defined.

Lemma cycle_empty_answer_witness :
  exists w',
    Cycle.run_update_cycle demo_parse_datetime_fmt demo_parse_numeric demo_self
      (demo_world demo_corrupt_fs ∅ [])
    = (Ok false, w') /\
    w_fs w' = demo_corrupt_fs /\ w_trace w' = [].
Proof.
  refine (cycle_empty_answer demo_parse_datetime_fmt demo_parse_numeric demo_self
           (demo_world demo_corrupt_fs ∅ []) _).
  intros fu tu. exists empty_frame. split; reflexivity.
Defined.

Lemma cycle_first_run_witness :
  exists w' t,
    Cycle.run_update_cycle (RT := rows_runtime)
      demo_parse_datetime_fmt demo_parse_numeric demo_self
      (mkWorld ∅ ∅ 0 [] [] [])
    = (Ok true, w') /\
    w_fs w' = <["nse_insider_trading_data.csv" :=
                  mkFile (to_csv (Cycle.clean_frame demo_parse_datetime_fmt
                                    demo_parse_numeric demo_raw)) t]> ∅ /\
    w_trace w' = [Wrote "nse_insider_trading_data.csv"].
Proof.
  refine (cycle_first_run (RT := rows_runtime)
           demo_parse_datetime_fmt demo_parse_numeric demo_self
           (mkWorld ∅ ∅ 0 [] [] []) demo_raw _ _ _ _);
    reflexivity.
Defined.

Lemma key_conflates_absent_with_text_witness :
  Cron.create_unique_key [("symbol", Str "NA"); ("company", Str "Acme")]
  = Cron.create_unique_key [("symbol", NA); ("company", Str "Acme")].
Proof.
  exact (key_conflates_absent_with_text
           [("symbol", NA); ("company", Str "Acme")] "symbol" eq_refl).
Defined.
